(** * sf-profile-full: batched retrieval and canonicalisation pipeline

    A shallow embedding of the services of the plugin
    ([profileMetadataService], [profileCleaner], the reconciliation loop of
    the [profile retrieve full] command) together with the properties the
    specification states about them.

    JavaScript values are modelled as finite trees; the two classes of the
    [fast-xml-parser] package ([XMLParser], [XMLBuilder]) and the remote
    [connection.metadata.read] call are external to the repository and are
    taken as parameters of the development. *)

From Stdlib Require Import ZArith Ascii String List Lia.
From stdpp Require Import base option list strings pretty gmap.

Set Warnings "-register-all".
Local Open Scope string_scope.
Local Open Scope list_scope.

(** ** JavaScript values *)

(** Numbers are IEEE doubles. The pipeline never computes with the numeric
    leaves of a record: it tests a value for truthiness and, in a template
    literal, takes its text. A number is therefore given by the text
    [Number::toString] gives for it ([7], [1.5], [1e+21], [-Infinity],
    [NaN]), which determines it up to the sign of zero: [0] and [-0] both
    print as [0] and are both falsy. *)
Record JsNumber : Type := mkNumber {
  number_text : string;
}.

Definition NaN : JsNumber := mkNumber "NaN".

(** The integer [z], for [z] within the safe integers, whose text is the
    decimal numeral. *)
Definition Num (z : Z) : JsNumber := mkNumber (pretty z).

(** A loosely typed value ([Record<string, any>], [unknown]): a primitive,
    an array, or a plain object given by its own enumerable properties in
    property order, the order of [Object.entries], of [for ... in] and of
    a spread: the names that are array indices first, in ascending numeric
    order, then the other names in the order in which they were created.
    No property is named [__proto__]. *)
Inductive JsValue : Type :=
| JUndefined
| JNull
| JBool (b : bool)
| JNum (n : JsNumber)
| JStr (s : string)
| JArr (items : list JsValue)
| JObj (entries : list (string * JsValue)).

Section JsValue_induction.
Variable P : JsValue -> Prop.
Hypothesis Hundefined : P JUndefined.
Hypothesis Hnull : P JNull.
Hypothesis Hbool : forall b, P (JBool b).
Hypothesis Hnum : forall n, P (JNum n).
Hypothesis Hstr : forall s, P (JStr s).
Hypothesis Harr : forall items, Forall P items -> P (JArr items).
Hypothesis Hobj : forall entries, Forall (fun e => P (snd e)) entries -> P (JObj entries).

Fixpoint JsValue_nested_ind (v : JsValue) : P v :=
  match v with
  | JUndefined => Hundefined
  | JNull => Hnull
  | JBool b => Hbool b
  | JNum n => Hnum n
  | JStr s => Hstr s
  | JArr items =>
      Harr items
        ((fix go (l : list JsValue) : Forall P l :=
            match l with
            | [] => List.Forall_nil P
            | x :: l' => List.Forall_cons P x l' (JsValue_nested_ind x) (go l')
            end) items)
  | JObj entries =>
      Hobj entries
        ((fix go (l : list (string * JsValue)) : Forall (fun e => P (snd e)) l :=
            match l with
            | [] => List.Forall_nil _
            | e :: l' =>
                List.Forall_cons (fun e => P (snd e)) e l'
                  (JsValue_nested_ind (snd e)) (go l')
            end) entries)
  end.
End JsValue_induction.

(** [ToBoolean]: the falsy values are [undefined], [null], [false], [0],
    [-0], [NaN] and the empty string; arrays and objects are always
    truthy. *)
Definition js_truthy (v : JsValue) : bool :=
  match v with
  | JUndefined | JNull => false
  | JBool b => b
  | JNum n => negb (String.eqb (number_text n) "0" || String.eqb (number_text n) "NaN")
  | JStr s => negb (String.eqb s "")
  | JArr _ | JObj _ => true
  end.

(** Own-property lookup in an entry list. *)
Fixpoint obj_lookup {V} (key : string) (entries : list (string * V)) : option V :=
  match entries with
  | [] => None
  | (k, v) :: rest => if String.eqb k key then Some v else obj_lookup key rest
  end.

(** [result[key] = value] in the copy loop of [removeMetaKeys]: an existing
    property keeps its position and takes the new value, a new property
    goes last. The loop assigns the names of one object in the property
    order of that object, so that a new name is never an array index below
    one already there (lemma [obj_define_in_order]). *)
Fixpoint obj_set {V} (entries : list (string * V)) (key : string) (value : V)
  : list (string * V) :=
  match entries with
  | [] => [(key, value)]
  | (k, v) :: rest =>
      if String.eqb k key then (k, value) :: rest
      else (k, v) :: obj_set rest key value
  end.

(** [delete obj[key]] on the entries of a plain object. *)
Definition obj_delete {V} (key : string) (entries : list (string * V))
  : list (string * V) :=
  List.filter (fun e => negb (String.eqb (fst e) key)) entries.

(** An array index: the canonical numeral of an integer from [0] to
    [2^32 - 2] ([7], but neither [07] nor [4294967295]). *)
Definition digit_value (c : ascii) : option N :=
  let n := N_of_ascii c in
  if N.leb 48 n && N.leb n 57 then Some (n - 48)%N else None.

Fixpoint decimal_value (acc : N) (s : string) : option N :=
  match s with
  | EmptyString => Some acc
  | String c rest =>
      match digit_value c with
      | Some d => decimal_value (10 * acc + d)%N rest
      | None => None
      end
  end.

Definition array_index (key : string) : option N :=
  match key with
  | EmptyString => None
  | String c rest =>
      if Ascii.eqb c "0"%char && negb (String.eqb rest EmptyString) then None
      else
        match decimal_value 0 key with
        | Some n => if N.ltb n 4294967295 then Some n else None
        | None => None
        end
  end.


(** Where a new property named by the array index [n] goes: after the
    array indices below [n], ahead of everything else. *)
Fixpoint insert_index {V} (n : N) (key : string) (value : V)
    (entries : list (string * V)) : list (string * V) :=
  match entries with
  | [] => [(key, value)]
  | (k, v) :: rest =>
      match array_index k with
      | Some m =>
          if N.ltb m n then (k, v) :: insert_index n key value rest
          else (key, value) :: entries
      | None => (key, value) :: entries
      end
  end.

(** Names in property order: the array indices in ascending order, then
    the other names. *)
Definition may_follow (k k' : string) : bool :=
  match array_index k, array_index k' with
  | Some n, Some m => N.ltb n m
  | Some _, None => true
  | None, Some _ => false
  | None, None => true
  end.

Fixpoint in_property_order (keys : list string) : bool :=
  match keys with
  | [] => true
  | k :: rest => forallb (may_follow k) rest && in_property_order rest
  end.

(** Defining the property [key] on any plain object, as an object literal
    and a spread do: an existing property keeps its position and takes the
    new value; a new one goes to its place in property order. *)
Definition obj_define {V} (entries : list (string * V)) (key : string) (value : V)
  : list (string * V) :=
  if existsb (String.eqb key) (map fst entries) then obj_set entries key value
  else
    match array_index key with
    | Some n => insert_index n key value entries
    | None => entries ++ [(key, value)]
    end.

(** [v[key]] for the property names this program reads ([fullName],
    [Profile]): neither exists on a primitive wrapper or on an array, so
    only a plain object can answer with something else than [undefined]. *)
Definition js_get (v : JsValue) (key : string) : JsValue :=
  match v with
  | JObj entries => default JUndefined (obj_lookup key entries)
  | _ => JUndefined
  end.

(** [delete v[key]] for a name that is no array index: a no-op on anything
    but a plain object. *)
Definition js_delete (v : JsValue) (key : string) : JsValue :=
  match v with
  | JObj entries => JObj (obj_delete key entries)
  | _ => v
  end.

(** Pairwise distinct property names. *)
Fixpoint distinct (ks : list string) : bool :=
  match ks with
  | [] => true
  | k :: rest => negb (existsb (String.eqb k) rest) && distinct rest
  end.

(** A well-formed tree: every object, at every depth, has pairwise distinct
    property names. *)
Fixpoint wf_value (v : JsValue) : bool :=
  match v with
  | JArr items => forallb wf_value items
  | JObj entries =>
      distinct (map fst entries) && forallb (fun e => wf_value (snd e)) entries
  | _ => true
  end.

(** [key] names a property somewhere in the tree, at any depth, including
    inside array elements. *)
Fixpoint key_occurs (key : string) (v : JsValue) : bool :=
  match v with
  | JArr items => existsb (key_occurs key) items
  | JObj entries =>
      existsb (fun e => String.eqb (fst e) key || key_occurs key (snd e)) entries
  | _ => false
  end.

Definition entry_mentions (key : string) (e : string * JsValue) : bool :=
  String.eqb (fst e) key || key_occurs key (snd e).

(** Nesting depth of a tree. *)
Fixpoint depth (v : JsValue) : nat :=
  match v with
  | JArr items => S (list_max (map depth items))
  | JObj entries => S (list_max (map (fun e => depth (snd e)) entries))
  | _ => 0
  end.

(** ** profileMetadataService: the transport-key normaliser *)

Definition is_meta_key (key : string) : bool :=
  String.eqb key "$" || String.eqb key "type".

(** [removeMetaKeys]: arrays are mapped, objects are rebuilt entry by entry
    into a fresh [result] skipping the two jsforce keys, anything else is
    returned as it is. *)
Fixpoint removeMetaKeys (obj : JsValue) : JsValue :=
  match obj with
  | JArr items => JArr (map removeMetaKeys items)
  | JObj entries =>
      JObj (fold_left
              (fun result e =>
                 if is_meta_key (fst e) then result
                 else obj_set result (fst e) (removeMetaKeys (snd e)))
              entries [])
  | _ => obj
  end.

(** One round of the copy loop of [removeMetaKeys]. *)
Definition copy_step (result : list (string * JsValue)) (e : string * JsValue)
  : list (string * JsValue) :=
  if is_meta_key (fst e) then result
  else obj_set result (fst e) (removeMetaKeys (snd e)).

(** The normaliser as the specification words it: drop the two reserved
    keys from every record, keep every other entry where it was, recurse
    into values and sequence elements. *)
Fixpoint strip_transport_keys (v : JsValue) : JsValue :=
  match v with
  | JArr items => JArr (map strip_transport_keys items)
  | JObj entries =>
      JObj (List.filter (fun e => negb (is_meta_key (fst e)))
              (map (fun e => (fst e, strip_transport_keys (snd e))) entries))
  | _ => v
  end.

(** ** profileMetadataService: batching *)

Definition BATCH_SIZE : nat := 10.

(** [arr.slice(start, stop)] for [0 <= start]. *)
Definition slice {A} (arr : list A) (start stop : nat) : list A :=
  take (stop - start) (drop start arr).

(** The [for (let i = 0; i < arr.length; i += size)] loop of [chunkArray].
    With [size = 0] the index never advances and the loop does not end:
    the model then runs out of [fuel] and answers [None]. *)
Fixpoint chunk_loop {A} (fuel : nat) (arr : list A) (size i : nat)
    (chunks : list (list A)) : option (list (list A)) :=
  if decide (i < length arr) then
    match fuel with
    | O => None
    | S fuel' =>
        chunk_loop fuel' arr size (i + size) (chunks ++ [slice arr i (i + size)])
    end
  else Some chunks.

Definition chunkArray {A} (arr : list A) (size : nat) : option (list (list A)) :=
  chunk_loop (length arr) arr size 0 [].

(** Rounded-up quotient. *)
Definition ceil_div (n d : nat) : nat := (n + d - 1) / d.

(** ** Exceptions and effects *)

(** A call either returns a value or throws (rejects) with a message. *)
Inductive Result (A : Type) : Type :=
| Ok (a : A)
| Thrown (msg : string).
Arguments Ok {A} a.
Arguments Thrown {A} msg.

Definition result_bind {A B} (r : Result A) (k : A -> Result B) : Result B :=
  match r with
  | Ok a => k a
  | Thrown msg => Thrown msg
  end.

(** A [for (const x of xs)] loop over a local accumulator whose body may throw. *)
Fixpoint result_for {A B} (xs : list A) (acc : B) (body : B -> A -> Result B) : Result B :=
  match xs with
  | [] => Ok acc
  | x :: rest => result_bind (body acc x) (fun acc' => result_for rest acc' body)
  end.

(** The world a command run acts on: the remote org behind the connection,
    the log of [metadata.read] calls issued so far (type name and
    identifier list of each call, oldest first) and the file system. *)
Record World (St Fs : Type) : Type := mkWorld {
  remote : St;
  calls : list (string * list string);
  disk : Fs;
}.
Arguments mkWorld {St Fs} _ _ _.
Arguments remote {St Fs} _.
Arguments calls {St Fs} _.
Arguments disk {St Fs} _.

(** Effectful computations: state passing over the world, with exceptions. *)
Definition M (St Fs A : Type) : Type := World St Fs -> World St Fs * Result A.

Definition ret {St Fs A} (a : A) : M St Fs A := fun w => (w, Ok a).

Definition bind {St Fs A B} (m : M St Fs A) (k : A -> M St Fs B) : M St Fs B :=
  fun w =>
    match m w with
    | (w', Ok a) => k a w'
    | (w', Thrown msg) => (w', Thrown msg)
    end.

Definition lift {St Fs A} (r : Result A) : M St Fs A := fun w => (w, r).

(** [try { m } catch (error) { handler(message of error) }] *)
Definition try_catch {St Fs A} (m : M St Fs A) (handler : string -> M St Fs A) : M St Fs A :=
  fun w =>
    match m w with
    | (w', Ok a) => (w', Ok a)
    | (w', Thrown msg) => handler msg w'
    end.

Notation "'await' x <- m ; k" := (bind m (fun x => k))
  (at level 10, x name, m at level 100, k at level 200).

(** A [for (const x of xs)] loop with effects in its body. *)
Fixpoint for_of {St Fs A B} (xs : list A) (acc : B) (body : B -> A -> M St Fs B) : M St Fs B :=
  match xs with
  | [] => ret acc
  | x :: rest => await acc' <- body acc x; for_of rest acc' body
  end.

(** ** Constants and records of the services *)

Definition dquote : string := String "034"%char EmptyString.
Definition newline : string := String "010"%char EmptyString.

Definition XML_DECLARATION : string :=
  "<?xml version=" +:+ dquote +:+ "1.0" +:+ dquote +:+
  " encoding=" +:+ dquote +:+ "UTF-8" +:+ dquote +:+ "?>" +:+ newline.

Definition PROFILE_XMLNS : string := "http://soap.sforce.com/2006/04/metadata".

(** [RetrievedProfile]. The [fullName] is whatever value the raw record
    carried under that name: [item.fullName as string] is a cast only. *)
Record RetrievedProfile : Type := mkRetrieved {
  fullName : JsValue;
  xml : string;
}.

Record CleanOptions : Type := mkCleanOptions {
  removeLoginIpRanges : bool;
  removeUserLicense : bool;
  removeLoginHours : bool;
}.

Definition DEFAULT_CLEAN_OPTIONS : CleanOptions :=
  {| removeLoginIpRanges := true; removeUserLicense := true; removeLoginHours := true |}.

(** [ProfileRetrieveResult], one outcome of the command. *)
Record ProfileRetrieveResult : Type := mkOutcome {
  name : JsValue;
  success : bool;
  filePath : option string;
  error : option string;
}.

Record ProfileRetrieveFullResult : Type := mkFullResult {
  profiles : list ProfileRetrieveResult;
  totalRequested : nat;
  totalSuccess : nat;
  totalFailed : nat;
}.

(** ** Destructuring helpers *)

(** The own enumerable properties a rest pattern [{ ...rest } = v] copies;
    [None] where destructuring throws a [TypeError] ([null], [undefined]). *)
Definition own_entries (v : JsValue) : option (list (string * JsValue)) :=
  match v with
  | JUndefined | JNull => None
  | JBool _ | JNum _ => Some []
  | JStr s =>
      Some (imap (fun i c => (pretty i, JStr (String c EmptyString)))
              (list_ascii_of_string s))
  | JArr items => Some (imap (fun i x => (pretty i, x)) items)
  | JObj entries => Some entries
  end.

(** [{ ...base, ...more }]: the properties of [more] are defined in order. *)
Definition obj_spread (base more : list (string * JsValue)) : list (string * JsValue) :=
  fold_left (fun o e => obj_define o (fst e) (snd e)) more base.

(** The value is the string [n] (the comparison a [Set] of names makes
    when asked for a string). *)
Definition is_string (n : string) (v : JsValue) : bool :=
  match v with
  | JStr s => String.eqb s n
  | _ => false
  end.

(** [String(v)], the conversion a template literal applies. *)
Fixpoint js_to_string (v : JsValue) : string :=
  match v with
  | JUndefined => "undefined"
  | JNull => "null"
  | JBool true => "true"
  | JBool false => "false"
  | JNum n => number_text n
  | JStr s => s
  | JArr items =>
      String.concat ","
        (map (fun x => match x with
                       | JUndefined | JNull => ""
                       | _ => js_to_string x
                       end) items)
  | JObj _ => "[object Object]"
  end.

(** [Array.isArray(raw) ? raw : [raw]] *)
Definition as_items (raw : JsValue) : list JsValue :=
  match raw with
  | JArr items => items
  | _ => [raw]
  end.

(** Answering every read with an array: a bare record becomes a
    one-element array, an array stays what it is. *)
Definition listify (raw : JsValue) : JsValue :=
  match raw with
  | JArr _ => raw
  | _ => JArr [raw]
  end.

Definition answering_with_arrays {St}
    (metadata_read : St -> string -> list string -> St * Result JsValue)
  : St -> string -> list string -> St * Result JsValue :=
  fun st type batch =>
    let '(st', r) := metadata_read st type batch in
    (st', match r with
          | Ok raw => Ok (listify raw)
          | Thrown msg => Thrown msg
          end).

(** An entry the inner loop keeps: truthy, with a truthy [fullName]. *)
Definition valid_item (item : JsValue) : bool :=
  js_truthy item && js_truthy (js_get item "fullName").

(** ** Cleaning configuration and outcomes *)

(** The three top-level fields the default configuration strips. *)
Definition non_portable (key : string) : bool :=
  String.eqb key "loginIpRanges" || String.eqb key "userLicense" ||
  String.eqb key "loginHours".

(** The fields a configuration strips. *)
Definition stripped_by (options : CleanOptions) (key : string) : bool :=
  (removeLoginIpRanges options && String.eqb key "loginIpRanges") ||
  (removeUserLicense options && String.eqb key "userLicense") ||
  (removeLoginHours options && String.eqb key "loginHours").

(** The three conditional [delete] statements of [cleanProfileXml]. *)
Definition apply_clean (options : CleanOptions) (profile : JsValue) : JsValue :=
  let profile :=
    if removeLoginIpRanges options then js_delete profile "loginIpRanges" else profile in
  let profile :=
    if removeUserLicense options then js_delete profile "userLicense" else profile in
  if removeLoginHours options then js_delete profile "loginHours" else profile.

Definition NOT_FOUND : string :=
  "Profile not found in org or not returned by readMetadata()".

(** An outcome is a success with a file path or a failure with a reason. *)
Definition outcome_wf (o : ProfileRetrieveResult) : bool :=
  match success o, filePath o, error o with
  | true, Some _, None => true
  | false, None, Some _ => true
  | _, _, _ => false
  end.

(** What an outcome says about the file of its profile: a success names
    the file [path.join(outputDir, `${name}.profile-meta.xml`)] and has
    no error, a failure has an error and no file. *)
Definition reported_at (path_join : string -> string -> string) (outputDir : string)
    (o : ProfileRetrieveResult) : Prop :=
  if success o
  then filePath o =
         Some (path_join outputDir (js_to_string (name o) +:+ ".profile-meta.xml")) /\
       error o = None
  else filePath o = None /\ error o <> None.




Definition not_found (n : string) : ProfileRetrieveResult :=
  {| name := JStr n; success := false; filePath := None; error := Some NOT_FOUND |}.

(** ** The services *)

Section Services.
(** The remote org and the file system are abstract state. *)
Context {St Fs : Type}.

(** [connection.metadata.read(type, fullNames)]: the remote read, which
    answers with one bare record or with an array of records, or rejects. *)
Variable metadata_read : St -> string -> list string -> St * Result JsValue.

(** [new XMLBuilder(...).build]: both call sites configure the builder
    with the same options ([ignoreAttributes: false], [format: true],
    four-space indent, no suppression of empty nodes). *)
Variable build : JsValue -> string.

(** [new XMLParser(parserOptions).parse]: the parsed document, an object. *)
Variable parse : string -> Result (list (string * JsValue)).

(** The calls of [node:fs] and [node:path] that [formatConverter] makes:
    [fs.mkdirSync(dir, { recursive: true })], [fs.writeFileSync(path,
    content, 'utf-8')] and [path.join(dir, file)]. *)
Variable mkdirSync : Fs -> string -> Fs * Result unit.
Variable writeFileSync : Fs -> string -> string -> Fs * Result unit.
Variable path_join : string -> string -> string.

(** *** profileMetadataService *)

(** The [wrapped] tree [buildProfileXml] hands to the builder, for the
    entries of the normalised record. *)
Definition wrapped (cleaned : list (string * JsValue)) : JsValue :=
  let profileBody := obj_delete "fullName" cleaned in
  JObj [("Profile", JObj (obj_spread [("@_xmlns", JStr PROFILE_XMLNS)] profileBody))].

Definition buildProfileXml (profile : JsValue) : Result string :=
  let cleaned := removeMetaKeys profile in
  match own_entries cleaned with
  | None => Thrown "TypeError: cannot destructure"
  | Some entries => Ok (XML_DECLARATION +:+ build (wrapped entries))
  end.

(** The body of the inner [for (const item of items)] loop. *)
Definition retrieve_item (results : list RetrievedProfile) (item : JsValue)
  : Result (list RetrievedProfile) :=
  if negb (js_truthy item) then Ok results
  else if negb (js_truthy (js_get item "fullName")) then Ok results
  else
    result_bind (buildProfileXml item) (fun xml =>
      Ok (results ++ [{| fullName := js_get item "fullName"; xml := xml |}])).

Definition read_call (type : string) (batch : list string) : M St Fs JsValue :=
  fun w =>
    let '(st', raw) := metadata_read (remote w) type batch in
    ({| remote := st'; calls := calls w ++ [(type, batch)]; disk := disk w |}, raw).

(** The body of the outer [for (const batch of batches)] loop. *)
Definition retrieve_batch (results : list RetrievedProfile) (batch : list string)
  : M St Fs (list RetrievedProfile) :=
  await raw <- read_call "Profile" batch;
  let items := as_items raw in
  lift (result_for items results retrieve_item).

(** [retrieveProfiles(connection, profileNames)]. [chunkArray] always
    returns for [BATCH_SIZE] (lemma [chunkArray_BATCH_SIZE_returns]), so
    the [None] branch is never taken. *)
Definition retrieveProfiles (profileNames : list string)
  : M St Fs (list RetrievedProfile) :=
  match chunkArray profileNames BATCH_SIZE with
  | Some batches => for_of batches [] retrieve_batch
  | None => ret []
  end.

(** *** profileCleaner *)

Definition cleanProfileXml (xml : string) (options : CleanOptions) : Result string :=
  result_bind (parse xml) (fun parsed =>
    let profile := js_get (JObj parsed) "Profile" in
    if negb (js_truthy profile) then Ok xml
    else
      let profile :=
        if removeLoginIpRanges options then js_delete profile "loginIpRanges"
        else profile in
      let profile :=
        if removeUserLicense options then js_delete profile "userLicense"
        else profile in
      let profile :=
        if removeLoginHours options then js_delete profile "loginHours"
        else profile in
      let rebuilt := build (JObj [("Profile", profile)]) in
      Ok ("<?xml version=" +:+ dquote +:+ "1.0" +:+ dquote +:+
          " encoding=" +:+ dquote +:+ "UTF-8" +:+ dquote +:+ "?>" +:+ newline
          +:+ rebuilt)).

(** *** formatConverter *)

Definition fs_call {A} (op : Fs -> Fs * Result A) : M St Fs A :=
  fun w =>
    let '(fs', r) := op (disk w) in
    ({| remote := remote w; calls := calls w; disk := fs' |}, r).

(** [writeProfileToSourceFormat(profileName, xml, outputDir)] *)
Definition writeProfileToSourceFormat (profileName : JsValue) (xml outputDir : string)
  : M St Fs string :=
  await _ <- fs_call (fun fs => mkdirSync fs outputDir);
  let fileName := js_to_string profileName +:+ ".profile-meta.xml" in
  let filePath := path_join outputDir fileName in
  await _ <- fs_call (fun fs => writeFileSync fs filePath xml);
  ret filePath.

(** *** The command: steps 1 to 5 of [ProfileRetrieveFull.run] *)

(** The body of the loop over the retrieved profiles, with its [try]. *)
Definition process_profile (shouldClean : bool) (outputDir : string)
    (results : list ProfileRetrieveResult) (profile : RetrievedProfile)
  : M St Fs (list ProfileRetrieveResult) :=
  try_catch
    (await xml <- lift (if shouldClean
                        then cleanProfileXml (xml profile) DEFAULT_CLEAN_OPTIONS
                        else Ok (xml profile));
     await filePath <- writeProfileToSourceFormat (fullName profile) xml outputDir;
     ret (results ++ [{| name := fullName profile; success := true;
                         filePath := Some filePath; error := None |}]))
    (fun errMsg =>
       ret (results ++ [{| name := fullName profile; success := false;
                           filePath := None; error := Some errMsg |}])).

(** [retrievedNames.has(name)] for [new Set(retrieved.map((r) => r.fullName))]:
    a string is in the set only as that same string. *)
Definition retrievedNames_has (retrieved : list RetrievedProfile) (n : string) : bool :=
  existsb (fun r => is_string n (fullName r)) retrieved.

(** The body of the reconciliation loop over the requested names. *)
Definition report_missing (retrieved : list RetrievedProfile)
    (results : list ProfileRetrieveResult) (n : string) : list ProfileRetrieveResult :=
  if negb (retrievedNames_has retrieved n) then
    results ++ [{| name := JStr n; success := false;
                   filePath := None; error := Some NOT_FOUND |}]
  else results.

Definition run (profileNames : list string) (shouldClean : bool) (outputDir : string)
  : M St Fs ProfileRetrieveFullResult :=
  await retrieved <- retrieveProfiles profileNames;
  await results <- for_of retrieved [] (process_profile shouldClean outputDir);
  let results := fold_left (report_missing retrieved) profileNames results in
  let totalSuccess := length (List.filter (fun r => success r) results) in
  let totalFailed := length (List.filter (fun r => negb (success r)) results) in
  ret {| profiles := results; totalRequested := length profileNames;
         totalSuccess := totalSuccess; totalFailed := totalFailed |}.

(** What a remote entry contributes to the retrieved list. *)
Definition built (item : JsValue) : list RetrievedProfile :=
  if valid_item item then
    match buildProfileXml item with
    | Ok xml => [{| fullName := js_get item "fullName"; xml := xml |}]
    | Thrown _ => []
    end
  else [].

(** The remote answers every read. *)
Definition always_resolves : Prop :=
  forall st batch, exists st' raw, metadata_read st "Profile" batch = (st', Ok raw).

End Services.

Local Abbreviation tree_removeMetaKeys := removeMetaKeys (only parsing).

(** ** The normaliser on a store of mutable objects

    [removeMetaKeys] once more, this time with the objects and arrays of
    the JavaScript heap made explicit, so that what the function writes and
    what it leaves alone can be stated. *)

Module Heap.

Definition loc : Type := positive.

(** A value is a primitive or a reference to an object or array. *)
Inductive val : Type :=
| Undefined
| Null
| Bool (b : bool)
| Number (n : JsNumber)
| Str (s : string)
| Ref (l : loc).

Inductive cell : Type :=
| Obj (props : list (string * val))
| Arr (elems : list val).

(** [{}] / a new array: a cell at an address not yet in use. *)
Definition alloc (h : gmap loc cell) (c : cell) : gmap loc cell * loc :=
  let l := fresh (dom h) in (<[l := c]> h, l).

(** [result[key] = value] *)
Definition write_prop (h : gmap loc cell) (l : loc) (key : string) (value : val)
  : option (gmap loc cell) :=
  match h !! l with
  | Some (Obj props) => Some (<[l := Obj (obj_set props key value)]> h)
  | _ => None
  end.

(** The next element of the array that [map] is filling. *)
Definition push_elem (h : gmap loc cell) (l : loc) (value : val)
  : option (gmap loc cell) :=
  match h !! l with
  | Some (Arr elems) => Some (<[l := Arr (elems ++ [value])]> h)
  | _ => None
  end.

Section Loops.
Variable recur : gmap loc cell -> val -> option (gmap loc cell * val).

(** [obj.map((item) => removeMetaKeys(item))] into the array at [target]. *)
Fixpoint map_into (target : loc) (h : gmap loc cell) (elems : list val)
  : option (gmap loc cell) :=
  match elems with
  | [] => Some h
  | item :: rest =>
      '(h1, mapped) ← recur h item;
      h2 ← push_elem h1 target mapped;
      map_into target h2 rest
  end.

(** The [for (const [key, value] of Object.entries(obj))] loop. *)
Fixpoint copy_entries (result : loc) (h : gmap loc cell) (props : list (string * val))
  : option (gmap loc cell) :=
  match props with
  | [] => Some h
  | (key, value) :: rest =>
      if is_meta_key key then copy_entries result h rest
      else
        '(h1, cleaned) ← recur h value;
        h2 ← write_prop h1 result key cleaned;
        copy_entries result h2 rest
  end.
End Loops.

(** [removeMetaKeys] on the heap. The recursion follows references, so
    it is bounded by [fuel]: [None] stands for a call stack exhausted on
    a structure deeper than the fuel (a cyclic one, for any fuel). *)
Fixpoint removeMetaKeys (fuel : nat) (h : gmap loc cell) (obj : val)
  : option (gmap loc cell * val) :=
  match fuel with
  | O => None
  | S fuel' =>
      match obj with
      | Ref l =>
          match h !! l with
          | Some (Arr elems) =>
              let '(h0, mapped) := alloc h (Arr []) in
              h1 ← map_into (removeMetaKeys fuel') mapped h0 elems;
              Some (h1, Ref mapped)
          | Some (Obj props) =>
              let '(h0, result) := alloc h (Obj []) in
              h1 ← copy_entries (removeMetaKeys fuel') result h0 props;
              Some (h1, Ref result)
          | None => None
          end
      | _ => Some (h, obj)
      end
  end.

(** [repr h v t]: in heap [h], the value [v] is the root of the tree [t]. *)
Inductive repr (h : gmap loc cell) : val -> JsValue -> Prop :=
| repr_undefined : repr h Undefined JUndefined
| repr_null : repr h Null JNull
| repr_bool b : repr h (Bool b) (JBool b)
| repr_number n : repr h (Number n) (JNum n)
| repr_str s : repr h (Str s) (JStr s)
| repr_arr l elems items :
    h !! l = Some (Arr elems) ->
    Forall2 (repr h) elems items ->
    repr h (Ref l) (JArr items)
| repr_obj l props entries :
    h !! l = Some (Obj props) ->
    Forall2 (fun p e => fst p = fst e /\ repr h (snd p) (snd e)) props entries ->
    repr h (Ref l) (JObj entries).

(** The cells that were added to [base], the one at [target] apart. *)
Definition added (h base : gmap loc cell) (target : loc) : gmap loc cell :=
  delete target (h ∖ base).

(** What a recursive call has to deliver for the subtree [t]: a result,
    with every cell of the heap it started from still in place, and the
    normalised tree built from added cells only. *)
Definition recur_ok (recur : gmap loc cell -> val -> option (gmap loc cell * val))
    (t : JsValue) : Prop :=
  forall hin h v, hin ⊆ h -> repr hin v t ->
    exists h' v', recur h v = Some (h', v') /\ h ⊆ h' /\
                  repr (h' ∖ h) v' (tree_removeMetaKeys t).

End Heap.

(** ** The text of a document

    [XMLBuilder] belongs to the [fast-xml-parser] package and is a
    parameter of the services. What the statements about the text of a
    document take for granted of it is gathered in [renders_root]; nothing
    else is assumed of the builder anywhere. *)







(** ** Test doubles

    Stand-ins for the external collaborators, in the manner of the stubs of
    the repository's test suite, to run the services on concrete inputs. *)

Module Stub.
(** A remote that answers every read with [raw]
    ([sinon.stub().resolves(raw)]). *)
Definition resolves (raw : JsValue)
  : unit -> string -> list string -> unit * Result JsValue :=
  fun st _ _ => (st, Ok raw).

(** A remote that answers its first read with [first] and every later
    one with [later]; the state counts the reads. *)
Definition resolves_in_turn (first later : JsValue)
  : nat -> string -> list string -> nat * Result JsValue :=
  fun st _ _ => (S st, Ok (match st with O => first | S _ => later end)).

(** A builder that only names the root elements of the tree it is given. *)
Definition build (doc : JsValue) : string :=
  match doc with
  | JObj entries => String.concat "" (map (fun e => "<" +:+ fst e +:+ "/>") entries)
  | _ => ""
  end.

(** A parser that answers every text with the document [parsed]. *)
Definition parse_as (parsed : list (string * JsValue))
  : string -> Result (list (string * JsValue)) :=
  fun _ => Ok parsed.

(** A parser and a builder that are not inverse to each other: the parser
    takes the whole input for the text of a [Profile] element, the builder
    puts the text it is given between [Profile] tags. *)
Definition parse_as_text (xml : string) : Result (list (string * JsValue)) :=
  Ok [("Profile", JStr xml)].

Definition build_text (doc : JsValue) : string :=
  match js_get doc "Profile" with
  | JStr s => "<Profile>" +:+ s +:+ "</Profile>"
  | _ => "<Profile></Profile>"
  end.

(** A file system that records what is written and where, and never
    fails; paths are joined with a slash. *)
Definition mkdir (fs : list (string * string)) (dir : string)
  : list (string * string) * Result unit :=
  (fs, Ok tt).

Definition write_file (fs : list (string * string)) (filePath content : string)
  : list (string * string) * Result unit :=
  (fs ++ [(filePath, content)], Ok tt).

Definition join (dir file : string) : string := dir +:+ "/" +:+ file.

Definition world0 {St} (st : St) : World St (list (string * string)) :=
  {| remote := st; calls := []; disk := [] |}.

Definition names (prefix : string) (n : nat) : list string :=
  map (fun i => prefix +:+ pretty i) (seq 0 n).
End Stub.

(** ** The command line: which profiles to retrieve

    Strings are sequences of code units below 256; among these the white
    space and line terminators that [String.prototype.trim] removes are the
    codes 9 to 13, 32 and 160. *)

Definition is_white_space (c : ascii) : bool :=
  let n := nat_of_ascii c in
  (Nat.leb 9 n && Nat.leb n 13) || Nat.eqb n 32 || Nat.eqb n 160.

Fixpoint trim_start (s : string) : string :=
  match s with
  | EmptyString => EmptyString
  | String c rest => if is_white_space c then trim_start rest else s
  end.

Fixpoint trim_end (s : string) : string :=
  match s with
  | EmptyString => EmptyString
  | String c rest =>
      match trim_end rest with
      | EmptyString => if is_white_space c then EmptyString else String c EmptyString
      | kept => String c kept
      end
  end.

(** [s.trim()] *)
Definition trim (s : string) : string := trim_end (trim_start s).

(** [s.split(',')] *)
Fixpoint split_comma (s : string) : list string :=
  match s with
  | EmptyString => [EmptyString]
  | String c rest =>
      if Ascii.eqb c ","%char then EmptyString :: split_comma rest
      else
        match split_comma rest with
        | piece :: pieces => String c piece :: pieces
        | [] => [String c EmptyString]
        end
  end.

(** [s.endsWith(suffix)] *)
Fixpoint ends_with (s suffix : string) : bool :=
  String.eqb s suffix ||
  match s with
  | EmptyString => false
  | String _ rest => ends_with rest suffix
  end.

(** The [--name] branch of [run]:
    [flags.name.flatMap((v) => v.split(',')).map((v) => v.trim())
       .filter((v) => v.length > 0)] *)
Definition names_from_flag (values : list string) : list string :=
  List.filter (fun v => Nat.ltb 0 (String.length v))
    (map trim (flat_map split_comma values)).

Definition PROFILE_SUFFIX : string := ".profile-meta.xml".

(** A [Dirent] of [fs.readdirSync(dir, { withFileTypes: true })]. *)
Record Dirent : Type := mkDirent {
  dirent_name : string;
  isDirectory : bool;
}.

(** What [connection.metadata.list] answers, seen through the one field
    the command reads: an entry is its [fullName], or nothing when the
    entry is [null] or [undefined]; the answer is one entry or an array. *)
Inductive ListResult : Type :=
| ListOne (item : option string)
| ListMany (items : list (option string)).

(** The [--all] branch of [run]: [Array.isArray(listResult) ? listResult :
    [listResult]], then [.filter((item) => item?.fullName)
    .map((item) => item.fullName)]. *)
Definition names_from_list (listResult : ListResult) : list string :=
  let items :=
    match listResult with
    | ListMany items => items
    | ListOne item => [item]
    end in
  omap (fun item =>
          match item with
          | Some fullName => if Nat.ltb 0 (String.length fullName) then Some fullName else None
          | None => None
          end) items.

(** The flags of the command, as [this.parse] hands them to [run]. *)
Record Flags : Type := mkFlags {
  flag_name : option (list string);
  flag_sourcedir : option string;
  flag_all : bool;
  flag_output_dir : string;
  flag_clean : bool;
}.

Definition RANGE_ERROR : string := "RangeError: Maximum call stack size exceeded".
Definition NO_FILES_FOUND : string := "No .profile-meta.xml files found in ".
Definition NO_PROFILES_IN_ORG : string := "No profiles found in the org.".
Definition NO_SELECTOR : string := "You must provide either --name, --sourcedir, or --all.".

Section CommandLine.
Context {St Fs : Type}.
Variable metadata_read : St -> string -> list string -> St * Result JsValue.

(** [connection.metadata.list({ type })] *)
Variable metadata_list : St -> string -> St * Result ListResult.
Variable build : JsValue -> string.
Variable parse : string -> Result (list (string * JsValue)).
Variable mkdirSync : Fs -> string -> Fs * Result unit.
Variable writeFileSync : Fs -> string -> string -> Fs * Result unit.

(** [fs.readdirSync(dir, { withFileTypes: true })]: reading a directory
    leaves the file system as it is. *)
Variable readdirSync : Fs -> string -> Result (list Dirent).
Variable path_join : string -> string -> string.

(** [path.basename(name, suffix)] *)
Variable path_basename : string -> string -> string.

(** The body of the loop of [getProfileNamesFromDir] over the entries of
    [dir]; [recur] is the recursive call. *)
Definition scan_entry (recur : string -> Result (list string)) (dir : string)
    (results : list string) (entry : Dirent) : Result (list string) :=
  let fullPath := path_join dir (dirent_name entry) in
  if isDirectory entry then
    result_bind (recur fullPath) (fun found => Ok (results ++ found))
  else if ends_with (dirent_name entry) PROFILE_SUFFIX then
    Ok (results ++ [path_basename (dirent_name entry) PROFILE_SUFFIX])
  else Ok results.

(** [getProfileNamesFromDir(dir)]. The recursion follows the directories
    of the file system and is bounded by the call stack: deeper than
    [stack] calls, it throws a [RangeError]. *)
Fixpoint getProfileNamesFromDir (stack : nat) (fs : Fs) (dir : string)
  : Result (list string) :=
  match stack with
  | O => Thrown RANGE_ERROR
  | S stack' =>
      result_bind (readdirSync fs dir) (fun entries =>
        result_for entries [] (scan_entry (getProfileNamesFromDir stack' fs) dir))
  end.

Definition list_call (type : string) : M St Fs ListResult :=
  fun w =>
    let '(st', r) := metadata_list (remote w) type in
    ({| remote := st'; calls := calls w; disk := disk w |}, r).

(** The first part of [run]: the names, from [--name], [--sourcedir] or
    [--all]. *)
Definition resolveProfileNames (stack : nat) (flags : Flags) : M St Fs (list string) :=
  match flag_name flags with
  | Some values => ret (names_from_flag values)
  | None =>
      match flag_sourcedir flags with
      | Some (String c dir' as dir) =>
          await profileNames <- (fun w => (w, getProfileNamesFromDir stack (disk w) dir));
          if Nat.eqb (length profileNames) 0 then lift (Thrown (NO_FILES_FOUND +:+ dir))
          else ret profileNames
      | _ =>
          if flag_all flags then
            await listResult <- list_call "Profile";
            let profileNames := names_from_list listResult in
            if Nat.eqb (length profileNames) 0 then lift (Thrown NO_PROFILES_IN_ORG)
            else ret profileNames
          else lift (Thrown NO_SELECTOR)
      end
  end.

(** [ProfileRetrieveFull.run], from the parsed flags on. *)
Definition run_command (stack : nat) (flags : Flags) : M St Fs ProfileRetrieveFullResult :=
  await profileNames <- resolveProfileNames stack flags;
  run metadata_read build parse mkdirSync writeFileSync path_join
    profileNames (flag_clean flags) (flag_output_dir flags).

End CommandLine.

(** A directory tree: what a scan can meet below a directory. *)
Inductive FsNode : Type :=
| FileNode
| DirNode (children : list (string * FsNode)).

Definition dirent_of (child : string * FsNode) : Dirent :=
  {| dirent_name := fst child;
     isDirectory := match snd child with DirNode _ => true | FileNode => false end |}.

(** In the file system [fs], the directory at [path] and everything below
    it is the tree [node]. *)
Fixpoint node_at {Fs} (readdirSync : Fs -> string -> Result (list Dirent))
    (path_join : string -> string -> string) (fs : Fs) (path : string)
    (node : FsNode) : Prop :=
  match node with
  | FileNode => True
  | DirNode children =>
      readdirSync fs path = Ok (map dirent_of children) /\
      (fix all (l : list (string * FsNode)) : Prop :=
         match l with
         | [] => True
         | child :: l' =>
             node_at readdirSync path_join fs (path_join path (fst child)) (snd child)
             /\ all l'
         end) children
  end.

(** The profile files of a tree, depth first in listing order: the entries
    that are no directories and whose name ends in [.profile-meta.xml]. *)
Fixpoint profile_files (name : string) (node : FsNode) : list string :=
  match node with
  | FileNode => if ends_with name PROFILE_SUFFIX then [name] else []
  | DirNode children => flat_map (fun child => profile_files (fst child) (snd child)) children
  end.

Fixpoint node_depth (node : FsNode) : nat :=
  match node with
  | FileNode => 0
  | DirNode children => S (list_max (map (fun child => node_depth (snd child)) children))
  end.

(** A remote that answers a read with exactly one entry per requested
    name, in order, each carrying that name as its [fullName]. *)
Definition answers_each {St}
    (metadata_read : St -> string -> list string -> St * Result JsValue) : Prop :=
  forall st batch, exists st' raw,
    metadata_read st "Profile" batch = (st', Ok raw) /\
    Forall2 (fun n item => js_get item "fullName" = JStr n) batch (as_items raw).

(** ** Further test doubles *)

Module Double.
(** A remote that echoes: one record per requested name, in order. *)
Definition echo : unit -> string -> list string -> unit * Result JsValue :=
  fun st _ batch =>
    (st, Ok (JArr (map (fun n => JObj [("fullName", JStr n); ("custom", JBool false)])
                     batch))).

(** A remote that answers [raw] to its first [n] reads and rejects every
    later one; the state counts the reads. *)
Definition rejects_after (n : nat) (raw : JsValue) (msg : string)
  : nat -> string -> list string -> nat * Result JsValue :=
  fun st _ _ => (S st, if Nat.ltb st n then Ok raw else Thrown msg).

(** A remote listing that answers with [listResult]. *)
Definition lists (listResult : ListResult) : unit -> string -> unit * Result ListResult :=
  fun st _ => (st, Ok listResult).

(** A disk on which nothing can be written. *)
Definition write_fails (msg : string) (fs : list (string * string))
    (filePath content : string) : list (string * string) * Result unit :=
  (fs, Thrown msg).





(** A read-only directory structure given by a table of listings. *)
Definition readdir (table : list (string * list Dirent)) (_ : list (string * string))
    (dir : string) : Result (list Dirent) :=
  match obj_lookup dir table with
  | Some entries => Ok entries
  | None => Thrown ("ENOENT: no such file or directory, scandir " +:+ dir)
  end.

(** [path.basename(name, suffix)] for a [name] without separators that
    ends with [suffix]: the name without the suffix. *)
Definition basename (name suffix : string) : string :=
  String.substring 0 (String.length name - String.length suffix) name.
End Double.

(** * Properties *)

(** ** Plain objects *)

Lemma obj_set_fresh {V} (entries : list (string * V)) key value :
  key ∉ map fst entries -> obj_set entries key value = entries ++ [(key, value)].
Proof.
  induction entries as [|[k v] rest IH]; simpl; intros Hfresh; [done|].
  destruct (String.eqb_spec k key) as [->|Hne].
  - exfalso. apply Hfresh. left.
  - f_equal. apply IH. intros Hin. apply Hfresh. by right.
Qed.

Lemma obj_set_keys {V} (entries : list (string * V)) key value :
  map fst (obj_set entries key value) =
  if decide (key ∈ map fst entries) then map fst entries else map fst entries ++ [key].
Proof.
  induction entries as [|[k v] rest IH]; simpl.
  - done.
  - destruct (String.eqb_spec k key) as [->|Hne]; simpl.
    + rewrite decide_True; [done | left].
    + rewrite IH. destruct (decide (key ∈ map fst rest)) as [Hin|Hnin].
      * rewrite decide_True; [done | by right].
      * rewrite decide_False; [done|]. intros [?|?]%elem_of_cons; congruence.
Qed.


Lemma obj_lookup_Some_in {V} key (entries : list (string * V)) v :
  obj_lookup key entries = Some v -> (key, v) ∈ entries.
Proof.
  induction entries as [|[k w] rest IH]; simpl; [done|].
  destruct (String.eqb_spec k key) as [->|Hne].
  - intros [= ->]. left.
  - intros H. right. by apply IH.
Qed.

Lemma obj_lookup_None {V} key (entries : list (string * V)) :
  obj_lookup key entries = None <-> key ∉ map fst entries.
Proof.
  induction entries as [|[k w] rest IH]; simpl.
  - split; [intros _ H; by apply elem_of_nil in H | done].
  - destruct (String.eqb_spec k key) as [->|Hne].
    + split; [done | intros H; exfalso; apply H; left].
    + rewrite IH. split.
      * intros H [?|?]%elem_of_cons; [congruence | done].
      * intros H Hin. apply H. by right.
Qed.

Lemma obj_delete_keys {V} key (entries : list (string * V)) :
  map fst (obj_delete key entries) = List.filter (fun k => negb (String.eqb k key)) (map fst entries).
Proof.
  unfold obj_delete. induction entries as [|[k w] rest IH]; simpl; [done|].
  destruct (String.eqb k key); simpl; by rewrite IH.
Qed.

Lemma obj_delete_not_in {V} key (entries : list (string * V)) :
  key ∉ map fst (obj_delete key entries).
Proof.
  rewrite obj_delete_keys, list_elem_of_In, filter_In.
  intros [_ H]. by rewrite String.eqb_refl in H.
Qed.

Lemma obj_delete_lookup_eq {V} key (entries : list (string * V)) :
  obj_lookup key (obj_delete key entries) = None.
Proof. apply obj_lookup_None, obj_delete_not_in. Qed.

(** ** Well-formed trees and key occurrences *)

Lemma distinct_NoDup ks : distinct ks = true <-> NoDup ks.
Proof.
  induction ks as [|k rest IH]; simpl.
  - split; [constructor | done].
  - rewrite andb_true_iff, negb_true_iff, NoDup_cons, IH.
    apply and_iff_compat_r. split.
    + intros Hex Hin. apply not_true_iff_false in Hex. apply Hex.
      apply existsb_exists. exists k. split; [by apply list_elem_of_In|].
      apply String.eqb_refl.
    + intros Hnin. apply not_true_iff_false. intros (x & Hx & Heq)%existsb_exists.
      apply String.eqb_eq in Heq as ->. by apply Hnin, list_elem_of_In.
Qed.

Lemma forallb_Forall {A} (f : A -> bool) (l : list A) :
  forallb f l = true <-> Forall (fun x => f x = true) l.
Proof.
  induction l as [|x l IH]; simpl; [by split|].
  by rewrite andb_true_iff, Forall_cons, IH.
Qed.

Lemma wf_value_arr items :
  wf_value (JArr items) = true <-> Forall (fun x => wf_value x = true) items.
Proof. simpl. apply forallb_Forall. Qed.

Lemma wf_value_obj entries :
  wf_value (JObj entries) = true <->
  NoDup (map fst entries) /\ Forall (fun e => wf_value (snd e) = true) entries.
Proof. simpl. by rewrite andb_true_iff, distinct_NoDup, forallb_Forall. Qed.

Lemma key_occurs_obj key entries :
  key_occurs key (JObj entries) = existsb (entry_mentions key) entries.
Proof. reflexivity. Qed.

Lemma key_occurs_arr key items :
  key_occurs key (JArr items) = existsb (key_occurs key) items.
Proof. reflexivity. Qed.

Lemma existsb_false {A} (f : A -> bool) (l : list A) :
  existsb f l = false <-> Forall (fun x => f x = false) l.
Proof.
  induction l as [|x l IH]; simpl; [by split|].
  rewrite orb_false_iff, Forall_cons. by rewrite IH.
Qed.

Lemma obj_set_mentions key entries k value :
  existsb (entry_mentions key) entries = false ->
  entry_mentions key (k, value) = false ->
  existsb (entry_mentions key) (obj_set entries k value) = false.
Proof.
  intros Hes He. induction entries as [|[k' v'] rest IH]; simpl in *.
  - by rewrite He.
  - apply orb_false_iff in Hes as [Hhd Htl].
    destruct (String.eqb_spec k' k) as [->|Hne]; simpl.
    + by rewrite He, Htl.
    + by rewrite Hhd, IH.
Qed.

(** ** The normaliser on trees *)

Lemma removeMetaKeys_obj entries :
  removeMetaKeys (JObj entries) = JObj (fold_left copy_step entries []).
Proof. reflexivity. Qed.

Lemma removeMetaKeys_arr items :
  removeMetaKeys (JArr items) = JArr (map removeMetaKeys items).
Proof. reflexivity. Qed.

Lemma strip_transport_keys_obj entries :
  strip_transport_keys (JObj entries) =
  JObj (List.filter (fun e => negb (is_meta_key (fst e)))
          (map (fun e => (fst e, strip_transport_keys (snd e))) entries)).
Proof. reflexivity. Qed.

(** On distinct keys the copy loop appends: it is a filter and a map. *)
Lemma copy_loop_distinct entries : forall result,
  NoDup (map fst result ++ map fst entries) ->
  Forall (fun e => removeMetaKeys (snd e) = strip_transport_keys (snd e)) entries ->
  fold_left copy_step entries result =
  result ++ List.filter (fun e => negb (is_meta_key (fst e)))
              (map (fun e => (fst e, strip_transport_keys (snd e))) entries).
Proof.
  induction entries as [|[k v] rest IH]; intros result Hnd Hrec; simpl.
  - by rewrite app_nil_r.
  - apply Forall_cons in Hrec as [Hv Hrest]. simpl in Hv.
    apply NoDup_app in Hnd as (Hr & Hdisj & Hks). simpl in Hks.
    apply NoDup_cons in Hks as [Hk Hks].
    unfold copy_step at 2. simpl.
    destruct (is_meta_key k); simpl.
    + apply IH; [|done]. apply NoDup_app. split_and!; [done| |done].
      intros x Hx Hin. eapply Hdisj; [done | by right].
    + rewrite obj_set_fresh.
      2:{ intros Hin. eapply Hdisj; [done | left]. }
      rewrite IH; [by rewrite Hv, <- app_assoc | | done].
      rewrite map_app. simpl. rewrite <- app_assoc. simpl.
      apply NoDup_app. split_and!; [done | | by apply NoDup_cons].
      intros x Hx Hin. by eapply Hdisj.
Qed.

(** The code computes the normaliser of the specification. *)
Lemma removeMetaKeys_strip v :
  wf_value v = true -> removeMetaKeys v = strip_transport_keys v.
Proof.
  induction v as [| | | | |items IH|entries IH] using JsValue_nested_ind;
    intros Hwf; try reflexivity.
  - apply wf_value_arr in Hwf. simpl. f_equal.
    induction IH as [|x l Hx _ IHl]; [done|].
    apply Forall_cons in Hwf as [Hwx Hwl]. simpl. by rewrite Hx, IHl.
  - apply wf_value_obj in Hwf as [Hnd Hwf].
    rewrite removeMetaKeys_obj, strip_transport_keys_obj.
    rewrite copy_loop_distinct; [done | done |].
    clear Hnd. induction IH as [|x l Hx _ IHl]; [done|].
    apply Forall_cons in Hwf as [Hwx Hwl]. constructor; auto.
Qed.

Lemma copy_loop_key_free key entries : forall result,
  is_meta_key key = true ->
  Forall (fun e => key_occurs key (removeMetaKeys (snd e)) = false) entries ->
  existsb (entry_mentions key) result = false ->
  existsb (entry_mentions key) (fold_left copy_step entries result) = false.
Proof.
  induction entries as [|[k v] rest IH]; intros result Hmeta Hrec Hres; simpl; [done|].
  apply Forall_cons in Hrec as [Hv Hrest]. simpl in Hv.
  apply IH; [done | done |]. unfold copy_step. simpl.
  destruct (is_meta_key k) eqn:Hk; [done|].
  apply obj_set_mentions; [done|]. unfold entry_mentions. simpl.
  rewrite Hv, orb_false_r. apply String.eqb_neq. congruence.
Qed.

(** Neither reserved key survives, at any depth. *)
Lemma removeMetaKeys_key_free key v :
  is_meta_key key = true -> key_occurs key (removeMetaKeys v) = false.
Proof.
  intros Hmeta.
  induction v as [| | | | |items IH|entries IH] using JsValue_nested_ind;
    try reflexivity.
  - rewrite removeMetaKeys_arr, key_occurs_arr. apply existsb_false.
    rewrite Forall_map. eapply Forall_impl; [exact IH | done].
  - rewrite removeMetaKeys_obj, key_occurs_obj.
    by apply copy_loop_key_free.
Qed.

Lemma strip_lookup (f : JsValue -> JsValue) key (entries : list (string * JsValue)) :
  is_meta_key key = false ->
  obj_lookup key
    (List.filter (fun e => negb (is_meta_key (fst e)))
       (map (fun e => (fst e, f (snd e))) entries)) =
  f <$> obj_lookup key entries.
Proof.
  intros Hkey. induction entries as [|[k v] rest IH]; simpl; [done|].
  destruct (String.eqb_spec k key) as [->|Hne].
  - rewrite Hkey. simpl. by rewrite String.eqb_refl.
  - destruct (is_meta_key k); simpl; [done|].
    destruct (String.eqb_spec k key); [done | exact IH].
Qed.

Lemma strip_keys (f : JsValue -> JsValue) (entries : list (string * JsValue)) :
  map fst (List.filter (fun e => negb (is_meta_key (fst e)))
             (map (fun e => (fst e, f (snd e))) entries)) =
  List.filter (fun k => negb (is_meta_key k)) (map fst entries).
Proof.
  induction entries as [|[k v] rest IH]; simpl; [done|].
  destruct (is_meta_key k); simpl; by rewrite IH.
Qed.

(** Without the reserved keys there is nothing to strip. *)
Lemma strip_transport_keys_absent v :
  key_occurs "$" v = false -> key_occurs "type" v = false ->
  strip_transport_keys v = v.
Proof.
  induction v as [| | | | |items IH|entries IH] using JsValue_nested_ind;
    intros Hd Ht; try reflexivity.
  - rewrite key_occurs_arr in Hd, Ht. apply existsb_false in Hd, Ht.
    simpl. f_equal.
    induction IH as [|x l Hx _ IHl]; [done|].
    apply Forall_cons in Hd as [Hdx Hdl]. apply Forall_cons in Ht as [Htx Htl].
    simpl. by rewrite Hx, IHl.
  - rewrite key_occurs_obj in Hd, Ht. apply existsb_false in Hd, Ht.
    rewrite strip_transport_keys_obj. f_equal.
    induction IH as [|[k x] l Hx _ IHl]; [done|].
    apply Forall_cons in Hd as [Hdx Hdl]. apply Forall_cons in Ht as [Htx Htl].
    unfold entry_mentions in Hdx, Htx. simpl in *.
    apply orb_false_iff in Hdx as [Hdk Hdv]. apply orb_false_iff in Htx as [Htk Htv].
    unfold is_meta_key at 1. rewrite Hdk, Htk. simpl.
    by rewrite Hx, IHl.
Qed.

(** ** The normaliser on the heap *)

Module HeapFacts.
Import Heap.

Lemma added_lookup h base target l c :
  added h base target !! l = Some c <->
  l <> target /\ h !! l = Some c /\ base !! l = None.
Proof.
  unfold added. rewrite lookup_delete_Some, lookup_difference_Some.
  split; [intros [? [? ?]] | intros [? [? ?]]]; split_and!; congruence.
Qed.

Lemma repr_mono h h' :
  h ⊆ h' -> forall t v, repr h v t -> repr h' v t.
Proof.
  intros Hsub t.
  induction t as [| | | | |items IH|entries IH] using JsValue_nested_ind;
    intros v Hr; inversion Hr; subst; try constructor.
  - econstructor; [by eapply lookup_weaken|].
    match goal with H : Forall2 _ _ _ |- _ => rename H into Hall end.
    clear -IH Hall. induction Hall as [|x t xs ts Hx _ IHxs]; [constructor|].
    apply Forall_cons in IH as [IHt IHts]. constructor; auto.
  - econstructor; [by eapply lookup_weaken|].
    match goal with H : Forall2 _ _ _ |- _ => rename H into Hall end.
    clear -IH Hall. induction Hall as [|x t xs ts [Hk Hx] _ IHxs]; [constructor|].
    apply Forall_cons in IH as [IHt IHts]. constructor; auto.
Qed.

Lemma obj_set_related {V W} (R : V -> W -> Prop) props entries key v w :
  Forall2 (fun p e => fst p = fst e /\ R (snd p) (snd e)) props entries ->
  R v w ->
  Forall2 (fun p e => fst p = fst e /\ R (snd p) (snd e))
    (obj_set props key v) (obj_set entries key w).
Proof.
  intros Hall Hvw.
  induction Hall as [|[k x] [k' y] ps es [Hk Hxy] Htl IH]; simpl in *.
  - by constructor.
  - subst k'. destruct (String.eqb k key); constructor; auto.
Qed.

Section Loops.
Variable recur : gmap loc cell -> val -> option (gmap loc cell * val).
Variables (hin base : gmap loc cell) (target : loc).
Hypothesis Hin : hin ⊆ base.
Hypothesis Htarget : base !! target = None.

Lemma call_added h h1 v t :
  base ⊆ h -> is_Some (h !! target) -> h ⊆ h1 ->
  repr (h1 ∖ h) v t -> repr (added h1 base target) v t.
Proof.
  intros Hb [c Hc] Hh. apply repr_mono. apply map_subseteq_spec.
  intros l x [Hl1 Hl]%lookup_difference_Some. apply added_lookup.
  split_and!; [congruence | done |].
  destruct (base !! l) eqn:E; [|done].
  eapply lookup_weaken in E; [|done]. congruence.
Qed.

Lemma added_grows h h1 : h ⊆ h1 -> added h base target ⊆ added h1 base target.
Proof.
  intros Hh. apply map_subseteq_spec. intros l x (? & ? & ?)%added_lookup.
  apply added_lookup. split_and!; [done | by eapply lookup_weaken | done].
Qed.

Lemma added_write h c : added (<[target := c]> h) base target = added h base target.
Proof.
  apply map_eq. intros l. apply option_eq. intros x.
  rewrite !added_lookup. split; intros (? & ? & ?); split_and!; try done.
  - by rewrite lookup_insert_ne in * by done.
  - by rewrite lookup_insert_ne by done.
Qed.

Lemma base_write h c : base ⊆ h -> base ⊆ <[target := c]> h.
Proof.
  intros Hb. apply map_subseteq_spec. intros l x Hl.
  rewrite lookup_insert_ne by congruence. by eapply lookup_weaken.
Qed.

Lemma map_into_ok elems items :
  Forall (recur_ok recur) items ->
  Forall2 (repr hin) elems items ->
  forall h acc acc_t,
    base ⊆ h -> h !! target = Some (Arr acc) ->
    Forall2 (repr (added h base target)) acc acc_t ->
    exists h' out,
      map_into recur target h elems = Some h' /\ base ⊆ h' /\
      h' !! target = Some (Arr out) /\
      Forall2 (repr (added h' base target)) out
        (acc_t ++ map tree_removeMetaKeys items).
Proof.
  intros Hrec Hall. induction Hall as [|x t xs ts Hx _ IH];
    intros h acc acc_t Hb Ht Hacc; simpl.
  - exists h, acc. by rewrite app_nil_r.
  - apply Forall_cons in Hrec as [Hrt Hrts].
    destruct (Hrt hin h x) as (h1 & v' & -> & Hh1 & Hv'); [by etrans | done |].
    simpl. unfold push_elem. rewrite (lookup_weaken _ _ _ _ Ht Hh1). simpl.
    destruct (IH Hrts (<[target := Arr (acc ++ [v'])]> h1) (acc ++ [v'])
                (acc_t ++ [tree_removeMetaKeys t]))
      as (h' & out & -> & Hb' & Ht' & Hout).
    + apply base_write. by etrans.
    + by rewrite lookup_insert_eq.
    + rewrite added_write. apply Forall2_app.
      * eapply Forall2_impl; [exact Hacc|]. intros ? ?.
        apply repr_mono. by apply added_grows.
      * constructor; [|constructor]. by eapply call_added.
    + exists h', out. split_and!; try done. by rewrite <- app_assoc in Hout.
Qed.

Lemma copy_entries_ok props entries :
  Forall (fun e => recur_ok recur (snd e)) entries ->
  Forall2 (fun p e => fst p = fst e /\ repr hin (snd p) (snd e)) props entries ->
  forall h acc acc_t,
    base ⊆ h -> h !! target = Some (Obj acc) ->
    Forall2 (fun p e => fst p = fst e /\ repr (added h base target) (snd p) (snd e))
      acc acc_t ->
    exists h' out,
      copy_entries recur target h props = Some h' /\ base ⊆ h' /\
      h' !! target = Some (Obj out) /\
      Forall2 (fun p e => fst p = fst e /\
                          repr (added h' base target) (snd p) (snd e))
        out (fold_left copy_step entries acc_t).
Proof.
  intros Hrec Hall. induction Hall as [|[k x] [k' t] ps es [Hk Hx] _ IH];
    intros h acc acc_t Hb Ht Hacc; simpl in *.
  - by exists h, acc.
  - subst k'. apply Forall_cons in Hrec as [Hrt Hrts]. simpl in Hrt.
    unfold copy_step at 2. simpl.
    destruct (is_meta_key k); [by eapply IH|].
    destruct (Hrt hin h x) as (h1 & v' & -> & Hh1 & Hv'); [by etrans | done |].
    simpl. unfold write_prop. rewrite (lookup_weaken _ _ _ _ Ht Hh1). simpl.
    apply (IH Hrts (<[target := Obj (obj_set acc k v')]> h1) (obj_set acc k v')
             (obj_set acc_t k (tree_removeMetaKeys t))).
    + apply base_write. by etrans.
    + by rewrite lookup_insert_eq.
    + rewrite added_write.
      apply (obj_set_related (repr (added h1 base target))).
      * eapply Forall2_impl; [exact Hacc|]. intros ? ? [? ?]. split; [done|].
        eapply repr_mono; [|done]. by apply added_grows.
      * by eapply call_added.
Qed.
End Loops.

Lemma added_sub h base target : added h base target ⊆ h ∖ base.
Proof. apply delete_subseteq. Qed.

Lemma depth_arr_item items x fuel :
  depth (JArr items) < S fuel -> x ∈ items -> depth x < fuel.
Proof.
  simpl. intros Hd Hx.
  assert (depth x <= list_max (map depth items)); [|lia].
  clear Hd. induction Hx; simpl; lia.
Qed.

Lemma depth_obj_entry entries e fuel :
  depth (JObj entries) < S fuel -> e ∈ entries -> depth (snd e) < fuel.
Proof.
  simpl. intros Hd Hx.
  assert (depth (snd e) <= list_max (map (fun e => depth (snd e)) entries)); [|lia].
  clear Hd. induction Hx; simpl; lia.
Qed.

(** The heap function returns on every tree within its fuel, leaves the
    heap it was given as it was, and builds the result of the tree
    function out of new cells. *)
Lemma removeMetaKeys_ok t : forall fuel,
  depth t < fuel -> recur_ok (Heap.removeMetaKeys fuel) t.
Proof.
  induction t as [| | | | |items IH|entries IH] using JsValue_nested_ind;
    intros [|fuel] Hd hin h v Hsub Hr; try lia;
    inversion Hr; subst; simpl;
    try (eexists _, _; split_and!; [done | done | constructor]).
  - (* arrays *)
    match goal with H : hin !! _ = Some _ |- _ =>
      rewrite (lookup_weaken _ _ _ _ H Hsub) end.
    set (target := fresh (dom h)).
    assert (h !! target = None) as Hfresh by apply not_elem_of_dom, is_fresh.
    destruct (map_into_ok (Heap.removeMetaKeys fuel) hin h target Hsub Hfresh
                elems items) with (h := <[target := Arr []]> h) (acc := @nil val)
                (acc_t := @nil JsValue)
      as (h' & out & -> & Hb & Ht & Hout); try done.
    + apply Forall_forall. intros x Hx.
      rewrite Forall_forall in IH. apply IH; [done|].
      by eapply depth_arr_item.
    + by apply insert_subseteq.
    + by rewrite lookup_insert_eq.
    + simpl. eexists _, _. split_and!; [done | done |].
      econstructor.
      * apply lookup_difference_Some. split; [exact Ht | done].
      * eapply Forall2_impl; [exact Hout|]. intros ? ?.
        apply repr_mono, added_sub.
  - (* objects *)
    match goal with H : hin !! _ = Some _ |- _ =>
      rewrite (lookup_weaken _ _ _ _ H Hsub) end.
    set (target := fresh (dom h)).
    assert (h !! target = None) as Hfresh by apply not_elem_of_dom, is_fresh.
    destruct (copy_entries_ok (Heap.removeMetaKeys fuel) hin h target Hsub Hfresh
                props entries) with (h := <[target := Obj []]> h)
                (acc := @nil (string * val)) (acc_t := @nil (string * JsValue))
      as (h' & out & -> & Hb & Ht & Hout); try done.
    + apply Forall_forall. intros x Hx.
      rewrite Forall_forall in IH. apply IH; [done|].
      by eapply depth_obj_entry.
    + by apply insert_subseteq.
    + by rewrite lookup_insert_eq.
    + simpl. eexists _, _. split_and!; [done | done |].
      econstructor.
      * apply lookup_difference_Some. split; [exact Ht | done].
      * eapply Forall2_impl; [exact Hout|]. intros ? ? [? ?]. split; [done|].
        eapply repr_mono; [apply added_sub | done].
Qed.

(** Every tree can be laid out in the heap, on top of what is there. *)
Lemma repr_exists t : forall h, exists h' v, h ⊆ h' /\ repr h' v t.
Proof.
  induction t as [| | | | |items IH|entries IH] using JsValue_nested_ind; intros h;
    try (by eexists h, _; split; [|constructor]).
  - assert (exists h1 elems, h ⊆ h1 /\ Forall2 (repr h1) elems items)
      as (h1 & elems & Hsub & Hall).
    { clear -IH. revert h. induction IH as [|t ts Ht _ IHts]; intros h.
      - exists h, []. by split; [|constructor].
      - destruct (Ht h) as (h1 & v & Hh1 & Hv).
        destruct (IHts h1) as (h2 & vs & Hh2 & Hvs).
        exists h2, (v :: vs). split; [by etrans|].
        constructor; [by eapply repr_mono | done]. }
    set (l := fresh (dom h1)).
    assert (h1 !! l = None) as Hfresh by apply not_elem_of_dom, is_fresh.
    exists (<[l := Arr elems]> h1), (Ref l). split.
    + etrans; [done | by apply insert_subseteq].
    + econstructor; [by rewrite lookup_insert_eq|].
      eapply Forall2_impl; [exact Hall|]. intros ? ?.
      apply repr_mono. by apply insert_subseteq.
  - assert (exists h1 props, h ⊆ h1 /\
              Forall2 (fun p e => fst p = fst e /\ repr h1 (snd p) (snd e)) props entries)
      as (h1 & props & Hsub & Hall).
    { clear -IH. revert h. induction IH as [|[k t] ts Ht _ IHts]; intros h.
      - exists h, []. by split; [|constructor].
      - destruct (Ht h) as (h1 & v & Hh1 & Hv).
        destruct (IHts h1) as (h2 & vs & Hh2 & Hvs).
        exists h2, ((k, v) :: vs). split; [by etrans|].
        constructor; [|done]. split; [done|]. by eapply repr_mono. }
    set (l := fresh (dom h1)).
    assert (h1 !! l = None) as Hfresh by apply not_elem_of_dom, is_fresh.
    exists (<[l := Obj props]> h1), (Ref l). split.
    + etrans; [done | by apply insert_subseteq].
    + econstructor; [by rewrite lookup_insert_eq|].
      eapply Forall2_impl; [exact Hall|]. intros ? ? [? ?]. split; [done|].
      eapply repr_mono; [by apply insert_subseteq | done].
Qed.

End HeapFacts.

(** ** Batching *)

Lemma ceil_div_0 d : 0 < d -> ceil_div 0 d = 0.
Proof. intros Hd. unfold ceil_div. apply Nat.div_small. lia. Qed.

Lemma ceil_div_step n d : 0 < d -> 0 < n -> ceil_div n d = S (ceil_div (n - d) d).
Proof.
  intros Hd Hn. unfold ceil_div.
  destruct (le_lt_dec d n) as [Hle|Hlt].
  - replace (n + d - 1) with ((n - d + d - 1) + 1 * d) by lia.
    rewrite Nat.div_add by lia. lia.
  - replace (n - d) with 0 by lia. simpl.
    rewrite (Nat.div_small (d - 1) d) by lia.
    replace (n + d - 1) with ((n - 1) + 1 * d) by lia.
    rewrite Nat.div_add by lia. rewrite Nat.div_small by lia. lia.
Qed.

Lemma slice_length {A} (arr : list A) i size :
  length (slice arr i (i + size)) = Nat.min size (length arr - i).
Proof.
  unfold slice. rewrite length_take, length_drop. f_equal. lia.
Qed.

Lemma slice_drop {A} (arr : list A) i size :
  slice arr i (i + size) ++ drop (i + size) arr = drop i arr.
Proof.
  unfold slice. replace (i + size - i) with size by lia.
  rewrite <- drop_drop. apply take_drop.
Qed.

(** The loop, from index [i] on: it ends within [fuel] rounds whenever
    [size] is positive, having pushed the rest of the array in pieces. *)
Lemma chunk_loop_spec {A} (arr : list A) size :
  0 < size ->
  forall fuel i chunks,
    length arr - i <= fuel ->
    exists cs,
      chunk_loop fuel arr size i chunks = Some (chunks ++ cs) /\
      concat cs = drop i arr /\
      Forall (fun c => 0 < length c <= size) cs /\
      length cs = ceil_div (length arr - i) size.
Proof.
  intros Hsize. induction fuel as [|fuel IH]; intros i chunks Hfuel; simpl.
  - rewrite decide_False by lia. exists []. rewrite app_nil_r.
    split_and!; [done | | constructor |].
    + simpl. symmetry. apply drop_ge. lia.
    + replace (length arr - i) with 0 by lia. by rewrite ceil_div_0.
  - destruct (decide (i < length arr)) as [Hlt|Hge].
    + destruct (IH (i + size) (chunks ++ [slice arr i (i + size)])) as
        (cs & -> & Hcat & Hall & Hlen); [lia|].
      exists (slice arr i (i + size) :: cs). rewrite <- app_assoc. simpl.
      split_and!; [done | | |].
      * rewrite Hcat. apply slice_drop.
      * constructor; [|done]. rewrite slice_length. lia.
      * rewrite Hlen. rewrite (ceil_div_step (length arr - i)) by lia.
        do 2 f_equal. lia.
    + exists []. rewrite app_nil_r. split_and!; [done | | constructor |].
      * simpl. symmetry. apply drop_ge. lia.
      * replace (length arr - i) with 0 by lia. by rewrite ceil_div_0.
Qed.

Lemma chunkArray_spec {A} (arr : list A) size :
  0 < size ->
  exists chunks,
    chunkArray arr size = Some chunks /\
    concat chunks = arr /\
    Forall (fun c => 0 < length c <= size) chunks /\
    length chunks = ceil_div (length arr) size.
Proof.
  intros Hsize. unfold chunkArray.
  destruct (chunk_loop_spec arr size Hsize (length arr) 0 []) as
    (cs & Hrun & Hcat & Hall & Hlen); [lia|].
  exists cs. rewrite Nat.sub_0_r in Hlen. by rewrite drop_0 in Hcat.
Qed.

Lemma chunkArray_BATCH_SIZE_returns {A} (arr : list A) :
  is_Some (chunkArray arr BATCH_SIZE).
Proof.
  destruct (chunkArray_spec arr BATCH_SIZE) as (cs & -> & _);
    [unfold BATCH_SIZE; lia | done].
Qed.

Lemma ceil_div_single n d : 0 < n <= d -> ceil_div n d = 1.
Proof.
  intros [Hn Hd]. rewrite ceil_div_step by lia.
  replace (n - d) with 0 by lia. by rewrite ceil_div_0 by lia.
Qed.

Lemma chunkArray_single {A} (arr : list A) size :
  0 < length arr <= size -> chunkArray arr size = Some [arr].
Proof.
  intros Hlen. destruct (chunkArray_spec arr size) as (cs & -> & Hcat & _ & Hn); [lia|].
  rewrite ceil_div_single in Hn by done.
  destruct cs as [|c [|c' cs]]; simpl in Hn; try lia.
  simpl in Hcat. rewrite app_nil_r in Hcat. by subst.
Qed.

(** ** Retrieval *)

Section Retrieval.
Context {St Fs : Type}.
Variable metadata_read : St -> string -> list string -> St * Result JsValue.
Variable build : JsValue -> string.

Lemma valid_item_record item :
  valid_item item = true -> exists entries, item = JObj entries.
Proof.
  unfold valid_item. destruct item; simpl; try done; try (by rewrite andb_false_r).
  eauto.
Qed.

Lemma buildProfileXml_record entries :
  buildProfileXml build (JObj entries) =
  Ok (XML_DECLARATION +:+ build (wrapped (fold_left copy_step entries []))).
Proof. reflexivity. Qed.

Lemma built_valid item :
  valid_item item = true ->
  exists xml, buildProfileXml build item = Ok xml /\
              built build item = [{| fullName := js_get item "fullName"; xml := xml |}].
Proof.
  intros Hv. unfold built. rewrite Hv.
  destruct (valid_item_record item Hv) as [entries ->].
  rewrite buildProfileXml_record. eauto.
Qed.

Lemma retrieve_item_spec results item :
  retrieve_item build results item = Ok (results ++ built build item).
Proof.
  unfold retrieve_item, built, valid_item.
  destruct (js_truthy item) eqn:Hitem; simpl; [|by rewrite app_nil_r].
  destruct (js_truthy (js_get item "fullName")) eqn:Hname; simpl;
    [|by rewrite app_nil_r].
  destruct item; simpl in Hname; done.
Qed.

Lemma retrieve_items_spec items : forall results,
  result_for items results (retrieve_item build) =
  Ok (results ++ flat_map (built build) items).
Proof.
  induction items as [|item rest IH]; intros results; simpl.
  - by rewrite app_nil_r.
  - rewrite retrieve_item_spec. simpl. by rewrite IH, <- app_assoc.
Qed.

Lemma retrieve_batch_spec results batch (w : World St Fs) :
  retrieve_batch metadata_read build results batch w =
  let '(st', r) := metadata_read (remote w) "Profile" batch in
  ({| remote := st'; calls := calls w ++ [("Profile", batch)]; disk := disk w |},
   match r with
   | Ok raw => Ok (results ++ flat_map (built build) (as_items raw))
   | Thrown msg => Thrown msg
   end).
Proof.
  unfold retrieve_batch, bind, read_call, lift.
  destruct (metadata_read (remote w) "Profile" batch) as [st' [raw|msg]]; [|done].
  by rewrite retrieve_items_spec.
Qed.

Lemma retrieve_batches_calls batches : forall results (w w' : World St Fs) out,
  for_of batches results (retrieve_batch metadata_read build) w = (w', Ok out) ->
  calls w' = calls w ++ map (fun b => ("Profile", b)) batches /\ disk w' = disk w.
Proof.
  induction batches as [|batch rest IH]; intros results w w' out; simpl.
  - unfold ret. intros [= <- _]. by rewrite app_nil_r.
  - unfold bind at 1. rewrite retrieve_batch_spec.
    destruct (metadata_read (remote w) "Profile" batch) as [st' [raw|msg]]; [|done].
    intros Hrun. apply IH in Hrun as [-> ->]. simpl. by rewrite <- app_assoc.
Qed.

Lemma retrieve_batches_return batches :
  always_resolves metadata_read ->
  forall results (w : World St Fs), exists w' out,
    for_of batches results (retrieve_batch metadata_read build) w = (w', Ok out).
Proof.
  intros Hres. induction batches as [|batch rest IH]; intros results w; simpl.
  - by eexists _, _.
  - unfold bind at 1. rewrite retrieve_batch_spec.
    destruct (Hres (remote w) batch) as (st' & raw & ->). apply IH.
Qed.

(** Whatever holds of what the entries answered by the remote contribute
    holds of the whole retrieved list. *)
Lemma retrieve_batches_all (Q : JsValue -> Prop) (P : RetrievedProfile -> Prop) :
  (forall st batch st' raw,
      metadata_read st "Profile" batch = (st', Ok raw) -> Forall Q (as_items raw)) ->
  (forall item, Q item -> Forall P (built build item)) ->
  forall batches results (w w' : World St Fs) out,
    for_of batches results (retrieve_batch metadata_read build) w = (w', Ok out) ->
    Forall P results -> Forall P out.
Proof.
  intros HQ HP. induction batches as [|batch rest IH]; intros results w w' out; simpl.
  - unfold ret. by intros [= _ <-].
  - unfold bind at 1. rewrite retrieve_batch_spec.
    destruct (metadata_read (remote w) "Profile" batch) as [st' [raw|msg]] eqn:Hread;
      [|done].
    intros Hrun Hacc. eapply IH; [exact Hrun|].
    apply Forall_app. split; [done|].
    apply Forall_flat_map. eapply Forall_impl; [by eapply HQ | exact HP].
Qed.

Lemma retrieveProfiles_batches profileNames :
  exists batches,
    chunkArray profileNames BATCH_SIZE = Some batches /\
    retrieveProfiles (Fs := Fs) metadata_read build profileNames =
    for_of batches [] (retrieve_batch metadata_read build).
Proof.
  unfold retrieveProfiles.
  destruct (chunkArray_BATCH_SIZE_returns profileNames) as [batches ->]. eauto.
Qed.

End Retrieval.

Lemma built_invalid (build : JsValue -> string) item :
  valid_item item = false -> built build item = [].
Proof. intros H. unfold built. by rewrite H. Qed.

Lemma flat_map_built_valid (build : JsValue -> string) items :
  flat_map (built build) (List.filter valid_item items) = flat_map (built build) items.
Proof.
  induction items as [|item rest IH]; simpl; [done|].
  destruct (valid_item item) eqn:Hv; simpl; rewrite IH; [done|].
  by rewrite built_invalid.
Qed.

(** ** Cleaning *)

Lemma filter_true {A} (l : list A) : List.filter (fun _ => true) l = l.
Proof. induction l; simpl; congruence. Qed.

Lemma filter_filter_and {A} (f g : A -> bool) (l : list A) :
  List.filter f (List.filter g l) = List.filter (fun x => g x && f x) l.
Proof.
  induction l as [|x l IH]; simpl; [done|].
  destruct (g x); simpl; [destruct (f x)|]; by rewrite IH.
Qed.

Lemma filter_ext_bool {A} (f g : A -> bool) (l : list A) :
  (forall x, f x = g x) -> List.filter f l = List.filter g l.
Proof. intros H. induction l as [|x l IH]; simpl; [done|]. by rewrite H, IH. Qed.

Lemma apply_clean_record options entries :
  apply_clean options (JObj entries) =
  JObj (List.filter (fun e => negb (stripped_by options (fst e))) entries).
Proof.
  unfold apply_clean, stripped_by.
  destruct options as [[] [] []]; simpl; unfold obj_delete;
    rewrite ?filter_filter_and; f_equal;
    try (apply filter_ext_bool; intros [k v]; simpl;
         destruct (String.eqb k "loginIpRanges"), (String.eqb k "userLicense"),
           (String.eqb k "loginHours"); reflexivity).
  by rewrite filter_true.
Qed.

Lemma apply_clean_truthy options profile :
  js_truthy (apply_clean options profile) = js_truthy profile.
Proof.
  destruct profile; try (by destruct options as [[] [] []]).
Qed.

Lemma apply_clean_idemp options profile :
  apply_clean options (apply_clean options profile) = apply_clean options profile.
Proof.
  destruct profile; try (by destruct options as [[] [] []]).
  rewrite !apply_clean_record, filter_filter_and. f_equal.
  apply filter_ext_bool. intros e. by destruct (stripped_by options (fst e)).
Qed.

Section Cleaning.
Variable build : JsValue -> string.
Variable parse : string -> Result (list (string * JsValue)).

Lemma cleanProfileXml_unfold xml options :
  cleanProfileXml build parse xml options =
  result_bind (parse xml) (fun parsed =>
    let profile := js_get (JObj parsed) "Profile" in
    if negb (js_truthy profile) then Ok xml
    else Ok (XML_DECLARATION +:+
             build (JObj [("Profile", apply_clean options profile)]))).
Proof. reflexivity. Qed.

(** Cleaning twice changes nothing more, provided the parser reads the
    cleaned [Profile] back from the text the builder made of it. *)
Lemma cleanProfileXml_stable_when_reparsed xml options parsed once reparsed :
  parse xml = Ok parsed ->
  cleanProfileXml build parse xml options = Ok once ->
  parse once = Ok reparsed ->
  js_truthy (js_get (JObj parsed) "Profile") = true ->
  js_get (JObj reparsed) "Profile" =
    apply_clean options (js_get (JObj parsed) "Profile") ->
  cleanProfileXml build parse once options = Ok once.
Proof.
  intros Hparse Honce Hre Htruthy Hback.
  rewrite cleanProfileXml_unfold in Honce |- *.
  rewrite Hparse in Honce. rewrite Hre.
  cbv beta iota zeta delta [result_bind] in Honce |- *.
  rewrite Htruthy in Honce. injection Honce as Honce.
  rewrite Hback, apply_clean_truthy, Htruthy, apply_clean_idemp.
  cbv beta iota delta [negb]. f_equal. exact Honce.
Qed.
(** With a parser that reads every [Profile] back from the text the
    builder makes of it, the cleaner is idempotent on all inputs. *)
Lemma cleanProfileXml_idempotent_when_inverse :
  (forall profile,
      js_truthy profile = true ->
      exists reparsed,
        parse (XML_DECLARATION +:+ build (JObj [("Profile", profile)])) = Ok reparsed /\
        js_get (JObj reparsed) "Profile" = profile) ->
  forall xml options once,
    cleanProfileXml build parse xml options = Ok once ->
    cleanProfileXml build parse once options = Ok once.
Proof.
  intros Hinverse xml options once Honce.
  destruct (parse xml) as [parsed|msg] eqn:Hparse.
  2:{ rewrite cleanProfileXml_unfold, Hparse in Honce. done. }
  destruct (js_truthy (js_get (JObj parsed) "Profile")) eqn:Htruthy.
  - pose proof Honce as Hshape.
    rewrite cleanProfileXml_unfold, Hparse in Hshape.
    cbv beta iota zeta delta [result_bind] in Hshape.
    rewrite Htruthy in Hshape. injection Hshape as Hshape.
    destruct (Hinverse (apply_clean options (js_get (JObj parsed) "Profile")))
      as (reparsed & Hre & Hback); [by rewrite apply_clean_truthy|].
    subst once.
    exact (cleanProfileXml_stable_when_reparsed xml options parsed _ reparsed
             Hparse Honce Hre Htruthy Hback).
  - assert (once = xml) as ->; [|done].
    rewrite cleanProfileXml_unfold, Hparse in Honce.
    cbv beta iota zeta delta [result_bind] in Honce.
    rewrite Htruthy in Honce. by injection Honce.
Qed.
End Cleaning.

(** ** The command *)

Section Command.
Context {St Fs : Type}.
Variable metadata_read : St -> string -> list string -> St * Result JsValue.
Variable build : JsValue -> string.
Variable parse : string -> Result (list (string * JsValue)).
Variable mkdirSync : Fs -> string -> Fs * Result unit.
Variable writeFileSync : Fs -> string -> string -> Fs * Result unit.
Variable path_join : string -> string -> string.

Lemma process_profile_spec shouldClean outputDir results profile (w : World St Fs) :
  exists w' o,
    process_profile build parse mkdirSync writeFileSync path_join shouldClean outputDir
      results profile w = (w', Ok (results ++ [o])) /\
    name o = fullName profile /\ outcome_wf o = true.
Proof.
  unfold process_profile, try_catch, bind at 1, lift.
  destruct (if shouldClean then _ else _) as [cleaned|msg]; [|by eexists _, _].
  unfold bind at 1.
  destruct (writeProfileToSourceFormat _ _ _ _ _ _ _) as [w1 [path|msg]];
    by eexists _, _.
Qed.

Lemma process_profiles_spec shouldClean outputDir retrieved :
  forall results (w : World St Fs),
  exists w' processed,
    for_of retrieved results
      (process_profile build parse mkdirSync writeFileSync path_join shouldClean outputDir) w
    = (w', Ok (results ++ processed)) /\
    map name processed = map fullName retrieved /\
    forallb outcome_wf processed = true.
Proof.
  induction retrieved as [|profile rest IH]; intros results w; simpl.
  - exists w, []. by rewrite app_nil_r.
  - unfold bind at 1.
    destruct (process_profile_spec shouldClean outputDir results profile w)
      as (w1 & o & -> & Hname & Hwf).
    destruct (IH (results ++ [o]) w1) as (w' & processed & -> & Hnames & Hall).
    exists w', (o :: processed). rewrite <- app_assoc. simpl.
    by rewrite Hname, Hnames, Hwf, Hall.
Qed.

Lemma report_missing_spec retrieved profileNames : forall results,
  fold_left (report_missing retrieved) profileNames results =
  results ++ map not_found
    (List.filter (fun n => negb (retrievedNames_has retrieved n)) profileNames).
Proof.
  induction profileNames as [|n rest IH]; intros results; simpl.
  - by rewrite app_nil_r.
  - rewrite IH. unfold report_missing.
    destruct (retrievedNames_has retrieved n); simpl; [done|].
    by rewrite <- app_assoc.
Qed.

(** The shape of a completed run. *)
Lemma run_spec profileNames shouldClean outputDir (w w' : World St Fs) res :
  run metadata_read build parse mkdirSync writeFileSync path_join
    profileNames shouldClean outputDir w = (w', Ok res) ->
  exists w1 retrieved processed,
    retrieveProfiles metadata_read build profileNames w = (w1, Ok retrieved) /\
    profiles res =
      processed ++ map not_found
        (List.filter (fun n => negb (retrievedNames_has retrieved n)) profileNames) /\
    map name processed = map fullName retrieved /\
    forallb outcome_wf processed = true /\
    totalRequested res = length profileNames /\
    totalSuccess res = length (List.filter (fun r => success r) (profiles res)) /\
    totalFailed res = length (List.filter (fun r => negb (success r)) (profiles res)).
Proof.
  unfold run. unfold bind at 1.
  destruct (retrieveProfiles metadata_read build profileNames w)
    as [w1 [retrieved|msg]]; [|done].
  unfold bind at 1.
  destruct (process_profiles_spec shouldClean outputDir retrieved [] w1)
    as (w2 & processed & -> & Hnames & Hall).
  unfold ret. intros [= <- <-]. simpl.
  exists w1, retrieved, processed. by rewrite report_missing_spec.
Qed.
End Command.







(** * The claims *)

(** C1: [retrieveProfiles] cuts the list of identifiers into
    ceil(N/10) contiguous chunks of at most ten, whose concatenation is the
    list; a run that returns has issued exactly one read per chunk, in
    order; it returns whenever the remote answers; and on the empty list it
    issues no read and returns the empty list. *)
Theorem retrieveProfiles_batches_by_ten {St Fs : Type}
    (metadata_read : St -> string -> list string -> St * Result JsValue)
    (build : JsValue -> string) (profileNames : list string) :
  exists batches,
    chunkArray profileNames BATCH_SIZE = Some batches /\
    length batches = (length profileNames + 9) / 10 /\
    Forall (fun batch => length batch <= 10) batches /\
    concat batches = profileNames /\
    (forall (w w' : World St Fs) results,
        retrieveProfiles metadata_read build profileNames w = (w', Ok results) ->
        calls w' = calls w ++ map (fun batch => ("Profile", batch)) batches) /\
    (always_resolves metadata_read ->
     forall w : World St Fs, exists w' results,
        retrieveProfiles metadata_read build profileNames w = (w', Ok results)) /\
    (forall w : World St Fs, retrieveProfiles metadata_read build [] w = (w, Ok [])).
Proof.
  destruct (chunkArray_spec profileNames BATCH_SIZE) as (batches & Hrun & Hcat & Hall & Hlen);
    [unfold BATCH_SIZE; lia|].
  exists batches. split_and!; try done.
  - rewrite Hlen. unfold ceil_div, BATCH_SIZE. f_equal. lia.
  - eapply Forall_impl; [exact Hall|]. unfold BATCH_SIZE. simpl. lia.
  - intros w w' results. unfold retrieveProfiles. rewrite Hrun.
    intros Hret. by apply retrieve_batches_calls in Hret as [-> _].
  - intros Hres w. unfold retrieveProfiles. rewrite Hrun.
    by apply retrieve_batches_return.
Qed.

Lemma retrieveProfiles_batches_by_ten_witness :
  exists w' results,
    retrieveProfiles (Stub.resolves (JArr [])) Stub.build (Stub.names "Profile" 15)
      (Stub.world0 tt) = (w', Ok results) /\
    map (fun c => length (snd c)) (calls w') = [10; 5].
Proof.
  destruct (retrieveProfiles_batches_by_ten (Fs := list (string * string))
              (Stub.resolves (JArr [])) Stub.build (Stub.names "Profile" 15))
    as (batches & Hchunks & _ & _ & _ & Hcalls & Hreturns & _).
  destruct (Hreturns (fun st batch => ex_intro _ st (ex_intro _ (JArr []) eq_refl))
              (Stub.world0 tt)) as (w' & results & Hrun).
  exists w', results. split; [exact Hrun|].
  rewrite (Hcalls _ _ _ Hrun).
  vm_compute in Hchunks. injection Hchunks as <-. reflexivity.
Defined.

(** C8: inside a chunk's result, an entry that is [null], [undefined] or
    without a [fullName] adds nothing to the retrieved list and raises
    nothing; a chunk's result contributes the documents of its valid
    entries only, in order; and when the remote answers a single chunk with
    a [null] entry followed by a valid entry, [retrieveProfiles] returns
    exactly the one document built from the valid entry. *)
Theorem retrieveProfiles_skips_invalid_entries {St Fs : Type}
    (metadata_read : St -> string -> list string -> St * Result JsValue)
    (build : JsValue -> string) :
  (forall results item,
      item = JNull \/ item = JUndefined \/ js_get item "fullName" = JUndefined ->
      retrieve_item build results item = Ok results) /\
  (forall results batch (w : World St Fs) st' raw,
      metadata_read (remote w) "Profile" batch = (st', Ok raw) ->
      snd (retrieve_batch metadata_read build results batch w) =
      Ok (results ++ flat_map (built build) (List.filter valid_item (as_items raw)))) /\
  (forall profileNames (w : World St Fs) st' item,
      0 < length profileNames <= 10 ->
      metadata_read (remote w) "Profile" profileNames = (st', Ok (JArr [JNull; item])) ->
      valid_item item = true ->
      exists xml,
        buildProfileXml build item = Ok xml /\
        snd (retrieveProfiles metadata_read build profileNames w) =
        Ok [{| fullName := js_get item "fullName"; xml := xml |}]).
Proof.
  split_and!.
  - intros results item Hskip. rewrite retrieve_item_spec, built_invalid.
    + by rewrite app_nil_r.
    + unfold valid_item. destruct Hskip as [->|[->|Hname]]; [done | done |].
      rewrite Hname. apply andb_false_r.
  - intros results batch w st' raw Hread.
    rewrite retrieve_batch_spec, Hread. simpl. by rewrite flat_map_built_valid.
  - intros profileNames w st' item Hlen Hread Hvalid.
    destruct (built_valid build item Hvalid) as (xml & Hxml & Hbuilt).
    exists xml. split; [done|].
    unfold retrieveProfiles. rewrite chunkArray_single by (unfold BATCH_SIZE; lia).
    simpl. unfold bind. rewrite retrieve_batch_spec, Hread. simpl.
    by rewrite Hbuilt.
Qed.

Lemma retrieveProfiles_skips_invalid_entries_witness :
  snd (retrieveProfiles
         (Stub.resolves (JArr [JNull; JObj [("fullName", JStr "Admin")]]))
         Stub.build ["Admin"; "Bad"] (Stub.world0 tt)) =
  Ok [{| fullName := JStr "Admin";
         xml := XML_DECLARATION +:+ "<Profile/>" |}].
Proof.
  destruct (retrieveProfiles_skips_invalid_entries (Fs := list (string * string))
              (Stub.resolves (JArr [JNull; JObj [("fullName", JStr "Admin")]]))
              Stub.build) as (_ & _ & Hexample).
  destruct (Hexample ["Admin"; "Bad"] (Stub.world0 tt) tt
              (JObj [("fullName", JStr "Admin")]))
    as (xml & Hxml & Hrun); [simpl; lia | reflexivity | reflexivity |].
  rewrite Hrun. vm_compute in Hxml. injection Hxml as <-. reflexivity.
Defined.

(** C9: [retrieveProfiles] turns the answer to every read into a sequence
    of entries before anything else looks at it: an answer that is no
    array becomes the sequence of that one value, an array is taken as it
    is. So a chunk answered with the bare record [r] is processed as the
    one entry [r], exactly as when it is answered with [[r]]; a remote that
    answers with [[r]] wherever another answers with a bare [r] leads to
    the same calls, the same final state and the same result; and a single
    chunk answered with a bare valid record yields the one document built
    from that record. *)
Theorem retrieveProfiles_singleton_normalised {St Fs : Type}
    (metadata_read : St -> string -> list string -> St * Result JsValue)
    (build : JsValue -> string) :
  (forall record, (forall items, record <> JArr items) -> as_items record = [record]) /\
  (forall items, as_items (JArr items) = items) /\
  (forall results batch (w : World St Fs) st' record,
      (forall items, record <> JArr items) ->
      metadata_read (remote w) "Profile" batch = (st', Ok record) ->
      answering_with_arrays metadata_read (remote w) "Profile" batch =
        (st', Ok (JArr [record])) /\
      retrieve_batch metadata_read build results batch w =
        ({| remote := st'; calls := calls w ++ [("Profile", batch)]; disk := disk w |},
         retrieve_item build results record) /\
      retrieve_batch (answering_with_arrays metadata_read) build results batch w =
      retrieve_batch metadata_read build results batch w) /\
  (forall profileNames (w : World St Fs),
      retrieveProfiles (answering_with_arrays metadata_read) build profileNames w =
      retrieveProfiles metadata_read build profileNames w) /\
  (forall profileNames (w : World St Fs) st' record,
      0 < length profileNames <= 10 ->
      (forall items, record <> JArr items) ->
      metadata_read (remote w) "Profile" profileNames = (st', Ok record) ->
      valid_item record = true ->
      exists xml,
        buildProfileXml build record = Ok xml /\
        retrieveProfiles metadata_read build profileNames w =
          ({| remote := st'; calls := calls w ++ [("Profile", profileNames)];
              disk := disk w |},
           Ok [{| fullName := js_get record "fullName"; xml := xml |}])).
Proof.
  assert (forall record, (forall items, record <> JArr items) -> as_items record = [record])
    as Hbare.
  { intros record Hrecord. destruct record; try done. by destruct (Hrecord items). }
  split_and!; [exact Hbare | done | | |].
  - intros results batch w st' record Hrecord Hread. split_and!.
    + unfold answering_with_arrays. rewrite Hread.
      destruct record; try done. by destruct (Hrecord items).
    + rewrite retrieve_batch_spec, Hread, (Hbare record Hrecord). cbn [flat_map].
      by rewrite app_nil_r, retrieve_item_spec.
    + rewrite !retrieve_batch_spec. unfold answering_with_arrays. rewrite Hread.
      by destruct record.
  - intros profileNames w. unfold retrieveProfiles.
    destruct (chunkArray profileNames BATCH_SIZE) as [batches|]; [|done].
    generalize (@nil RetrievedProfile) as results. revert w.
    induction batches as [|batch rest IH]; intros w results; simpl; [done|].
    unfold bind. rewrite !retrieve_batch_spec. unfold answering_with_arrays.
    destruct (metadata_read (remote w) "Profile" batch) as [st' [raw|msg]]; [|done].
    replace (as_items (listify raw)) with (as_items raw) by (by destruct raw).
    apply IH.
  - intros profileNames w st' record Hlen Hrecord Hread Hvalid.
    destruct (built_valid build record Hvalid) as (xml & Hxml & Hbuilt).
    exists xml. split; [done|].
    unfold retrieveProfiles. rewrite chunkArray_single by (unfold BATCH_SIZE; lia).
    simpl. unfold bind. rewrite retrieve_batch_spec, Hread, (Hbare record Hrecord).
    cbn [flat_map]. by rewrite Hbuilt.
Qed.

Lemma retrieveProfiles_singleton_normalised_witness :
  retrieveProfiles (Stub.resolves (JObj [("fullName", JStr "Admin"); ("custom", JBool false)]))
    Stub.build ["Admin"] (Stub.world0 tt) =
  ({| remote := tt; calls := [("Profile", ["Admin"])]; disk := [] |},
   Ok [{| fullName := JStr "Admin"; xml := XML_DECLARATION +:+ "<Profile/>" |}]) /\
  retrieveProfiles
    (Stub.resolves (JArr [JObj [("fullName", JStr "Admin"); ("custom", JBool false)]]))
    Stub.build ["Admin"] (Stub.world0 tt) =
  retrieveProfiles (Stub.resolves (JObj [("fullName", JStr "Admin"); ("custom", JBool false)]))
    Stub.build ["Admin"] (Stub.world0 tt).
Proof.
  destruct (retrieveProfiles_singleton_normalised (Fs := list (string * string))
              (Stub.resolves (JObj [("fullName", JStr "Admin"); ("custom", JBool false)]))
              Stub.build) as (_ & _ & _ & Hsame & Hone).
  split.
  - destruct (Hone ["Admin"] (Stub.world0 tt) tt
                (JObj [("fullName", JStr "Admin"); ("custom", JBool false)]))
      as (xml & Hxml & Hrun); [simpl; lia | done | reflexivity | reflexivity |].
    rewrite Hrun. vm_compute in Hxml. injection Hxml as <-. reflexivity.
  - rewrite <- (Hsame ["Admin"] (Stub.world0 tt)). reflexivity.
Defined.

(** C10, as the code has it: every entry of the list [retrieveProfiles]
    returns has a truthy [fullName], which is the value the remote entry
    carried under that name: it is not the empty string, not [null] and
    not absent, and it is a non-empty string whenever it is a string; what
    holds of every truthy [fullName] the remote answers holds of every
    [fullName] returned, so the names returned are strings when the
    remote's are. A remote entry whose [fullName] is falsy (the empty
    string, [null]) is passed over exactly as the same entry with no
    [fullName] field is. *)
Theorem retrieveProfiles_fullName_truthy {St Fs : Type}
    (metadata_read : St -> string -> list string -> St * Result JsValue)
    (build : JsValue -> string) :
  (forall profileNames (w w' : World St Fs) results,
      retrieveProfiles metadata_read build profileNames w = (w', Ok results) ->
      Forall (fun r => js_truthy (fullName r) = true /\
                       fullName r <> JStr "" /\ fullName r <> JNull /\
                       fullName r <> JUndefined /\
                       forall s, fullName r = JStr s -> s <> "") results) /\
  (forall (P : JsValue -> Prop) profileNames (w w' : World St Fs) results,
      (forall st batch st' raw,
          metadata_read st "Profile" batch = (st', Ok raw) ->
          Forall (fun item => js_truthy (js_get item "fullName") = true ->
                              P (js_get item "fullName"))
            (as_items raw)) ->
      retrieveProfiles metadata_read build profileNames w = (w', Ok results) ->
      Forall (fun r => P (fullName r)) results) /\
  (forall results entries,
      js_truthy (js_get (JObj entries) "fullName") = false ->
      retrieve_item build results (JObj entries) = Ok results /\
      retrieve_item build results (JObj entries) =
      retrieve_item build results (JObj (obj_delete "fullName" entries))).
Proof.
  split_and!.
  - intros profileNames w w' results.
    destruct (retrieveProfiles_batches (Fs := Fs) metadata_read build profileNames)
      as (batches & _ & ->).
    intros Hrun.
    eapply (retrieve_batches_all _ _ (fun _ => True)); [| |exact Hrun|constructor].
    + intros st batch st' raw _. by apply Forall_forall.
    + intros item _. unfold built.
      destruct (valid_item item) eqn:Hv; [|constructor].
      destruct (buildProfileXml build item); constructor; [|constructor]. simpl.
      unfold valid_item in Hv. apply andb_true_iff in Hv as [_ Hname].
      split_and!; [done | | | |]; try (intros Heq; by rewrite Heq in Hname).
      intros s Heq ->. by rewrite Heq in Hname.
  - intros P profileNames w w' results Hanswers.
    destruct (retrieveProfiles_batches (Fs := Fs) metadata_read build profileNames)
      as (batches & _ & ->).
    intros Hrun.
    eapply (retrieve_batches_all _ _ _ _ Hanswers); [|exact Hrun|constructor].
    intros item Hitem. unfold built.
    destruct (valid_item item) eqn:Hv; [|constructor].
    destruct (buildProfileXml build item); constructor; [|constructor]. simpl.
    unfold valid_item in Hv. apply andb_true_iff in Hv as [_ Hname]. by apply Hitem.
  - intros results entries Hfalsy.
    rewrite !retrieve_item_spec, !built_invalid; [by rewrite app_nil_r | |].
    + unfold valid_item. simpl. by rewrite obj_delete_lookup_eq.
    + unfold valid_item. by rewrite Hfalsy, andb_false_r.
Qed.

Lemma retrieveProfiles_fullName_truthy_witness :
  Forall (fun r => exists s, fullName r = JStr s /\ s <> "")
    [{| fullName := JStr "Admin"; xml := XML_DECLARATION +:+ "<Profile/>" |}] /\
  retrieve_item Stub.build [] (JObj [("fullName", JNull); ("custom", JBool false)]) =
  Ok [] /\
  retrieve_item Stub.build [] (JObj [("fullName", JStr ""); ("custom", JBool false)]) =
  retrieve_item Stub.build [] (JObj [("custom", JBool false)]).
Proof.
  destruct (retrieveProfiles_fullName_truthy (Fs := list (string * string))
              (Stub.resolves
                 (JArr [JObj [("fullName", JStr "")]; JObj [("fullName", JNull)];
                        JObj [("fullName", JStr "Admin")]]))
              Stub.build) as (Hall & Hcarried & Hfalsy).
  split_and!.
  - assert (Forall (fun r => exists s, fullName r = JStr s)
              [{| fullName := JStr "Admin"; xml := XML_DECLARATION +:+ "<Profile/>" |}])
      as Hstrings.
    { apply (Hcarried (fun v => exists s, v = JStr s) ["Admin"] (Stub.world0 tt)
               {| remote := tt; calls := [("Profile", ["Admin"])]; disk := [] |}).
      - intros st batch st' raw [= _ <-]. simpl.
        repeat constructor; simpl; try done. intros _. by eexists.
      - reflexivity. }
    pose proof (Hall ["Admin"] (Stub.world0 tt)
                  {| remote := tt; calls := [("Profile", ["Admin"])]; disk := [] |}
                  _ eq_refl) as Htruthy.
    apply Forall_cons in Hstrings as [[s Hs] _].
    apply Forall_cons in Htruthy as [(_ & _ & _ & _ & Hne) _].
    constructor; [|constructor]. exists s. split; [exact Hs | by apply Hne].
  - apply (Hfalsy [] [("fullName", JNull); ("custom", JBool false)]). reflexivity.
  - apply (Hfalsy [] [("fullName", JStr ""); ("custom", JBool false)]). reflexivity.
Defined.

(** C10, as the claim words it, fails when the remote answers with an
    entry whose [fullName] is no string: the cast [item.fullName as string]
    checks nothing, and the entry is returned with the number as its
    [fullName]. *)
Lemma retrieveProfiles_fullName_claim_counterexample :
  exists w' r,
    retrieveProfiles
      (Stub.resolves (JObj [("fullName", JNum (Num 7)); ("custom", JBool false)]))
      Stub.build ["Admin"] (Stub.world0 tt) = (w', Ok [r]) /\
    fullName r = JNum (Num 7) /\
    js_truthy (fullName r) = true /\
    forall s, fullName r <> JStr s.
Proof. eexists _, _. split; [vm_compute; reflexivity|]. by split_and!. Qed.

(** C2: on every well-formed tree of records, sequences and primitives,
    the result of [removeMetaKeys] is the tree in which ['$'] and ['type']
    occur at no depth, array elements included, and in which every other
    entry stands where it stood, with its value normalised in turn; a tree
    without the two keys comes back equal to itself; and wherever the tree
    lies in the heap, the call returns (given call stack for the depth of
    the tree) with every cell of the heap it was given still there and
    unchanged, so that the input still is the tree it was, the result
    being built from new cells. *)
Theorem removeMetaKeys_normalises (t : JsValue) :
  wf_value t = true ->
  key_occurs "$" (removeMetaKeys t) = false /\
  key_occurs "type" (removeMetaKeys t) = false /\
  removeMetaKeys t = strip_transport_keys t /\
  (forall entries, t = JObj entries ->
     exists out,
       removeMetaKeys t = JObj out /\
       map fst out = List.filter (fun k => negb (is_meta_key k)) (map fst entries) /\
       forall key, is_meta_key key = false ->
                   obj_lookup key out = removeMetaKeys <$> obj_lookup key entries) /\
  (key_occurs "$" t = false -> key_occurs "type" t = false -> removeMetaKeys t = t) /\
  (forall (h : gmap Heap.loc Heap.cell) (v : Heap.val) (fuel : nat),
     Heap.repr h v t -> depth t < fuel ->
     exists h' v',
       Heap.removeMetaKeys fuel h v = Some (h', v') /\
       h ⊆ h' /\ Heap.repr h' v t /\
       Heap.repr (h' ∖ h) v' (removeMetaKeys t)).
Proof.
  intros Hwf. split_and!.
  - by apply removeMetaKeys_key_free.
  - by apply removeMetaKeys_key_free.
  - by apply removeMetaKeys_strip.
  - intros entries ->. rewrite removeMetaKeys_strip by done.
    rewrite strip_transport_keys_obj. eexists. split; [done|]. split.
    + apply strip_keys.
    + intros key Hkey. rewrite strip_lookup by done.
      apply wf_value_obj in Hwf as [_ Hall].
      destruct (obj_lookup key entries) as [x|] eqn:Hx; [|done]. simpl. f_equal.
      symmetry. apply removeMetaKeys_strip.
      apply obj_lookup_Some_in in Hx. rewrite Forall_forall in Hall.
      by apply (Hall (key, x)).
  - intros Hd Ht. rewrite removeMetaKeys_strip by done.
    by apply strip_transport_keys_absent.
  - intros h v fuel Hrepr Hfuel.
    destruct (HeapFacts.removeMetaKeys_ok t fuel Hfuel h h v)
      as (h' & v' & Hrun & Hsub & Hout); [done | done |].
    exists h', v'. split_and!; try done. by eapply HeapFacts.repr_mono.
Qed.

Lemma removeMetaKeys_normalises_witness :
  let h : gmap Heap.loc Heap.cell :=
    <[1%positive := Heap.Obj [("fullName", Heap.Str "Admin"); ("$", Heap.Ref 2%positive);
                              ("userPermissions", Heap.Ref 3%positive)]]>
      (<[2%positive := Heap.Obj [("xsi:type", Heap.Str "Profile")]]>
         (<[3%positive := Heap.Arr [Heap.Ref 4%positive]]>
            (<[4%positive := Heap.Obj [("enabled", Heap.Bool true);
                                       ("type", Heap.Str "PermThing")]]> ∅))) in
  exists h' v',
    Heap.removeMetaKeys 4 h (Heap.Ref 1%positive) = Some (h', v') /\
    h ⊆ h' /\
    Heap.repr (h' ∖ h) v'
      (JObj [("fullName", JStr "Admin");
             ("userPermissions", JArr [JObj [("enabled", JBool true)]])]).
Proof.
  intros h.
  destruct (removeMetaKeys_normalises
              (JObj [("fullName", JStr "Admin");
                     ("$", JObj [("xsi:type", JStr "Profile")]);
                     ("userPermissions",
                       JArr [JObj [("enabled", JBool true); ("type", JStr "PermThing")]])])
              eq_refl)
    as (_ & _ & _ & _ & _ & Hheap).
  destruct (Hheap h (Heap.Ref 1%positive) 4) as (h' & v' & Hrun & Hsub & _ & Hout).
  - eapply Heap.repr_obj; [reflexivity|].
    repeat first
      [ apply Forall2_nil_2 | apply Forall2_cons_2 | split
      | reflexivity | apply Heap.repr_str | apply Heap.repr_bool
      | (eapply Heap.repr_obj; [reflexivity|])
      | (eapply Heap.repr_arr; [reflexivity|]) ].
  - simpl. lia.
  - exists h', v'. split_and!; [exact Hrun | exact Hsub | exact Hout].
Defined.

(** ** The canonical document *)





Lemma existsb_eqb_elem (key : string) (keys : list string) :
  existsb (String.eqb key) keys = true <-> key ∈ keys.
Proof.
  rewrite existsb_exists. split.
  - intros (k & Hin & ->%String.eqb_eq). by apply list_elem_of_In.
  - intros Hin. exists key. split; [by apply list_elem_of_In | apply String.eqb_refl].
Qed.




















(** *** Assigning in property order

    The copy loop of [removeMetaKeys] assigns the names of an object in
    the property order of that object: every new name then goes last, as
    [obj_set] has it. *)

Lemma in_property_order_sublist (l1 l2 : list string) :
  sublist l1 l2 -> in_property_order l2 = true -> in_property_order l1 = true.
Proof.
  induction 1 as [|k l1 l2 Hsub IH|k l1 l2 Hsub IH]; cbn [in_property_order].
  - done.
  - intros [Hall Hrest]%andb_true_iff. apply andb_true_iff. split; [|by apply IH].
    apply forallb_forall. intros k' Hin. rewrite forallb_forall in Hall.
    apply Hall. apply list_elem_of_In. apply (sublist_subseteq _ _ Hsub).
    by apply list_elem_of_In.
  - intros [_ Hrest]%andb_true_iff. by apply IH.
Qed.

Lemma insert_index_in_order {V} n key (value : V) entries :
  array_index key = Some n ->
  in_property_order (map fst entries ++ [key]) = true ->
  insert_index n key value entries = entries ++ [(key, value)].
Proof.
  intros Hkey. induction entries as [|[k v] rest IH]; [done|].
  cbn [map fst app in_property_order insert_index].
  intros [Hall Hrest]%andb_true_iff.
  rewrite forallb_app in Hall. apply andb_true_iff in Hall as [_ Hlast].
  cbn [forallb] in Hlast. rewrite andb_true_r in Hlast.
  unfold may_follow in Hlast. rewrite Hkey in Hlast.
  destruct (array_index k) as [m|]; [|done].
  rewrite Hlast. cbn [app]. by rewrite IH.
Qed.

Lemma obj_define_in_order {V} (entries : list (string * V)) key value :
  key ∈ map fst entries \/ in_property_order (map fst entries ++ [key]) = true ->
  obj_define entries key value = obj_set entries key value.
Proof.
  unfold obj_define. destruct (existsb _ _) eqn:Hin; [done|].
  assert (key ∉ map fst entries) as Hfresh.
  { intros Hk. apply existsb_eqb_elem in Hk. by rewrite Hk in Hin. }
  intros [Hk|Horder]; [done|]. rewrite obj_set_fresh by done.
  destruct (array_index key) as [n|] eqn:Hkey; [|done].
  by apply insert_index_in_order.
Qed.

Lemma copy_loop_in_order entries : forall result,
  in_property_order (map fst result ++ map fst entries) = true ->
  fold_left (fun result e =>
               if is_meta_key (fst e) then result
               else obj_define result (fst e) (removeMetaKeys (snd e)))
    entries result
  = fold_left copy_step entries result.
Proof.
  induction entries as [|[k v] rest IH]; intros result Horder; [done|].
  cbn [fold_left fst snd map] in *. unfold copy_step at 2. cbn [fst snd].
  destruct (is_meta_key k).
  - apply IH. eapply in_property_order_sublist; [|exact Horder].
    apply sublist_app; [done | by apply sublist_cons].
  - assert (k ∈ map fst result \/ in_property_order (map fst result ++ [k]) = true)
      as Hplace.
    { right. eapply in_property_order_sublist; [|exact Horder].
      apply sublist_app; [done|]. apply sublist_skip, sublist_nil_l. }
    rewrite (obj_define_in_order result k _ Hplace). apply IH.
    rewrite obj_set_keys. destruct (decide (k ∈ map fst result)) as [Hin|Hin].
    + eapply in_property_order_sublist; [|exact Horder].
      apply sublist_app; [done | by apply sublist_cons].
    + by rewrite <- app_assoc.
Qed.



Lemma filter_sublist_bool {A} (f : A -> bool) (l : list A) :
  sublist (List.filter f l) l.
Proof.
  induction l as [|x l IH]; simpl; [done|]. destruct (f x); by constructor.
Qed.







(** A field named by an array index comes ahead of the namespace attribute
    in the tree, as it does in the object the code builds; the attribute
    is still the first one of the root. *)
Example wrapped_array_index :
  wrapped [("1", JStr "x"); ("fullName", JStr "Admin"); ("custom", JBool false)] =
  JObj [("Profile",
         JObj [("1", JStr "x"); ("@_xmlns", JStr PROFILE_XMLNS); ("custom", JBool false)])].
Proof. reflexivity. Qed.

(** ** The cleaner *)

(** C6: when the parsed document has a [Profile] record at its root,
    cleaning with the default configuration hands the builder that record
    without its top-level fields [loginIpRanges], [userLicense] and
    [loginHours]: exactly the entries under these three names are gone,
    every other top-level entry is kept, in place and with the very value
    it had, nested structures included; what is kept depends on the names
    of the top-level entries alone, whatever their values are. *)
Theorem cleanProfileXml_default_strips_top_level
    (build : JsValue -> string) (parse : string -> Result (list (string * JsValue)))
    (xml : string) (parsed entries : list (string * JsValue)) :
  parse xml = Ok parsed ->
  obj_lookup "Profile" parsed = Some (JObj entries) ->
  exists kept,
    cleanProfileXml build parse xml DEFAULT_CLEAN_OPTIONS =
      Ok (XML_DECLARATION +:+ build (JObj [("Profile", JObj kept)])) /\
    kept = List.filter (fun e => negb (non_portable (fst e))) entries /\
    sublist kept entries /\
    obj_lookup "loginIpRanges" kept = None /\
    obj_lookup "userLicense" kept = None /\
    obj_lookup "loginHours" kept = None /\
    (forall key, non_portable key = false ->
                 obj_lookup key kept = obj_lookup key entries) /\
    (forall g : JsValue -> JsValue,
        apply_clean DEFAULT_CLEAN_OPTIONS
          (JObj (map (fun e => (fst e, g (snd e))) entries)) =
        JObj (map (fun e => (fst e, g (snd e))) kept)).
Proof.
  intros Hparse Hprofile.
  rewrite cleanProfileXml_unfold, Hparse. simpl result_bind. cbv zeta.
  unfold js_get. rewrite Hprofile. simpl default. simpl js_truthy. simpl negb.
  cbv iota. rewrite apply_clean_record.
  eexists. split; [reflexivity|]. split; [reflexivity|].
  assert (forall key,
            obj_lookup key (List.filter (fun e => negb (non_portable (fst e))) entries) =
            if non_portable key then None else obj_lookup key entries) as Hlookup.
  { intros key. clear. induction entries as [|[k v] rest IH]; simpl.
    - by destruct (non_portable key).
    - destruct (String.eqb_spec k key) as [->|Hne].
      + destruct (non_portable key) eqn:Hk; simpl; [done|].
        by rewrite String.eqb_refl.
      + destruct (non_portable k); simpl; [done|].
        by destruct (String.eqb_spec k key). }
  split_and!.
  - apply filter_sublist_bool.
  - by rewrite Hlookup.
  - by rewrite Hlookup.
  - by rewrite Hlookup.
  - intros key Hkey. by rewrite Hlookup, Hkey.
  - intros g. rewrite apply_clean_record. f_equal. clear.
    induction entries as [|[k v] rest IH]; simpl; [done|].
    change (stripped_by DEFAULT_CLEAN_OPTIONS k) with (non_portable k).
    destruct (non_portable k); simpl; by rewrite IH.
Qed.

(** C7: when the parser finds no [Profile] element at the root of the
    input, [cleanProfileXml] returns the input string itself, whatever the
    configuration, and does not throw. *)
Theorem cleanProfileXml_no_profile_root
    (build : JsValue -> string) (parse : string -> Result (list (string * JsValue)))
    (xml : string) (options : CleanOptions) (parsed : list (string * JsValue)) :
  parse xml = Ok parsed ->
  obj_lookup "Profile" parsed = None ->
  cleanProfileXml build parse xml options = Ok xml.
Proof.
  intros Hparse Hnone. rewrite cleanProfileXml_unfold, Hparse. simpl.
  by rewrite Hnone.
Qed.

Lemma cleanProfileXml_default_strips_top_level_witness :
  cleanProfileXml Stub.build
    (Stub.parse_as
       [("?xml", JObj [("@_version", JStr "1.0"); ("@_encoding", JStr "UTF-8")]);
        ("Profile",
          JObj [("custom", JBool false);
                ("userLicense", JStr "Salesforce");
                ("fieldPermissions",
                  JObj [("editable", JBool true); ("field", JStr "Account.AnnualRevenue")]);
                ("loginIpRanges",
                  JObj [("endAddress", JStr "255.255.255.255");
                        ("startAddress", JStr "0.0.0.0")]);
                ("loginHours", JObj [("mondayStart", JNum (Num 480))]);
                ("userPermissions",
                  JObj [("enabled", JBool true); ("name", JStr "ViewSetup")])])])
    "<Profile>...</Profile>" DEFAULT_CLEAN_OPTIONS
  = Ok (XML_DECLARATION +:+
        Stub.build
          (JObj [("Profile",
                  JObj [("custom", JBool false);
                        ("fieldPermissions",
                          JObj [("editable", JBool true);
                                ("field", JStr "Account.AnnualRevenue")]);
                        ("userPermissions",
                          JObj [("enabled", JBool true); ("name", JStr "ViewSetup")])])])).
Proof.
  destruct (cleanProfileXml_default_strips_top_level Stub.build
              (Stub.parse_as
                 [("?xml", JObj [("@_version", JStr "1.0"); ("@_encoding", JStr "UTF-8")]);
                  ("Profile",
                    JObj [("custom", JBool false);
                          ("userLicense", JStr "Salesforce");
                          ("fieldPermissions",
                            JObj [("editable", JBool true);
                                  ("field", JStr "Account.AnnualRevenue")]);
                          ("loginIpRanges",
                            JObj [("endAddress", JStr "255.255.255.255");
                                  ("startAddress", JStr "0.0.0.0")]);
                          ("loginHours", JObj [("mondayStart", JNum (Num 480))]);
                          ("userPermissions",
                            JObj [("enabled", JBool true); ("name", JStr "ViewSetup")])])])
              "<Profile>...</Profile>" _ _ eq_refl eq_refl)
    as (kept & Hrun & -> & _).
  exact Hrun.
Defined.

Lemma cleanProfileXml_no_profile_root_witness :
  cleanProfileXml Stub.build (Stub.parse_as [("Something", JStr "test")])
    "<Something>test</Something>" DEFAULT_CLEAN_OPTIONS
  = Ok "<Something>test</Something>".
Proof.
  apply (cleanProfileXml_no_profile_root Stub.build
           (Stub.parse_as [("Something", JStr "test")])
           "<Something>test</Something>" DEFAULT_CLEAN_OPTIONS
           [("Something", JStr "test")]); reflexivity.
Defined.

(** Idempotence of the cleaner is a property of the parser and the builder
    together: with a pair that are not inverse to each other, cleaning the
    cleaned text changes it again. *)
Lemma cleanProfileXml_changes_again_with_stub :
  exists once twice,
    cleanProfileXml Stub.build_text Stub.parse_as_text "x" DEFAULT_CLEAN_OPTIONS = Ok once /\
    cleanProfileXml Stub.build_text Stub.parse_as_text once DEFAULT_CLEAN_OPTIONS = Ok twice /\
    once <> twice.
Proof. eexists _, _. repeat split. vm_compute. discriminate. Qed.

(** ** Reconciliation *)





(** The same run, evaluated: [A] and [C] are written, [B] is not found. *)
Example run_A_B_C :
  snd (run (Stub.resolves
              (JArr [JObj [("fullName", JStr "A")]; JObj [("fullName", JStr "C")]]))
         Stub.build (Stub.parse_as []) Stub.mkdir Stub.write_file Stub.join ["A"; "B"; "C"] false "out"
         (Stub.world0 tt)) =
  Ok {| profiles :=
          [{| name := JStr "A"; success := true;
              filePath := Some "out/A.profile-meta.xml"; error := None |};
           {| name := JStr "C"; success := true;
              filePath := Some "out/C.profile-meta.xml"; error := None |};
           not_found "B"];
        totalRequested := 3; totalSuccess := 2; totalFailed := 1 |}.
Proof. reflexivity. Qed.


(** ** Worked examples *)

Example chunkArray_lengths :
  map (fun r => map length <$> r)
    [chunkArray (Stub.names "P" 0) BATCH_SIZE;
     chunkArray (Stub.names "P" 10) BATCH_SIZE;
     chunkArray (Stub.names "P" 13) BATCH_SIZE;
     chunkArray (Stub.names "P" 15) BATCH_SIZE]
  = [Some []; Some [10]; Some [10; 3]; Some [10; 5]].
Proof. reflexivity. Qed.

Example array_index_values :
  map array_index ["0"; "7"; "07"; "4294967294"; "4294967295"; "1e3"; "-1"; "@_xmlns"] =
  [Some 0%N; Some 7%N; None; Some 4294967294%N; None; None; None; None].
Proof. reflexivity. Qed.

Example obj_define_order :
  obj_define (obj_define (obj_define [("b", 1)] "10" 2) "a" 3) "2" 4 =
  [("2", 4); ("10", 2); ("b", 1); ("a", 3)].
Proof. reflexivity. Qed.

Example chunkArray_size_zero : chunkArray ["a"; "b"] 0 = None.
Proof. reflexivity. Qed.

Example removeMetaKeys_nested :
  removeMetaKeys
    (JObj [("fullName", JStr "Admin"); ("$", JObj [("xsi:type", JStr "Profile")]);
           ("userPermissions",
             JArr [JObj [("enabled", JBool true); ("type", JStr "PermThing")]])])
  = JObj [("fullName", JStr "Admin");
          ("userPermissions", JArr [JObj [("enabled", JBool true)]])].
Proof. reflexivity. Qed.

Example retrieveProfiles_two_batches :
  let answer n k :=
    JArr (map (fun i => JObj [("fullName", JStr ("P" +:+ pretty i))]) (seq n k)) in
  let '(w', r) :=
    retrieveProfiles (Stub.resolves_in_turn (answer 0 10) (answer 10 3))
      Stub.build (Stub.names "P" 13) (Stub.world0 0) in
  map (fun c => length (snd c)) (calls w') = [10; 3] /\
  (fun rs => map fullName rs) <$> (match r with Ok rs => Some rs | Thrown _ => None end)
  = Some (map (fun n => JStr n) (Stub.names "P" 13)).
Proof. split; reflexivity. Qed.

(** * Further properties of the code *)

(** ** chunkArray, for any size *)

Lemma chunk_loop_closed {A} (arr : list A) size :
  0 < size ->
  forall fuel i chunks,
    length arr - i <= fuel ->
    chunk_loop fuel arr size i chunks =
    Some (chunks ++
          map (fun k => slice arr (i + k * size) (i + k * size + size))
            (seq 0 (ceil_div (length arr - i) size))).
Proof.
  intros Hsize. induction fuel as [|fuel IH]; intros i chunks Hfuel; simpl.
  - rewrite decide_False by lia.
    replace (length arr - i) with 0 by lia.
    rewrite ceil_div_0 by done. simpl. by rewrite app_nil_r.
  - destruct (decide (i < length arr)) as [Hlt|Hge].
    + rewrite IH by lia. f_equal.
      rewrite (ceil_div_step (length arr - i)) by lia.
      replace (length arr - i - size) with (length arr - (i + size)) by lia.
      rewrite <- app_assoc. f_equal. simpl.
      rewrite Nat.add_0_r. f_equal.
      rewrite <- seq_shift, map_map. apply map_ext.
      intros k. f_equal; simpl; lia.
    + replace (length arr - i) with 0 by lia.
      rewrite ceil_div_0 by done. simpl. by rewrite app_nil_r.
Qed.

Lemma ceil_div_last n d k : 0 < d -> S k < ceil_div n d -> k * d + d <= n.
Proof.
  intros Hd. revert n. induction k as [|k IH]; intros n Hk.
  - destruct (le_lt_dec d n) as [Hle|Hlt]; [simpl; lia|].
    destruct (Nat.eq_dec n 0) as [->|Hn]; [rewrite ceil_div_0 in Hk; lia|].
    rewrite ceil_div_single in Hk by lia. lia.
  - destruct (Nat.eq_dec n 0) as [->|Hn]; [rewrite ceil_div_0 in Hk; lia|].
    rewrite ceil_div_step in Hk by lia.
    assert (d <= n).
    { destruct (le_lt_dec d n); [done|].
      replace (n - d) with 0 in Hk by lia. rewrite ceil_div_0 in Hk; lia. }
    specialize (IH (n - d)). simpl. lia.
Qed.

Lemma ceil_div_inside n d k : 0 < d -> k < ceil_div n d -> k * d < n.
Proof.
  intros Hd. revert n. induction k as [|k IH]; intros n Hk.
  - destruct (Nat.eq_dec n 0) as [->|Hn]; [rewrite ceil_div_0 in Hk; lia|]. simpl. lia.
  - destruct (Nat.eq_dec n 0) as [->|Hn]; [rewrite ceil_div_0 in Hk; lia|].
    rewrite ceil_div_step in Hk by lia.
    assert (d <= n).
    { destruct (le_lt_dec d n); [done|].
      replace (n - d) with 0 in Hk by lia. rewrite ceil_div_0 in Hk; lia. }
    specialize (IH (n - d)). simpl. lia.
Qed.

(** X1: for every positive [size], [chunkArray] returns ceil(n/size)
    chunks; the chunk at position [k] is the slice of the array from index
    [k * size] to [k * size + size]; no chunk is empty, and every chunk
    but the last holds exactly [size] elements. *)
Theorem chunkArray_chunks {A} (arr : list A) (size : nat) :
  0 < size ->
  exists chunks,
    chunkArray arr size = Some chunks /\
    length chunks = ceil_div (length arr) size /\
    forall k c,
      chunks !! k = Some c ->
      c = take size (drop (k * size) arr) /\
      0 < length c /\
      (S k < length chunks -> length c = size).
Proof.
  intros Hsize. unfold chunkArray.
  rewrite (chunk_loop_closed arr size Hsize) by lia. simpl.
  rewrite Nat.sub_0_r. eexists. split; [reflexivity|].
  split; [by rewrite length_map, length_seq|].
  intros k c Hk. rewrite length_map, length_seq.
  rewrite list_lookup_fmap in Hk.
  destruct (seq 0 (ceil_div (length arr) size) !! k) as [j|] eqn:Hj; [|done].
  apply lookup_seq in Hj as [-> Hlt]. simpl in Hk. injection Hk as <-.
  unfold slice. replace (k * size + size - k * size) with size by lia.
  split; [done|]. rewrite length_take, length_drop.
  pose proof (ceil_div_inside _ _ _ Hsize Hlt). split; [lia|].
  intros Hlast. pose proof (ceil_div_last _ _ _ Hsize Hlast). lia.
Qed.

Lemma chunkArray_chunks_witness :
  exists chunks,
    chunkArray [1; 2; 3; 4; 5; 6; 7] 3 = Some chunks /\
    chunks !! 1 = Some [4; 5; 6] /\ chunks !! 2 = Some [7].
Proof.
  destruct (chunkArray_chunks [1; 2; 3; 4; 5; 6; 7] 3) as (chunks & Hrun & Hlen & Hat);
    [lia|].
  exists chunks. split; [exact Hrun|].
  vm_compute in Hrun. injection Hrun as <-. split; reflexivity.
Defined.

(** X2: with [size = 0] the loop of [chunkArray] never ends on a non-empty
    array, whatever the number of rounds it is given; on the empty array
    it returns no chunk for every size, zero included. *)
Theorem chunkArray_size_zero_diverges {A} (arr : list A) :
  (forall size, chunkArray (@nil A) size = Some []) /\
  (arr <> [] -> forall fuel, chunk_loop fuel arr 0 0 [] = None).
Proof.
  split; [done|]. intros Hne fuel.
  assert (0 < length arr) as Hlen by (destruct arr; [done | simpl; lia]).
  generalize (@nil (list A)) as chunks.
  induction fuel as [|fuel IH]; intros chunks; simpl.
  - by rewrite decide_True.
  - rewrite decide_True by done. apply IH.
Qed.

Lemma chunkArray_size_zero_diverges_witness :
  chunk_loop 1000 ["a"; "b"] 0 0 [] = None.
Proof.
  destruct (chunkArray_size_zero_diverges ["a"; "b"]) as [_ Hloop].
  apply Hloop. discriminate.
Defined.

(** ** removeMetaKeys, applied again *)

Lemma obj_set_NoDup {V} (entries : list (string * V)) key value :
  NoDup (map fst entries) -> NoDup (map fst (obj_set entries key value)).
Proof.
  intros Hnd. rewrite obj_set_keys.
  destruct (decide (key ∈ map fst entries)) as [Hin|Hnin]; [done|].
  apply NoDup_app. split_and!; [done | | apply NoDup_singleton].
  intros x Hx ->%list_elem_of_singleton. done.
Qed.

Lemma obj_set_all {V} (P : V -> Prop) (entries : list (string * V)) key value :
  Forall (fun e => P (snd e)) entries -> P value ->
  Forall (fun e => P (snd e)) (obj_set entries key value).
Proof.
  intros Hall Hv. induction Hall as [|[k v] rest Hk Htl IH]; simpl.
  - by constructor.
  - destruct (String.eqb k key); constructor; auto.
Qed.

Lemma copy_loop_wf entries : forall result,
  Forall (fun e => wf_value (removeMetaKeys (snd e)) = true) entries ->
  NoDup (map fst result) ->
  Forall (fun e => wf_value (snd e) = true) result ->
  NoDup (map fst (fold_left copy_step entries result)) /\
  Forall (fun e => wf_value (snd e) = true) (fold_left copy_step entries result).
Proof.
  induction entries as [|[k v] rest IH]; intros result Hrec Hnd Hall; simpl; [done|].
  apply Forall_cons in Hrec as [Hv Hrest]. simpl in Hv.
  apply IH; [done | |]; unfold copy_step; simpl; destruct (is_meta_key k); try done.
  - by apply obj_set_NoDup.
  - by apply (obj_set_all (fun x => wf_value x = true)).
Qed.

(** Whatever it is given, [removeMetaKeys] returns a well-formed tree. *)
Lemma removeMetaKeys_wf t : wf_value (removeMetaKeys t) = true.
Proof.
  induction t as [| | | | |items IH|entries IH] using JsValue_nested_ind;
    try reflexivity.
  - rewrite removeMetaKeys_arr. apply wf_value_arr.
    rewrite Forall_map. eapply Forall_impl; [exact IH | done].
  - rewrite removeMetaKeys_obj. apply wf_value_obj.
    apply copy_loop_wf; [done | constructor | constructor].
Qed.

Lemma removeMetaKeys_again t :
  removeMetaKeys (removeMetaKeys t) = removeMetaKeys t.
Proof.
  rewrite (removeMetaKeys_strip (removeMetaKeys t)) by apply removeMetaKeys_wf.
  apply strip_transport_keys_absent; by apply removeMetaKeys_key_free.
Qed.

(** X3: [removeMetaKeys] is idempotent, and what it returns is always a
    well-formed tree without the two reserved keys: normalising a
    normalised tree gives the same tree, for every input. *)
Theorem removeMetaKeys_idempotent (t : JsValue) :
  removeMetaKeys (removeMetaKeys t) = removeMetaKeys t /\
  wf_value (removeMetaKeys t) = true.
Proof. split; [apply removeMetaKeys_again | apply removeMetaKeys_wf]. Qed.

Lemma obj_set_mentions_inv key entries k value :
  existsb (entry_mentions key) (obj_set entries k value) = true ->
  existsb (entry_mentions key) entries = true \/ entry_mentions key (k, value) = true.
Proof.
  induction entries as [|[k' v'] rest IH]; simpl.
  - rewrite orb_false_r. by right.
  - destruct (String.eqb_spec k' k) as [->|Hne]; simpl.
    + intros [H|H]%orb_true_iff; [by right | left; by rewrite H, orb_true_r].
    + intros [H|H]%orb_true_iff; [left; by rewrite H|].
      destruct (IH H) as [H'|H']; [left; by rewrite H', orb_true_r | by right].
Qed.

Lemma copy_loop_mentions key entries : forall result,
  Forall (fun e => key_occurs key (removeMetaKeys (snd e)) = true ->
                   key_occurs key (snd e) = true) entries ->
  existsb (entry_mentions key) (fold_left copy_step entries result) = true ->
  existsb (entry_mentions key) result = true \/
  existsb (entry_mentions key) entries = true.
Proof.
  induction entries as [|[k v] rest IH]; intros result Hrec; simpl; [by left|].
  apply Forall_cons in Hrec as [Hv Hrest]. simpl in Hv.
  intros [Hres|Hin]%IH; [|right; by rewrite Hin, orb_true_r|done].
  unfold copy_step in Hres. simpl in Hres.
  destruct (is_meta_key k); [by left|].
  apply obj_set_mentions_inv in Hres as [Hres|Hnew]; [by left|].
  right. apply orb_true_iff. left.
  unfold entry_mentions in *. simpl in *.
  apply orb_true_iff in Hnew as [Hk|Hocc]; [by rewrite Hk|].
  by rewrite (Hv Hocc), orb_true_r.
Qed.

(** X4: [removeMetaKeys] invents nothing: a property name that occurs in
    the result, at whatever depth, occurs in the input; and the result is
    never nested deeper than the input. *)
Theorem removeMetaKeys_adds_nothing (t : JsValue) :
  (forall key, key_occurs key (removeMetaKeys t) = true -> key_occurs key t = true) /\
  depth (removeMetaKeys t) <= depth t.
Proof.
  split.
  - intros key.
    induction t as [| | | | |items IH|entries IH] using JsValue_nested_ind; try done.
    + rewrite removeMetaKeys_arr, !key_occurs_arr.
      intros (x & Hx & Hocc)%existsb_exists.
      apply in_map_iff in Hx as (y & <- & Hy).
      apply existsb_exists. exists y. split; [done|].
      rewrite Forall_forall in IH. apply IH; [by apply list_elem_of_In | done].
    + rewrite removeMetaKeys_obj, !key_occurs_obj.
      intros [Hnil|Hin]%copy_loop_mentions; [done | done | done].
  - induction t as [| | | | |items IH|entries IH] using JsValue_nested_ind;
      try (simpl; lia).
    + rewrite removeMetaKeys_arr. simpl. apply le_n_S. rewrite map_map.
      induction IH as [|x l Hx _ IHl]; simpl; lia.
    + rewrite removeMetaKeys_obj. simpl. apply le_n_S.
      assert (forall result bound,
                list_max (map (fun e => depth (snd e)) result) <= bound ->
                list_max (map (fun e => depth (snd e)) entries) <= bound ->
                list_max (map (fun e => depth (snd e)) (fold_left copy_step entries result))
                <= bound) as Hloop.
      { clear -IH. induction IH as [|[k v] rest Hv _ IHrest]; intros result bound Hres Hes;
          simpl in *; [done|].
        apply IHrest; [|lia]. unfold copy_step. simpl.
        destruct (is_meta_key k); [done|].
        assert (depth (removeMetaKeys v) <= bound) as Hnew by lia.
        clear -Hres Hnew. induction result as [|[k' v'] result IH]; simpl in *; [lia|].
        destruct (String.eqb k' k); simpl; [lia|].
        specialize (IH ltac:(lia)). lia. }
      apply Hloop; [simpl; lia | done].
Qed.

Lemma removeMetaKeys_adds_nothing_witness :
  key_occurs "field"
    (JObj [("fieldPermissions", JObj [("field", JStr "Account.Name")]);
           ("$", JObj [("xsi:type", JStr "Profile")])]) = true /\
  key_occurs "xsi:type"
    (removeMetaKeys
       (JObj [("fieldPermissions", JObj [("field", JStr "Account.Name")]);
              ("$", JObj [("xsi:type", JStr "Profile")])])) = false.
Proof.
  destruct (removeMetaKeys_adds_nothing
              (JObj [("fieldPermissions", JObj [("field", JStr "Account.Name")]);
                     ("$", JObj [("xsi:type", JStr "Profile")])])) as [Hkeys _].
  split; [apply (Hkeys "field"); reflexivity | reflexivity].
Defined.

(** ** buildProfileXml and what it does not look at *)

Lemma strip_entries_set_delete (g : JsValue -> JsValue) key
    (entries : list (string * JsValue)) value :
  obj_delete key
    (List.filter (fun e => negb (is_meta_key (fst e)))
       (map (fun e => (fst e, g (snd e))) (obj_set entries key value))) =
  obj_delete key
    (List.filter (fun e => negb (is_meta_key (fst e)))
       (map (fun e => (fst e, g (snd e))) entries)).
Proof.
  unfold obj_delete. induction entries as [|[k v] rest IH]; simpl.
  - destruct (is_meta_key key); simpl; [done|]. by rewrite String.eqb_refl.
  - destruct (String.eqb_spec k key) as [->|Hne]; simpl.
    + destruct (is_meta_key key); simpl; [done|]. by rewrite String.eqb_refl.
    + destruct (is_meta_key k); simpl; [done|].
      destruct (String.eqb_spec k key); [done|]. simpl. by rewrite IH.
Qed.

(** X5: the document [buildProfileXml] produces does not depend on the
    transport keys of the record nor on the value of its [fullName]: a
    record normalised beforehand gives the same text, and so does a
    well-formed record whose [fullName] is set to another value. *)
Theorem buildProfileXml_ignores_name_and_meta (build : JsValue -> string) :
  (forall profile,
      buildProfileXml build (removeMetaKeys profile) = buildProfileXml build profile) /\
  (forall entries value,
      wf_value (JObj entries) = true -> wf_value value = true ->
      buildProfileXml build (JObj (obj_set entries "fullName" value)) =
      buildProfileXml build (JObj entries)).
Proof.
  split.
  - intros profile. unfold buildProfileXml. by rewrite removeMetaKeys_again.
  - intros entries value Hwf Hvalue.
    assert (wf_value (JObj (obj_set entries "fullName" value)) = true) as Hwf'.
    { apply wf_value_obj in Hwf as [Hnd Hall]. apply wf_value_obj. split.
      - by apply obj_set_NoDup.
      - by apply (obj_set_all (fun x => wf_value x = true)). }
    pose proof (removeMetaKeys_strip _ Hwf) as H1.
    pose proof (removeMetaKeys_strip _ Hwf') as H2.
    rewrite removeMetaKeys_obj, strip_transport_keys_obj in H1, H2.
    injection H1 as H1. injection H2 as H2.
    rewrite !buildProfileXml_record. unfold wrapped.
    by rewrite H1, H2, strip_entries_set_delete.
Qed.

Lemma buildProfileXml_ignores_name_and_meta_witness :
  buildProfileXml Stub.build
    (JObj [("fullName", JStr "Standard"); ("custom", JBool false)]) =
  buildProfileXml Stub.build
    (JObj [("fullName", JStr "Admin"); ("custom", JBool false)]).
Proof.
  destruct (buildProfileXml_ignores_name_and_meta Stub.build) as [_ Hname].
  apply (Hname [("fullName", JStr "Admin"); ("custom", JBool false)] (JStr "Standard"));
    reflexivity.
Defined.

(** ** retrieveProfiles: failure and order *)

Section RetrievalMore.
Context {St Fs : Type}.
Variable metadata_read : St -> string -> list string -> St * Result JsValue.
Variable build : JsValue -> string.

Lemma retrieve_batches_thrown batches : forall results (w w' : World St Fs) msg,
  for_of batches results (retrieve_batch metadata_read build) w = (w', Thrown msg) ->
  exists k batch st,
    batches !! k = Some batch /\
    metadata_read st "Profile" batch = (remote w', Thrown msg) /\
    calls w' = calls w ++ map (fun b => ("Profile", b)) (take (S k) batches) /\
    disk w' = disk w.
Proof.
  induction batches as [|batch rest IH]; intros results w w' msg; simpl; [done|].
  unfold bind at 1. rewrite retrieve_batch_spec.
  destruct (metadata_read (remote w) "Profile" batch) as [st' [raw|msg']] eqn:Hread.
  - intros Hrun. apply IH in Hrun as (k & b & st & Hk & Hrej & Hcalls & Hdisk).
    exists (S k), b, st. split_and!; [done | done | | done].
    rewrite Hcalls. simpl. by rewrite <- app_assoc.
  - intros [= <- <-]. exists 0, batch, (remote w). simpl.
    split_and!; [done | done | | done]. by destruct rest.
Qed.

Lemma built_named item n :
  js_get item "fullName" = JStr n -> n <> "" ->
  map fullName (built build item) = [JStr n].
Proof.
  intros Hname Hne.
  assert (valid_item item = true) as Hvalid.
  { unfold valid_item. rewrite Hname. destruct item; try done. simpl.
    apply negb_true_iff, String.eqb_neq. done. }
  destruct (built_valid build item Hvalid) as (xml & _ & ->). simpl. by rewrite Hname.
Qed.

Lemma built_batch batch items :
  Forall2 (fun n item => js_get item "fullName" = JStr n) batch items ->
  Forall (fun n => n <> "") batch ->
  map fullName (flat_map (built build) items) = map JStr batch.
Proof.
  induction 1 as [|n item batch items Hn _ IH]; intros Hne; simpl; [done|].
  apply Forall_cons in Hne as [Hn0 Hne].
  by rewrite map_app, (built_named item n), IH.
Qed.

Lemma retrieve_batches_echo batches :
  answers_each metadata_read ->
  Forall (fun n => n <> "") (concat batches) ->
  forall results (w : World St Fs), exists w' out,
    for_of batches results (retrieve_batch metadata_read build) w = (w', Ok out) /\
    map fullName out = map fullName results ++ map JStr (concat batches).
Proof.
  intros Hecho. induction batches as [|batch rest IH]; intros Hne results w; simpl.
  - exists w, results. by rewrite app_nil_r.
  - simpl in Hne. apply Forall_app in Hne as [Hbatch Hrest].
    unfold bind at 1. rewrite retrieve_batch_spec.
    destruct (Hecho (remote w) batch) as (st' & raw & -> & Hitems).
    edestruct (IH Hrest) as (w' & out & -> & Hout).
    exists w', out. split; [done|].
    by rewrite Hout, !map_app, (built_batch batch), app_assoc.
Qed.
End RetrievalMore.


(** X6: [retrieveProfiles] throws only when a read is rejected, never
    because of what the remote answered, and then with the message of that
    read; the rejected read is the last one issued, so the chunks after it
    are never requested; and whether it returns or throws, it leaves the
    file system untouched. *)
Theorem retrieveProfiles_fails_fast {St Fs : Type}
    (metadata_read : St -> string -> list string -> St * Result JsValue)
    (build : JsValue -> string) (profileNames : list string)
    (w w' : World St Fs) (r : Result (list RetrievedProfile)) :
  retrieveProfiles metadata_read build profileNames w = (w', r) ->
  disk w' = disk w /\
  forall msg, r = Thrown msg ->
    exists batches k batch st,
      chunkArray profileNames BATCH_SIZE = Some batches /\
      batches !! k = Some batch /\
      metadata_read st "Profile" batch = (remote w', Thrown msg) /\
      calls w' = calls w ++ map (fun b => ("Profile", b)) (take (S k) batches).
Proof.
  destruct (retrieveProfiles_batches (Fs := Fs) metadata_read build profileNames)
    as (batches & Hchunks & ->).
  intros Hrun. destruct r as [results|msg].
  - apply retrieve_batches_calls in Hrun as [_ Hdisk]. by split.
  - apply retrieve_batches_thrown in Hrun as (k & batch & st & Hk & Hrej & Hcalls & Hdisk).
    split; [done|]. intros msg' [= <-]. by exists batches, k, batch, st.
Qed.

Lemma retrieveProfiles_fails_fast_witness :
  exists w',
    retrieveProfiles (Double.rejects_after 1 (JArr []) "INVALID_SESSION_ID") Stub.build
      (Stub.names "P" 25) (Stub.world0 0) = (w', Thrown "INVALID_SESSION_ID") /\
    map (fun c => length (snd c)) (calls w') = [10; 10] /\ disk w' = [].
Proof.
  destruct (retrieveProfiles (Double.rejects_after 1 (JArr []) "INVALID_SESSION_ID")
              Stub.build (Stub.names "P" 25) (Stub.world0 0)) as [w' r] eqn:Hrun.
  destruct (retrieveProfiles_fails_fast _ _ _ _ _ _ Hrun) as [Hdisk _].
  exists w'. split_and!; [| |exact Hdisk];
    vm_compute in Hrun; injection Hrun as <- <-; reflexivity.
Defined.

(** X7: when the remote answers every read with one entry per requested
    name, in order, and no requested name is empty, [retrieveProfiles]
    returns one profile per requested name, in the order of the request,
    across all chunks. *)
Theorem retrieveProfiles_keeps_request_order {St Fs : Type}
    (metadata_read : St -> string -> list string -> St * Result JsValue)
    (build : JsValue -> string) (profileNames : list string) (w : World St Fs) :
  answers_each metadata_read ->
  Forall (fun n => n <> "") profileNames ->
  exists w' results,
    retrieveProfiles metadata_read build profileNames w = (w', Ok results) /\
    map fullName results = map JStr profileNames.
Proof.
  intros Hecho Hne.
  destruct (chunkArray_spec profileNames BATCH_SIZE) as (batches & Hrun & Hcat & _);
    [unfold BATCH_SIZE; lia|].
  unfold retrieveProfiles. rewrite Hrun.
  destruct (retrieve_batches_echo (Fs := Fs) metadata_read build batches Hecho) with
    (results := @nil RetrievedProfile) (w := w) as (w' & out & Hout & Hnames).
  - by rewrite Hcat.
  - exists w', out. split; [done|]. by rewrite Hnames, Hcat.
Qed.

Lemma answers_each_echo : answers_each Double.echo.
Proof.
  intros st batch. eexists _, _. split; [reflexivity|]. simpl.
  induction batch as [|n batch IH]; simpl; constructor; done.
Qed.

Lemma retrieveProfiles_keeps_request_order_witness :
  exists w' results,
    retrieveProfiles Double.echo Stub.build (Stub.names "P" 13) (Stub.world0 tt)
    = (w', Ok results) /\
    map fullName results = map JStr (Stub.names "P" 13).
Proof.
  apply (retrieveProfiles_keeps_request_order Double.echo Stub.build
           (Stub.names "P" 13) (Stub.world0 tt) answers_each_echo).
  unfold Stub.names. apply Forall_forall. intros n Hn.
  apply list_elem_of_In, in_map_iff in Hn as (i & <- & _). discriminate.
Defined.

(** ** cleanProfileXml, for any configuration and any root *)

Lemma stripped_lookup options key (entries : list (string * JsValue)) :
  obj_lookup key (List.filter (fun e => negb (stripped_by options (fst e))) entries) =
  if stripped_by options key then None else obj_lookup key entries.
Proof.
  induction entries as [|[k v] rest IH]; simpl.
  - by destruct (stripped_by options key).
  - destruct (String.eqb_spec k key) as [->|Hne].
    + destruct (stripped_by options key) eqn:Hk; simpl; [done|].
      by rewrite String.eqb_refl.
    + destruct (stripped_by options k); simpl; [done|].
      by destruct (String.eqb_spec k key).
Qed.

(** X8: for every configuration, when the parsed root [Profile] is a
    record, [cleanProfileXml] hands the builder that record without the
    top-level entries whose flag is on, and nothing else changes: a field
    whose flag is off stays, and with all three flags off the record is
    handed over as it was parsed. *)
Theorem cleanProfileXml_strips_by_options
    (build : JsValue -> string) (parse : string -> Result (list (string * JsValue)))
    (xml : string) (options : CleanOptions) (parsed entries : list (string * JsValue)) :
  parse xml = Ok parsed ->
  obj_lookup "Profile" parsed = Some (JObj entries) ->
  exists kept,
    cleanProfileXml build parse xml options =
      Ok (XML_DECLARATION +:+ build (JObj [("Profile", JObj kept)])) /\
    kept = List.filter (fun e => negb (stripped_by options (fst e))) entries /\
    (forall key, obj_lookup key kept =
                 if stripped_by options key then None else obj_lookup key entries) /\
    (removeLoginIpRanges options = false -> removeUserLicense options = false ->
     removeLoginHours options = false -> kept = entries).
Proof.
  intros Hparse Hprofile.
  rewrite cleanProfileXml_unfold, Hparse. simpl result_bind. cbv zeta.
  unfold js_get. rewrite Hprofile. simpl default. simpl js_truthy. simpl negb.
  cbv iota. rewrite apply_clean_record.
  eexists. split; [reflexivity|]. split; [reflexivity|]. split.
  - intros key. apply stripped_lookup.
  - intros H1 H2 H3. unfold stripped_by. rewrite H1, H2, H3. simpl.
    apply filter_true.
Qed.

Lemma cleanProfileXml_strips_by_options_witness :
  cleanProfileXml Stub.build
    (Stub.parse_as
       [("Profile",
          JObj [("userLicense", JStr "Salesforce");
                ("loginHours", JObj [("mondayStart", JNum (Num 480))]);
                ("layoutAssignments", JObj [("layout", JStr "Account-Account Layout")])])])
    "<Profile>...</Profile>"
    {| removeLoginIpRanges := false; removeUserLicense := true; removeLoginHours := false |}
  = Ok (XML_DECLARATION +:+
        Stub.build
          (JObj [("Profile",
                  JObj [("loginHours", JObj [("mondayStart", JNum (Num 480))]);
                        ("layoutAssignments",
                          JObj [("layout", JStr "Account-Account Layout")])])])).
Proof.
  destruct (cleanProfileXml_strips_by_options Stub.build
              (Stub.parse_as
                 [("Profile",
                    JObj [("userLicense", JStr "Salesforce");
                          ("loginHours", JObj [("mondayStart", JNum (Num 480))]);
                          ("layoutAssignments",
                            JObj [("layout", JStr "Account-Account Layout")])])])
              "<Profile>...</Profile>"
              {| removeLoginIpRanges := false; removeUserLicense := true;
                 removeLoginHours := false |} _ _ eq_refl eq_refl)
    as (kept & Hrun & -> & _).
  exact Hrun.
Defined.

(** X9: a root [Profile] that is no record is never stripped: when the
    parsed [Profile] is falsy (the empty string, [0], [false], [null]) the
    input text is returned as it is; when it is a truthy value that is no
    record (an array, a text, a number) that value is rebuilt unchanged,
    whatever the configuration; and when the parser throws, so does the
    cleaner, with the same message. *)
Theorem cleanProfileXml_root_not_a_record
    (build : JsValue -> string) (parse : string -> Result (list (string * JsValue)))
    (xml : string) (options : CleanOptions) :
  (forall parsed profile,
      parse xml = Ok parsed ->
      js_get (JObj parsed) "Profile" = profile ->
      (forall entries, profile <> JObj entries) ->
      cleanProfileXml build parse xml options =
      if js_truthy profile
      then Ok (XML_DECLARATION +:+ build (JObj [("Profile", profile)]))
      else Ok xml) /\
  (forall msg, parse xml = Thrown msg ->
               cleanProfileXml build parse xml options = Thrown msg).
Proof.
  split.
  - intros parsed profile Hparse Hprofile Hnot.
    rewrite cleanProfileXml_unfold, Hparse.
    cbv beta iota zeta delta [result_bind]. rewrite Hprofile.
    destruct (js_truthy profile); [|done]. simpl.
    replace (apply_clean options profile) with profile; [done|].
    destruct profile; try (by destruct options as [[] [] []]).
    by destruct (Hnot entries).
  - intros msg Hparse. by rewrite cleanProfileXml_unfold, Hparse.
Qed.

Lemma cleanProfileXml_root_not_a_record_witness :
  cleanProfileXml Stub.build
    (Stub.parse_as
       [("Profile", JArr [JObj [("userLicense", JStr "Salesforce")];
                          JObj [("userLicense", JStr "Guest")]])])
    "<Profile>...</Profile><Profile>...</Profile>" DEFAULT_CLEAN_OPTIONS
  = Ok (XML_DECLARATION +:+
        Stub.build
          (JObj [("Profile", JArr [JObj [("userLicense", JStr "Salesforce")];
                                   JObj [("userLicense", JStr "Guest")]])])) /\
  cleanProfileXml Stub.build (Stub.parse_as [("Profile", JStr "")])
    "<Profile></Profile>" DEFAULT_CLEAN_OPTIONS
  = Ok "<Profile></Profile>".
Proof.
  split.
  - destruct (cleanProfileXml_root_not_a_record Stub.build
                (Stub.parse_as
                   [("Profile", JArr [JObj [("userLicense", JStr "Salesforce")];
                                      JObj [("userLicense", JStr "Guest")]])])
                "<Profile>...</Profile><Profile>...</Profile>" DEFAULT_CLEAN_OPTIONS)
      as [Hroot _].
    apply (Hroot _ _ eq_refl eq_refl). discriminate.
  - destruct (cleanProfileXml_root_not_a_record Stub.build
                (Stub.parse_as [("Profile", JStr "")])
                "<Profile></Profile>" DEFAULT_CLEAN_OPTIONS) as [Hroot _].
    apply (Hroot _ _ eq_refl eq_refl). discriminate.
Defined.

(** ** The command: what happens to each retrieved profile *)

Lemma filter_partition_length {A} (f : A -> bool) (l : list A) :
  length (List.filter f l) + length (List.filter (fun x => negb (f x)) l) = length l.
Proof. induction l as [|x l IH]; simpl; [done|]. destruct (f x); simpl; lia. Qed.

Lemma filter_length_le {A} (f : A -> bool) (l : list A) :
  length (List.filter f l) <= length l.
Proof. induction l as [|x l IH]; simpl; [done|]. destruct (f x); simpl; lia. Qed.

Lemma not_found_no_success (missing : list string) :
  List.filter (fun r => success r) (map not_found missing) = [].
Proof. induction missing; simpl; done. Qed.

Section CommandMore.
Context {St Fs : Type}.
Variable metadata_read : St -> string -> list string -> St * Result JsValue.
Variable build : JsValue -> string.
Variable parse : string -> Result (list (string * JsValue)).
Variable mkdirSync : Fs -> string -> Fs * Result unit.
Variable writeFileSync : Fs -> string -> string -> Fs * Result unit.
Variable path_join : string -> string -> string.

Lemma writeProfileToSourceFormat_spec profileName xml outputDir (w : World St Fs) :
  writeProfileToSourceFormat mkdirSync writeFileSync path_join profileName xml outputDir w =
  let filePath := path_join outputDir (js_to_string profileName +:+ ".profile-meta.xml") in
  match mkdirSync (disk w) outputDir with
  | (fs1, Thrown msg) => ({| remote := remote w; calls := calls w; disk := fs1 |}, Thrown msg)
  | (fs1, Ok _) =>
      match writeFileSync fs1 filePath xml with
      | (fs2, Thrown msg) =>
          ({| remote := remote w; calls := calls w; disk := fs2 |}, Thrown msg)
      | (fs2, Ok _) => ({| remote := remote w; calls := calls w; disk := fs2 |}, Ok filePath)
      end
  end.
Proof.
  unfold writeProfileToSourceFormat, bind, fs_call, ret. simpl.
  destruct (mkdirSync (disk w) outputDir) as [fs1 [[]|msg]]; [|done]. simpl.
  by destruct (writeFileSync fs1 _ xml) as [fs2 [[]|msg]].
Qed.
End CommandMore.

Section CommandPaths.
Context {St Fs : Type}.
Variable metadata_read : St -> string -> list string -> St * Result JsValue.
Variable build : JsValue -> string.
Variable parse : string -> Result (list (string * JsValue)).
Variable mkdirSync : Fs -> string -> Fs * Result unit.
Variable writeFileSync : Fs -> string -> string -> Fs * Result unit.
Variable path_join : string -> string -> string.

Lemma process_profile_path shouldClean outputDir results profile (w : World St Fs) :
  exists w' o,
    process_profile build parse mkdirSync writeFileSync path_join shouldClean outputDir
      results profile w = (w', Ok (results ++ [o])) /\
    name o = fullName profile /\
    reported_at path_join outputDir o /\
    (shouldClean = false ->
     (forall fs dir, snd (mkdirSync fs dir) = Ok tt) ->
     (forall fs filePath content, snd (writeFileSync fs filePath content) = Ok tt) ->
     success o = true).
Proof.
  unfold process_profile, try_catch, bind at 1, lift.
  destruct shouldClean.
  - destruct (cleanProfileXml build parse (xml profile) DEFAULT_CLEAN_OPTIONS)
      as [content|msg]; [|by eexists _, _].
    unfold bind at 1. rewrite writeProfileToSourceFormat_spec. cbv zeta.
    destruct (mkdirSync (disk w) outputDir) as [fs1 [[]|msg]]; [|by eexists _, _].
    destruct (writeFileSync fs1 _ content) as [fs2 [[]|msg]]; by eexists _, _.
  - unfold bind at 1. rewrite writeProfileToSourceFormat_spec. cbv zeta.
    destruct (mkdirSync (disk w) outputDir) as [fs1 [[]|msg]] eqn:Hmkdir.
    + destruct (writeFileSync fs1 _ (xml profile)) as [fs2 [[]|msg]] eqn:Hwrite.
      * by eexists _, _.
      * eexists _, _. split_and!; try done. intros _ _ Hwrites.
        specialize (Hwrites fs1
          (path_join outputDir (js_to_string (fullName profile) +:+ ".profile-meta.xml"))
          (xml profile)). by rewrite Hwrite in Hwrites.
    + eexists _, _. split_and!; try done. intros _ Hmkdirs _.
      specialize (Hmkdirs (disk w) outputDir). by rewrite Hmkdir in Hmkdirs.
Qed.

Lemma process_profiles_paths shouldClean outputDir retrieved :
  forall results (w : World St Fs),
  exists w' processed,
    for_of retrieved results
      (process_profile build parse mkdirSync writeFileSync path_join shouldClean outputDir) w
    = (w', Ok (results ++ processed)) /\
    map name processed = map fullName retrieved /\
    Forall (reported_at path_join outputDir) processed /\
    (shouldClean = false ->
     (forall fs dir, snd (mkdirSync fs dir) = Ok tt) ->
     (forall fs filePath content, snd (writeFileSync fs filePath content) = Ok tt) ->
     Forall (fun o => success o = true) processed).
Proof.
  induction retrieved as [|profile rest IH]; intros results w; simpl.
  - exists w, []. rewrite app_nil_r. split_and!; try done; by constructor.
  - unfold bind at 1.
    destruct (process_profile_path shouldClean outputDir results profile w)
      as (w1 & o & -> & Hname & Hpath & Hgood).
    destruct (IH (results ++ [o]) w1) as (w' & processed & -> & Hnames & Hpaths & Hgoods).
    exists w', (o :: processed). rewrite <- app_assoc. simpl.
    split_and!; [done | by rewrite Hname, Hnames | by constructor |].
    intros Hclean Hmkdirs Hwrites. constructor; auto.
Qed.
End CommandPaths.

(** X10: where a run writes. In a completed run, every success names the
    file [path.join(outputDir, `${name}.profile-meta.xml`)] of its profile
    and carries no error, and every failure carries an error and no path;
    so two successes under one name name one and the same file, the later
    write replacing the earlier. When no cleaning is asked for and neither
    creating the directory nor writing a file fails, every retrieved
    profile is a success, and the failures are exactly the names that were
    not found. *)
Theorem run_outcome_paths {St Fs : Type}
    (metadata_read : St -> string -> list string -> St * Result JsValue)
    (build : JsValue -> string) (parse : string -> Result (list (string * JsValue)))
    (mkdirSync : Fs -> string -> Fs * Result unit)
    (writeFileSync : Fs -> string -> string -> Fs * Result unit)
    (path_join : string -> string -> string)
    (profileNames : list string) (shouldClean : bool) (outputDir : string)
    (w w' : World St Fs) (res : ProfileRetrieveFullResult) :
  run metadata_read build parse mkdirSync writeFileSync path_join
    profileNames shouldClean outputDir w = (w', Ok res) ->
  Forall (reported_at path_join outputDir) (profiles res) /\
  (forall o1 o2,
      o1 ∈ profiles res -> o2 ∈ profiles res ->
      success o1 = true -> success o2 = true -> name o1 = name o2 ->
      filePath o1 = filePath o2) /\
  (shouldClean = false ->
   (forall fs dir, snd (mkdirSync fs dir) = Ok tt) ->
   (forall fs filePath content, snd (writeFileSync fs filePath content) = Ok tt) ->
   exists w1 retrieved,
     retrieveProfiles metadata_read build profileNames w = (w1, Ok retrieved) /\
     totalSuccess res = length retrieved /\
     totalFailed res =
       length (List.filter (fun n => negb (retrievedNames_has retrieved n)) profileNames)).
Proof.
  unfold run. unfold bind at 1.
  destruct (retrieveProfiles metadata_read build profileNames w)
    as [w1 [retrieved|msg]]; [|done].
  unfold bind at 1.
  destruct (process_profiles_paths build parse mkdirSync writeFileSync path_join
              shouldClean outputDir retrieved [] w1)
    as (w2 & processed & -> & Hnames & Hpaths & Hgoods).
  unfold ret. intros [= <- <-]. cbn [profiles totalSuccess totalFailed app].
  rewrite report_missing_spec.
  set (missing := List.filter (fun n => negb (retrievedNames_has retrieved n)) profileNames).
  assert (Forall (reported_at path_join outputDir) (processed ++ map not_found missing))
    as Hall.
  { apply Forall_app. split; [done|]. apply Forall_forall.
    intros o Ho. apply list_elem_of_In, in_map_iff in Ho as (n & <- & _). by split. }
  split_and!; [done | |].
  - intros o1 o2 Ho1 Ho2 Hs1 Hs2 Hsame.
    rewrite Forall_forall in Hall.
    pose proof (Hall o1 Ho1) as H1. pose proof (Hall o2 Ho2) as H2.
    unfold reported_at in H1, H2. rewrite Hs1 in H1. rewrite Hs2 in H2.
    destruct H1 as [-> _], H2 as [-> _]. by rewrite Hsame.
  - intros Hclean Hmkdirs Hwrites. exists w1, retrieved. split; [done|].
    specialize (Hgoods Hclean Hmkdirs Hwrites).
    assert (List.filter (fun r => success r) processed = processed) as Hkept.
    { clear -Hgoods. induction Hgoods as [|o os Ho _ IH]; simpl; [done|].
      by rewrite Ho, IH. }
    assert (List.filter (fun r => negb (success r)) processed = []) as Hnone.
    { clear -Hgoods. induction Hgoods as [|o os Ho _ IH]; simpl; [done|].
      by rewrite Ho. }
    assert (forall names : list string,
               List.filter (fun r => negb (success r)) (map not_found names)
               = map not_found names) as Hmissing.
    { intros names. induction names as [|m ms IH]; simpl; [done|]. by rewrite IH. }
    rewrite !List.filter_app, Hkept, Hnone, Hmissing, not_found_no_success.
    rewrite app_nil_r. cbn [app]. rewrite length_map. split; [|done].
    by rewrite <- (length_map name), Hnames, length_map.
Qed.

Lemma run_outcome_paths_witness :
  exists w' res,
    run (Stub.resolves (JArr [JObj [("fullName", JStr "A")]; JObj [("fullName", JStr "A")]]))
      Stub.build (Stub.parse_as []) Stub.mkdir Stub.write_file Stub.join
      ["A"; "B"] false "out" (Stub.world0 tt) = (w', Ok res) /\
    Forall (reported_at Stub.join "out") (profiles res) /\
    totalSuccess res = 2 /\ totalFailed res = 1 /\
    map fst (disk w') = ["out/A.profile-meta.xml"; "out/A.profile-meta.xml"].
Proof.
  destruct (run (Stub.resolves
                   (JArr [JObj [("fullName", JStr "A")]; JObj [("fullName", JStr "A")]]))
              Stub.build (Stub.parse_as []) Stub.mkdir Stub.write_file Stub.join
              ["A"; "B"] false "out" (Stub.world0 tt))
    as [w' [res|msg]] eqn:Hrun; [|vm_compute in Hrun; discriminate].
  destruct (run_outcome_paths _ _ _ _ _ _ _ _ _ _ _ _ Hrun) as (Hpaths & _ & Hgood).
  destruct (Hgood eq_refl (fun _ _ => eq_refl) (fun _ _ _ => eq_refl))
    as (w1 & retrieved & Hretr & Hsuccess & Hfailed).
  vm_compute in Hretr. injection Hretr as _ <-.
  exists w', res. split_and!; [reflexivity | exact Hpaths | exact Hsuccess | exact Hfailed |].
  vm_compute in Hrun. injection Hrun as <- _. reflexivity.
Defined.



(** ** The command: totals, and what the loop over the profiles leaves alone *)

Section CommandFrame.
Context {St Fs : Type}.
Variable metadata_read : St -> string -> list string -> St * Result JsValue.
Variable build : JsValue -> string.
Variable parse : string -> Result (list (string * JsValue)).
Variable mkdirSync : Fs -> string -> Fs * Result unit.
Variable writeFileSync : Fs -> string -> string -> Fs * Result unit.
Variable path_join : string -> string -> string.

Lemma process_profile_frame shouldClean outputDir results profile (w w' : World St Fs) r :
  process_profile build parse mkdirSync writeFileSync path_join shouldClean outputDir
    results profile w = (w', r) ->
  remote w' = remote w /\ calls w' = calls w.
Proof.
  unfold process_profile, try_catch, bind at 1, lift.
  destruct (if shouldClean then _ else _) as [content|msg]; [|by intros [= <- _]].
  unfold bind at 1. rewrite writeProfileToSourceFormat_spec. cbv zeta.
  destruct (mkdirSync (disk w) outputDir) as [fs1 [[]|msg]]; [|by intros [= <- _]].
  destruct (writeFileSync fs1 _ content) as [fs2 [[]|msg]]; by intros [= <- _].
Qed.

Lemma process_profiles_frame shouldClean outputDir retrieved :
  forall results (w w' : World St Fs) r,
  for_of retrieved results
    (process_profile build parse mkdirSync writeFileSync path_join shouldClean outputDir) w
  = (w', r) ->
  remote w' = remote w /\ calls w' = calls w.
Proof.
  induction retrieved as [|profile rest IH]; intros results w w' r; simpl.
  - by intros [= <- _].
  - unfold bind at 1.
    destruct (process_profile _ _ _ _ _ _ _ results profile w) as [w1 [out|msg]] eqn:Hone;
      apply process_profile_frame in Hone as [Hremote Hcalls].
    + intros Hrest. apply IH in Hrest as [-> ->]. done.
    + by intros [= <- _].
Qed.

Lemma run_frame profileNames shouldClean outputDir (w w' : World St Fs) res :
  run metadata_read build parse mkdirSync writeFileSync path_join
    profileNames shouldClean outputDir w = (w', Ok res) ->
  exists w1 retrieved,
    retrieveProfiles metadata_read build profileNames w = (w1, Ok retrieved) /\
    remote w' = remote w1 /\ calls w' = calls w1.
Proof.
  unfold run. unfold bind at 1.
  destruct (retrieveProfiles metadata_read build profileNames w)
    as [w1 [retrieved|msg]]; [|done].
  unfold bind at 1.
  destruct (for_of retrieved [] _ w1) as [w2 [results|msg]] eqn:Hloop; [|done].
  apply process_profiles_frame in Hloop as [Hremote Hcalls].
  unfold ret. intros [= <- _]. by exists w1, retrieved.
Qed.
End CommandFrame.


(** X12: the totals of a completed run. [totalRequested] is the number of
    requested names, and [totalSuccess] and [totalFailed] add up to the
    number of reported outcomes, which is the number of retrieved profiles
    plus the number of requested names no retrieved profile carries. Only
    retrieved profiles can succeed, and every name that is not found counts
    as failed. After [retrieveProfiles] has returned, the run does not read
    from the remote again. *)
Theorem run_totals_add_up {St Fs : Type}
    (metadata_read : St -> string -> list string -> St * Result JsValue)
    (build : JsValue -> string) (parse : string -> Result (list (string * JsValue)))
    (mkdirSync : Fs -> string -> Fs * Result unit)
    (writeFileSync : Fs -> string -> string -> Fs * Result unit)
    (path_join : string -> string -> string)
    (profileNames : list string) (shouldClean : bool) (outputDir : string)
    (w w' : World St Fs) (res : ProfileRetrieveFullResult) :
  run metadata_read build parse mkdirSync writeFileSync path_join
    profileNames shouldClean outputDir w = (w', Ok res) ->
  totalRequested res = length profileNames /\
  totalSuccess res + totalFailed res = length (profiles res) /\
  exists w1 retrieved,
    let missing :=
      List.filter (fun n => negb (retrievedNames_has retrieved n)) profileNames in
    retrieveProfiles metadata_read build profileNames w = (w1, Ok retrieved) /\
    remote w' = remote w1 /\ calls w' = calls w1 /\
    length (profiles res) = length retrieved + length missing /\
    totalSuccess res <= length retrieved /\
    length missing <= totalFailed res.
Proof.
  intros Hrun.
  destruct (run_frame _ _ _ _ _ _ _ _ _ _ _ _ Hrun)
    as (w1 & retrieved & Hretr & Hremote & Hcalls).
  destruct (run_spec _ _ _ _ _ _ _ _ _ _ _ _ Hrun)
    as (w1' & retrieved' & processed & Hretr' & Hprofiles & Hnames & _ & Hreq & Hs & Hf).
  rewrite Hretr in Hretr'. injection Hretr' as <- <-.
  assert (length processed = length retrieved) as Hlen.
  { by rewrite <- (length_map name), Hnames, length_map. }
  split; [done|]. split.
  { rewrite Hs, Hf. apply filter_partition_length. }
  exists w1, retrieved. cbv zeta. split_and!; try done.
  - by rewrite Hprofiles, length_app, length_map, Hlen.
  - rewrite Hs, Hprofiles, List.filter_app, not_found_no_success, app_nil_r, <- Hlen.
    apply filter_length_le.
  - rewrite Hf, Hprofiles, List.filter_app, length_app.
    assert (forall missing : list string,
               List.filter (fun r => negb (success r)) (map not_found missing)
               = map not_found missing) as ->.
    { intros missing. induction missing as [|m ms IH]; simpl; [done|]. by rewrite IH. }
    rewrite length_map. lia.
Qed.

Lemma run_totals_add_up_witness :
  exists w' res,
    run (Stub.resolves (JArr [JObj [("fullName", JStr "A")]; JObj [("fullName", JStr "A")]]))
      Stub.build (Stub.parse_as []) Stub.mkdir (Double.write_fails "EACCES") Stub.join
      ["A"; "B"] false "out" (Stub.world0 tt) = (w', Ok res) /\
    totalRequested res = 2 /\
    totalSuccess res + totalFailed res = length (profiles res) /\
    length (profiles res) = 3.
Proof.
  destruct (run (Stub.resolves
                   (JArr [JObj [("fullName", JStr "A")]; JObj [("fullName", JStr "A")]]))
              Stub.build (Stub.parse_as []) Stub.mkdir (Double.write_fails "EACCES")
              Stub.join ["A"; "B"] false "out" (Stub.world0 tt))
    as [w' [res|msg]] eqn:Hrun; [|vm_compute in Hrun; discriminate].
  destruct (run_totals_add_up _ _ _ _ _ _ _ _ _ _ _ _ Hrun) as (Hreq & Hsum & _).
  exists w', res. split_and!; [reflexivity | exact Hreq | exact Hsum |].
  vm_compute in Hrun. injection Hrun as _ <-. reflexivity.
Defined.



(** ** The command line: [--name] *)

Lemma split_comma_cons c s :
  split_comma (String c s) =
  if Ascii.eqb c ","%char then EmptyString :: split_comma s
  else match split_comma s with
       | piece :: pieces => String c piece :: pieces
       | [] => [String c EmptyString]
       end.
Proof. done. Qed.

Lemma split_comma_not_nil s : split_comma s <> [].
Proof.
  induction s as [|c s IH]; [done|]. rewrite split_comma_cons.
  destruct (Ascii.eqb c ","%char); [done|]. by destruct (split_comma s).
Qed.

Lemma split_comma_app a b :
  split_comma (a +:+ String ","%char b) = split_comma a ++ split_comma b.
Proof.
  induction a as [|c a IH].
  - done.
  - change (String c a +:+ String ","%char b) with (String c (a +:+ String ","%char b)).
    rewrite !split_comma_cons, IH.
    destruct (Ascii.eqb c ","%char); [done|].
    pose proof (split_comma_not_nil a). by destruct (split_comma a).
Qed.

Lemma split_comma_concat values :
  values <> [] ->
  split_comma (String.concat "," values) = flat_map split_comma values.
Proof.
  induction values as [|x rest IH]; [done|]. intros _.
  destruct rest as [|y rest].
  - simpl. by rewrite app_nil_r.
  - change (String.concat "," (x :: y :: rest))
      with (x +:+ String ","%char (String.concat "," (y :: rest))).
    rewrite split_comma_app, IH by done. done.
Qed.

Lemma split_comma_piece s piece :
  piece ∈ split_comma s -> split_comma piece = [piece].
Proof.
  revert piece. induction s as [|c s IH]; intros piece.
  - simpl. intros ->%list_elem_of_singleton. done.
  - rewrite split_comma_cons. destruct (Ascii.eqb c ","%char) eqn:Hc.
    + intros [->|Hin]%elem_of_cons; [done | by apply IH].
    + pose proof (split_comma_not_nil s) as Hnil.
      destruct (split_comma s) as [|p ps] eqn:Hs; [done|].
      intros [->|Hin]%elem_of_cons.
      * rewrite split_comma_cons, Hc, (IH p) by left. done.
      * apply IH. by right.
Qed.

Lemma split_comma_tail c s :
  split_comma (String c s) = [String c s] ->
  Ascii.eqb c ","%char = false /\ split_comma s = [s].
Proof.
  rewrite split_comma_cons. destruct (Ascii.eqb c ","%char); [done|].
  pose proof (split_comma_not_nil s) as Hnil.
  destruct (split_comma s) as [|p ps]; [done|]. by intros [= -> ->].
Qed.

Lemma split_comma_trim_start s :
  split_comma s = [s] -> split_comma (trim_start s) = [trim_start s].
Proof.
  induction s as [|c s IH]; [done|]. intros Hs. simpl trim_start.
  destruct (is_white_space c); [|done].
  apply IH. by apply split_comma_tail in Hs as [_ Hs].
Qed.

Lemma split_comma_trim_end s :
  split_comma s = [s] -> split_comma (trim_end s) = [trim_end s].
Proof.
  induction s as [|c s IH]; [done|]. intros Hs.
  apply split_comma_tail in Hs as [Hc Hs]. specialize (IH Hs). simpl trim_end.
  destruct (trim_end s) as [|k kept].
  - destruct (is_white_space c); [done|]. by rewrite split_comma_cons, Hc.
  - by rewrite split_comma_cons, Hc, IH.
Qed.

Lemma trim_end_idempotent s : trim_end (trim_end s) = trim_end s.
Proof.
  induction s as [|c s IH]; [done|]. simpl.
  destruct (trim_end s) as [|k kept] eqn:Hs.
  - destruct (is_white_space c) eqn:Hc; [done|]. simpl. by rewrite Hc.
  - change (trim_end (String c (String k kept)))
      with (match trim_end (String k kept) with
            | EmptyString => if is_white_space c then EmptyString else String c EmptyString
            | kept' => String c kept'
            end).
    by rewrite IH.
Qed.

Lemma trim_start_head s :
  trim_start s = EmptyString \/
  exists c rest, trim_start s = String c rest /\ is_white_space c = false.
Proof.
  induction s as [|c s IH]; [by left|]. simpl.
  destruct (is_white_space c) eqn:Hc; [done|]. right. by exists c, s.
Qed.

Lemma trim_start_trim_end s :
  (s = EmptyString \/ exists c rest, s = String c rest /\ is_white_space c = false) ->
  trim_start (trim_end s) = trim_end s.
Proof.
  intros [->|(c & rest & -> & Hc)]; [done|]. simpl.
  destruct (trim_end rest); rewrite ?Hc; simpl; by rewrite Hc.
Qed.

Lemma trim_idempotent s : trim (trim s) = trim s.
Proof.
  unfold trim. rewrite (trim_start_trim_end (trim_start s)) by apply trim_start_head.
  apply trim_end_idempotent.
Qed.

Lemma trim_piece s : split_comma s = [s] -> split_comma (trim s) = [trim s].
Proof. intros Hs. unfold trim. by apply split_comma_trim_end, split_comma_trim_start. Qed.

(** X14: the names taken from [--name]. Each of them is non-empty, contains
    no comma and has no white space at either end; and a list of values
    comes out unchanged exactly when all its values are of that kind. In
    particular, resolving twice is resolving once. *)
Theorem names_from_flag_normal_form (values : list string) :
  let normal v := v <> EmptyString /\ split_comma v = [v] /\ trim v = v in
  Forall normal (names_from_flag values) /\
  (names_from_flag values = values <-> Forall normal values) /\
  names_from_flag (names_from_flag values) = names_from_flag values.
Proof.
  intros normal.
  assert (forall vs, Forall normal (names_from_flag vs)) as Hnormal.
  { intros vs. unfold names_from_flag. apply Forall_forall. intros v Hv.
    apply list_elem_of_In, filter_In in Hv as [Hv Hlen].
    apply in_map_iff in Hv as (piece & <- & Hpiece).
    apply in_flat_map in Hpiece as (value & _ & Hpiece).
    apply list_elem_of_In, split_comma_piece in Hpiece.
    split_and!.
    - intros Hempty. rewrite Hempty in Hlen. done.
    - by apply trim_piece.
    - apply trim_idempotent. }
  assert (forall vs, Forall normal vs -> names_from_flag vs = vs) as Hfixed.
  { intros vs Hvs. unfold names_from_flag.
    induction Hvs as [|v vs (Hne & Hsplit & Htrim) _ IH]; [done|].
    simpl. rewrite Hsplit. simpl. rewrite Htrim.
    destruct v as [|c v]; [done|]. simpl. by rewrite IH. }
  split_and!.
  - apply Hnormal.
  - split; [|apply Hfixed]. intros <-. apply Hnormal.
  - apply Hfixed, Hnormal.
Qed.

Lemma names_from_flag_normal_form_witness :
  names_from_flag ["Admin"; "Standard User"] = ["Admin"; "Standard User"] /\
  names_from_flag [" Admin , ,Standard User,"] = ["Admin"; "Standard User"].
Proof.
  split.
  - destruct (names_from_flag_normal_form ["Admin"; "Standard User"]) as (_ & [_ Hfixed] & _).
    apply Hfixed. repeat constructor; discriminate.
  - reflexivity.
Defined.

(** X15: one value with commas is the same request as its pieces given as
    separate values, and the values of a repeated [--name] are resolved
    one by one, in order. *)
Theorem names_from_flag_comma_or_repeat (values more : list string) :
  names_from_flag [String.concat "," values] = names_from_flag values /\
  names_from_flag (values ++ more) = names_from_flag values ++ names_from_flag more.
Proof.
  split.
  - destruct values as [|v values]; [done|]. unfold names_from_flag.
    change (flat_map split_comma [String.concat "," (v :: values)])
      with (split_comma (String.concat "," (v :: values)) ++ []).
    by rewrite app_nil_r, split_comma_concat.
  - unfold names_from_flag. by rewrite flat_map_app, map_app, List.filter_app.
Qed.

(** ** The command line: [--sourcedir] *)

Section DirectoryScan.
Context {Fs : Type}.
Variable readdirSync : Fs -> string -> Result (list Dirent).
Variable path_join : string -> string -> string.
Variable path_basename : string -> string -> string.

Lemma node_at_dir (fs : Fs) path children :
  node_at readdirSync path_join fs path (DirNode children) <->
  readdirSync fs path = Ok (map dirent_of children) /\
  Forall (fun child =>
            node_at readdirSync path_join fs (path_join path (fst child)) (snd child))
    children.
Proof.
  simpl. apply and_iff_compat_l.
  induction children as [|child rest IH]; simpl.
  - split; [constructor | done].
  - rewrite IH, Forall_cons. done.
Qed.

Lemma node_depth_children children stack :
  node_depth (DirNode children) <= S stack ->
  Forall (fun child => node_depth (snd child) <= stack) children.
Proof.
  simpl. intros Hdepth. apply le_S_n, list_max_le in Hdepth.
  apply Forall_forall. intros child Hin.
  rewrite Forall_forall in Hdepth. apply Hdepth.
  apply list_elem_of_In, (in_map (fun c => node_depth (snd c))), list_elem_of_In in Hin.
  exact Hin.
Qed.

Lemma scan_entries (fs : Fs) stack dir children :
  (forall sub grandchildren,
      node_at readdirSync path_join fs sub (DirNode grandchildren) ->
      node_depth (DirNode grandchildren) <= stack ->
      getProfileNamesFromDir readdirSync path_join path_basename stack fs sub =
      Ok (map (fun name => path_basename name PROFILE_SUFFIX)
            (profile_files sub (DirNode grandchildren)))) ->
  Forall (fun child =>
            node_at readdirSync path_join fs (path_join dir (fst child)) (snd child))
    children ->
  Forall (fun child => node_depth (snd child) <= stack) children ->
  forall results,
    result_for (map dirent_of children) results
      (scan_entry path_join path_basename
         (getProfileNamesFromDir readdirSync path_join path_basename stack fs) dir)
    = Ok (results ++ map (fun name => path_basename name PROFILE_SUFFIX)
                       (flat_map (fun child => profile_files (fst child) (snd child))
                          children)).
Proof.
  intros Hrec Hat Hdepth.
  induction children as [|[name node] rest IH]; intros results.
  - simpl. by rewrite app_nil_r.
  - apply Forall_cons in Hat as [Hnode Hat]. apply Forall_cons in Hdepth as [Hd Hdepth].
    cbn [map result_for flat_map fst snd]. unfold scan_entry at 1.
    destruct node as [|grandchildren]; cbn [dirent_of dirent_name isDirectory fst snd].
    + cbn [profile_files]. destruct (ends_with name PROFILE_SUFFIX); simpl.
      * rewrite (IH Hat Hdepth). by rewrite <- app_assoc.
      * apply (IH Hat Hdepth).
    + cbn [fst snd] in Hnode, Hd. rewrite (Hrec _ _ Hnode Hd). cbn [result_bind].
      rewrite (IH Hat Hdepth), map_app, <- app_assoc. done.
Qed.
End DirectoryScan.

(** X16: [getProfileNamesFromDir] on a directory tree. When the directory
    and everything below it can be listed, and the call stack is as deep as
    the tree, the scan returns the base names of the profile files of the
    tree, depth first in listing order: a file counts by the ending of its
    own name, wherever it lies, and a directory is always descended into,
    whatever its name. *)
Theorem getProfileNamesFromDir_scans_tree {Fs : Type}
    (readdirSync : Fs -> string -> Result (list Dirent))
    (path_join path_basename : string -> string -> string)
    (stack : nat) (fs : Fs) (dir : string) (children : list (string * FsNode)) :
  node_at readdirSync path_join fs dir (DirNode children) ->
  node_depth (DirNode children) <= stack ->
  getProfileNamesFromDir readdirSync path_join path_basename stack fs dir =
  Ok (map (fun name => path_basename name PROFILE_SUFFIX)
        (profile_files dir (DirNode children))).
Proof.
  revert dir children. induction stack as [|stack IH]; intros dir children Hat Hdepth.
  - simpl in Hdepth. lia.
  - apply node_at_dir in Hat as [Hread Hat].
    cbn [getProfileNamesFromDir]. rewrite Hread. cbn [result_bind].
    rewrite (scan_entries readdirSync path_join path_basename fs stack dir children IH Hat
               (node_depth_children children stack Hdepth)).
    done.
Qed.

Lemma getProfileNamesFromDir_scans_tree_witness :
  getProfileNamesFromDir
    (Double.readdir
       [("force-app", [mkDirent "profiles" true; mkDirent "README.md" false;
                       mkDirent "Guest.profile-meta.xml" false]);
        ("force-app/profiles", [mkDirent "Admin.profile-meta.xml" false;
                                mkDirent "old.profile-meta.xml" true;
                                mkDirent "package.xml" false]);
        ("force-app/profiles/old.profile-meta.xml", [])])
    Stub.join Double.basename 3 [] "force-app"
  = Ok ["Admin"; "Guest"].
Proof.
  apply (getProfileNamesFromDir_scans_tree _ Stub.join Double.basename 3 [] "force-app"
           [("profiles", DirNode [("Admin.profile-meta.xml", FileNode);
                                  ("old.profile-meta.xml", DirNode []);
                                  ("package.xml", FileNode)]);
            ("README.md", FileNode);
            ("Guest.profile-meta.xml", FileNode)]).
  - simpl. repeat split.
  - simpl. lia.
Defined.

(** ** The command line: from the flags to the run *)

Section Resolution.
Context {St Fs : Type}.
Variable metadata_read : St -> string -> list string -> St * Result JsValue.
Variable metadata_list : St -> string -> St * Result ListResult.
Variable build : JsValue -> string.
Variable parse : string -> Result (list (string * JsValue)).
Variable mkdirSync : Fs -> string -> Fs * Result unit.
Variable writeFileSync : Fs -> string -> string -> Fs * Result unit.
Variable readdirSync : Fs -> string -> Result (list Dirent).
Variable path_join : string -> string -> string.
Variable path_basename : string -> string -> string.

Lemma names_from_list_truthy listResult :
  Forall (fun n => n <> EmptyString) (names_from_list listResult).
Proof.
  unfold names_from_list. apply Forall_forall. intros n Hn.
  apply list_elem_of_omap in Hn as (item & _ & Hitem).
  destruct item as [fullName|]; [|done].
  destruct fullName; [done|]. by injection Hitem as <-.
Qed.

Lemma names_from_flag_truthy values :
  Forall (fun n => n <> EmptyString) (names_from_flag values).
Proof.
  unfold names_from_flag. apply Forall_forall. intros n Hn.
  apply list_elem_of_In, filter_In in Hn as [_ Hlen]. by intros ->.
Qed.

Lemma run_command_thrown stack flags (w w' : World St Fs) msg :
  resolveProfileNames metadata_list readdirSync path_join path_basename stack flags w
  = (w', Thrown msg) ->
  run_command metadata_read metadata_list build parse mkdirSync writeFileSync
    readdirSync path_join path_basename stack flags w = (w', Thrown msg).
Proof. intros Hnames. unfold run_command, bind. by rewrite Hnames. Qed.
End Resolution.

(** X17: resolving the names. Resolution writes nothing and issues no
    [metadata.read]; only [--all] talks to the remote. When [--name] is
    given, the other selectors are not looked at, and neither the file
    system nor the remote is consulted. Without [--name], the resolved list
    is never empty; and the names that come from [--name] or [--all] are
    never empty strings. *)
Theorem resolveProfileNames_outcome {St Fs : Type}
    (metadata_list : St -> string -> St * Result ListResult)
    (readdirSync : Fs -> string -> Result (list Dirent))
    (path_join path_basename : string -> string -> string)
    (stack : nat) (flags : Flags) (w w' : World St Fs) (r : Result (list string)) :
  resolveProfileNames metadata_list readdirSync path_join path_basename stack flags w
  = (w', r) ->
  disk w' = disk w /\ calls w' = calls w /\
  (forall values, flag_name flags = Some values ->
     w' = w /\ r = Ok (names_from_flag values)) /\
  (forall c dir, flag_sourcedir flags = Some (String c dir) -> remote w' = remote w) /\
  (forall names, r = Ok names ->
     (flag_name flags = None -> names <> []) /\
     (flag_name flags = None -> (forall c dir, flag_sourcedir flags <> Some (String c dir)) ->
      flag_all flags = true /\ Forall (fun n => n <> EmptyString) names) /\
     (flag_name flags <> None -> Forall (fun n => n <> EmptyString) names)).
Proof.
  unfold resolveProfileNames.
  destruct (flag_name flags) as [values|].
  { unfold ret. intros [= <- <-]. split_and!; try done.
    - by intros ? [= <-].
    - intros names [= <-]. split_and!; try done. intros _. apply names_from_flag_truthy. }
  destruct (flag_sourcedir flags) as [[|c dir]|].
  2:{ unfold bind.
      destruct (getProfileNamesFromDir _ _ _ stack (disk w) (String c dir))
        as [profileNames|msg].
      - destruct (Nat.eqb (length profileNames) 0) eqn:Hlen; unfold lift, ret;
          intros [= <- <-]; split_and!; try done.
        intros names [= <-]. split_and!; try done.
        + intros _ ->. done.
        + intros _ Hno. by destruct (Hno c dir).
      - intros [= <- <-]. split_and!; done. }
  all: destruct (flag_all flags); [|unfold lift; intros [= <- <-]; split_and!; done].
  all: unfold bind, list_call;
    destruct (metadata_list (remote w) "Profile") as [st' [listResult|msg]];
    [|intros [= <- <-]; split_and!; done].
  all: destruct (Nat.eqb (length (names_from_list listResult)) 0) eqn:Hlen;
    unfold lift, ret; intros [= <- <-]; split_and!; try done.
  all: intros names [= <-]; split_and!; try done.
  all: try (intros _ Hnil; by rewrite Hnil in Hlen).
  all: intros _ _; split; [done | apply names_from_list_truthy].
Qed.

Lemma resolveProfileNames_outcome_witness :
  exists w',
    resolveProfileNames (Double.lists (ListMany [Some "Admin"; None; Some ""; Some "Guest"]))
      (Double.readdir []) Stub.join Double.basename 8
      (mkFlags None None true "out" false) (Stub.world0 tt)
    = (w', Ok ["Admin"; "Guest"]) /\
    disk w' = [] /\ calls w' = [] /\ ["Admin"; "Guest"] <> [].
Proof.
  destruct (resolveProfileNames
              (Double.lists (ListMany [Some "Admin"; None; Some ""; Some "Guest"]))
              (Double.readdir []) Stub.join Double.basename 8
              (mkFlags None None true "out" false) (Stub.world0 tt)) as [w' r] eqn:Hnames.
  destruct (resolveProfileNames_outcome _ _ _ _ _ _ _ _ _ Hnames)
    as (Hdisk & Hcalls & _ & _ & Hok).
  assert (r = Ok ["Admin"; "Guest"]) as Hr.
  { vm_compute in Hnames. by injection Hnames as _ <-. }
  destruct (Hok _ Hr) as (Hne & _ & _).
  exists w'. split_and!; [by rewrite Hr | exact Hdisk | exact Hcalls | by apply Hne].
Defined.

(** X18: when the command gives up before retrieving. With no selector at
    all it throws ["You must provide either --name, --sourcedir, or
    --all."]; with [--sourcedir] and no profile file below the directory,
    ["No .profile-meta.xml files found in "] followed by the directory;
    with [--all] and no usable entry in the listing, ["No profiles found in
    the org."]; and a failure of the scan or of the listing is passed on.
    In each case no [metadata.read] has been issued and nothing has been
    written. An empty [--sourcedir] counts as not given. *)
Theorem run_command_gives_up {St Fs : Type}
    (metadata_read : St -> string -> list string -> St * Result JsValue)
    (metadata_list : St -> string -> St * Result ListResult)
    (build : JsValue -> string) (parse : string -> Result (list (string * JsValue)))
    (mkdirSync : Fs -> string -> Fs * Result unit)
    (writeFileSync : Fs -> string -> string -> Fs * Result unit)
    (readdirSync : Fs -> string -> Result (list Dirent))
    (path_join path_basename : string -> string -> string)
    (stack : nat) (flags : Flags) (w : World St Fs) :
  let command :=
    run_command metadata_read metadata_list build parse mkdirSync writeFileSync
      readdirSync path_join path_basename stack flags w in
  let listed st' := {| remote := st'; calls := calls w; disk := disk w |} in
  flag_name flags = None ->
  (forall c dir, flag_sourcedir flags = Some (String c dir) ->
     match getProfileNamesFromDir readdirSync path_join path_basename stack (disk w)
             (String c dir) with
     | Ok [] => command = (w, Thrown (NO_FILES_FOUND +:+ String c dir))
     | Ok (_ :: _) => True
     | Thrown msg => command = (w, Thrown msg)
     end) /\
  (flag_sourcedir flags = None \/ flag_sourcedir flags = Some EmptyString ->
   if flag_all flags then
     match metadata_list (remote w) "Profile" with
     | (st', Ok listResult) =>
         names_from_list listResult = [] ->
         command = (listed st', Thrown NO_PROFILES_IN_ORG)
     | (st', Thrown msg) => command = (listed st', Thrown msg)
     end
   else command = (w, Thrown NO_SELECTOR)).
Proof.
  intros command listed Hname. subst command. split.
  - intros c dir Hdir.
    destruct (getProfileNamesFromDir _ _ _ stack (disk w) (String c dir))
      as [[|n names]|msg] eqn:Hscan; [|done|];
      apply run_command_thrown; unfold resolveProfileNames;
      rewrite Hname, Hdir; unfold bind; by rewrite Hscan.
  - intros Hdir.
    assert (resolveProfileNames metadata_list readdirSync path_join path_basename
              stack flags w =
            (if flag_all flags then
               await listResult <- list_call metadata_list "Profile";
               let profileNames := names_from_list listResult in
               if Nat.eqb (length profileNames) 0 then lift (Thrown NO_PROFILES_IN_ORG)
               else ret profileNames
             else lift (Thrown NO_SELECTOR)) w) as Hresolve.
    { unfold resolveProfileNames. rewrite Hname. by destruct Hdir as [-> | ->]. }
    destruct (flag_all flags).
    + destruct (metadata_list (remote w) "Profile") as [st' [listResult|msg]] eqn:Hlist.
      * intros Hnone. apply run_command_thrown. rewrite Hresolve.
        unfold bind, list_call. rewrite Hlist. cbv zeta. by rewrite Hnone.
      * apply run_command_thrown. rewrite Hresolve.
        unfold bind, list_call. by rewrite Hlist.
    + apply run_command_thrown. by rewrite Hresolve.
Qed.

Lemma run_command_gives_up_witness :
  run_command (Stub.resolves (JArr [])) (Double.lists (ListMany [])) Stub.build
    (Stub.parse_as []) Stub.mkdir Stub.write_file (Double.readdir []) Stub.join
    Double.basename 8 (mkFlags None (Some EmptyString) false "out" true) (Stub.world0 tt)
  = (Stub.world0 tt, Thrown NO_SELECTOR) /\
  run_command (Stub.resolves (JArr [])) (Double.lists (ListOne None)) Stub.build
    (Stub.parse_as []) Stub.mkdir Stub.write_file
    (Double.readdir [("src", [mkDirent "package.xml" false])]) Stub.join
    Double.basename 8 (mkFlags None (Some "src") true "out" true) (Stub.world0 tt)
  = (Stub.world0 tt, Thrown "No .profile-meta.xml files found in src").
Proof.
  split.
  - destruct (run_command_gives_up (Stub.resolves (JArr [])) (Double.lists (ListMany []))
                Stub.build (Stub.parse_as []) Stub.mkdir Stub.write_file
                (Double.readdir []) Stub.join Double.basename 8
                (mkFlags None (Some EmptyString) false "out" true) (Stub.world0 tt)
                eq_refl) as [_ Hnone].
    apply Hnone. by right.
  - destruct (run_command_gives_up (Stub.resolves (JArr [])) (Double.lists (ListOne None))
                Stub.build (Stub.parse_as []) Stub.mkdir Stub.write_file
                (Double.readdir [("src", [mkDirent "package.xml" false])]) Stub.join
                Double.basename 8 (mkFlags None (Some "src") true "out" true)
                (Stub.world0 tt) eq_refl) as [Hdir _].
    apply (Hdir "s"%char "rc" eq_refl).
Defined.

(** X19: [--name] is the one selector that may resolve to nothing. When
    its values leave no name (only commas and white space), the command
    does not throw: it completes without a read or a write and reports no
    outcome and three zero totals. *)
Theorem run_command_no_names_left {St Fs : Type}
    (metadata_read : St -> string -> list string -> St * Result JsValue)
    (metadata_list : St -> string -> St * Result ListResult)
    (build : JsValue -> string) (parse : string -> Result (list (string * JsValue)))
    (mkdirSync : Fs -> string -> Fs * Result unit)
    (writeFileSync : Fs -> string -> string -> Fs * Result unit)
    (readdirSync : Fs -> string -> Result (list Dirent))
    (path_join path_basename : string -> string -> string)
    (stack : nat) (flags : Flags) (values : list string) (w : World St Fs) :
  flag_name flags = Some values ->
  Forall (fun v => Forall (fun piece => trim piece = EmptyString) (split_comma v)) values ->
  run_command metadata_read metadata_list build parse mkdirSync writeFileSync
    readdirSync path_join path_basename stack flags w =
  (w, Ok {| profiles := []; totalRequested := 0; totalSuccess := 0; totalFailed := 0 |}).
Proof.
  intros Hname Hblank.
  assert (names_from_flag values = []) as Hnone.
  { clear Hname. unfold names_from_flag. induction Hblank as [|v vs Hv _ IH]; [done|].
    simpl. rewrite map_app, List.filter_app, IH, app_nil_r.
    induction Hv as [|piece pieces Hpiece _ IHv]; [done|].
    simpl. by rewrite Hpiece. }
  unfold run_command, resolveProfileNames. rewrite Hname, Hnone. done.
Qed.

Lemma run_command_no_names_left_witness :
  run_command (Stub.resolves (JArr [])) (Double.lists (ListMany [])) Stub.build
    (Stub.parse_as []) Stub.mkdir Stub.write_file (Double.readdir []) Stub.join
    Double.basename 8 (mkFlags (Some [" , "; ""]) None false "out" false) (Stub.world0 tt)
  = (Stub.world0 tt,
     Ok {| profiles := []; totalRequested := 0; totalSuccess := 0; totalFailed := 0 |}).
Proof.
  apply (run_command_no_names_left _ _ _ _ _ _ _ _ _ 8
           (mkFlags (Some [" , "; ""]) None false "out" false) [" , "; ""]).
  - reflexivity.
  - repeat constructor.
Defined.

(** ** What is written is found again *)

Lemma ends_with_suffix a suffix : ends_with (a +:+ suffix) suffix = true.
Proof.
  induction a as [|c a IH].
  - destruct suffix; simpl; rewrite ?Ascii.eqb_refl, ?String.eqb_refl; done.
  - change (String c a +:+ suffix) with (String c (a +:+ suffix)).
    cbn [ends_with]. rewrite IH. apply orb_true_r.
Qed.

Lemma ends_with_inv s suffix : ends_with s suffix = true -> exists a, s = a +:+ suffix.
Proof.
  induction s as [|c s IH].
  - cbn [ends_with]. rewrite orb_false_r. intros ->%String.eqb_eq. by exists EmptyString.
  - cbn [ends_with]. intros [->%String.eqb_eq | Hrest]%orb_true_iff.
    + by exists EmptyString.
    + destruct (IH Hrest) as (a & ->). by exists (String c a).
Qed.

(** X20: the scan and the writer agree on what a profile file is. An entry
    that is no directory is reported exactly when its name is some text
    followed by [.profile-meta.xml]; so the file that
    [writeProfileToSourceFormat] names after a profile is reported, by
    [path.basename] of that very name, whatever the profile is called. *)
Theorem scan_entry_finds_written_file
    (path_join path_basename : string -> string -> string)
    (recur : string -> Result (list string)) (dir : string) (results : list string) :
  (forall name,
      scan_entry path_join path_basename recur dir results (mkDirent name false) =
      Ok (results ++ [path_basename name PROFILE_SUFFIX]) <->
      exists a, name = a +:+ ".profile-meta.xml") /\
  (forall name,
      (forall a, name <> a +:+ ".profile-meta.xml") ->
      scan_entry path_join path_basename recur dir results (mkDirent name false) =
      Ok results) /\
  (forall profileName : JsValue,
      let fileName := js_to_string profileName +:+ ".profile-meta.xml" in
      scan_entry path_join path_basename recur dir results (mkDirent fileName false) =
      Ok (results ++ [path_basename fileName PROFILE_SUFFIX])).
Proof.
  assert (forall a,
             scan_entry path_join path_basename recur dir results
               (mkDirent (a +:+ ".profile-meta.xml") false) =
             Ok (results ++ [path_basename (a +:+ ".profile-meta.xml") PROFILE_SUFFIX]))
    as Hfound.
  { intros a. unfold scan_entry. cbn [isDirectory dirent_name].
    replace (ends_with _ PROFILE_SUFFIX) with true; [done|].
    symmetry. apply (ends_with_suffix a PROFILE_SUFFIX). }
  split_and!.
  - intros name. split.
    + unfold scan_entry. cbn [isDirectory dirent_name].
      destruct (ends_with name PROFILE_SUFFIX) eqn:Hends.
      * intros _. by apply ends_with_inv.
      * intros [= Habsurd]. apply (f_equal length) in Habsurd.
        rewrite length_app in Habsurd. simpl in Habsurd. lia.
    + intros (a & ->). apply Hfound.
  - intros name Hnot. unfold scan_entry. cbn [isDirectory dirent_name].
    destruct (ends_with name PROFILE_SUFFIX) eqn:Hends; [|done].
    apply ends_with_inv in Hends as (a & ->). by destruct (Hnot a).
  - intros profileName fileName. apply Hfound.
Qed.

Lemma scan_entry_finds_written_file_witness :
  scan_entry Stub.join Double.basename (fun _ => Ok []) "profiles" ["Admin"]
    (mkDirent "Custom: Sales.profile-meta.xml" false) = Ok ["Admin"; "Custom: Sales"] /\
  scan_entry Stub.join Double.basename (fun _ => Ok []) "profiles" ["Admin"]
    (mkDirent "package.xml" false) = Ok ["Admin"].
Proof.
  destruct (scan_entry_finds_written_file Stub.join Double.basename (fun _ => Ok [])
              "profiles" ["Admin"]) as (Hiff & Hnot & _).
  split.
  - apply (Hiff "Custom: Sales.profile-meta.xml"). by exists "Custom: Sales".
  - apply (Hnot "package.xml"). intros a Ha.
    assert (ends_with "package.xml" PROFILE_SUFFIX = true) as Hends.
    { rewrite Ha. apply ends_with_suffix. }
    vm_compute in Hends. discriminate.
Defined.
